(** * app-functions-sdk-go: store-and-forward engine, pipeline runtime,
      message-bus trigger and trigger-factory registry

    A shallow embedding of the Go sources and the properties the
    specification states about them.

    Conventions of the embedding
    - Go's [int] is a 64-bit two's-complement integer: a [Z] together with
      the wrap-around of [GoInt.wrap].
    - A [[]byte] that may be [nil] is an [option (list Byte.byte)]:
      [None] is the nil slice, [Some []] the empty non-nil one.
    - A Go [map] that may be [nil] is an [option (gmap _ _)].
    - Effects are explicit.  A computation of type [M W A] reads the state
      [W] of the outside world (database, network, whatever transforms
      touch), returns a value, the list of calls it made on its
      collaborators (logger, persistence port, message client) in program
      order, and the new world.
    - Go packages become modules of the same name. *)

From Stdlib Require Import ZArith String Ascii Permutation.
From Stdlib.Strings Require Import Byte.
From stdpp Require Import base decidable option list gmap strings pretty.

Local Open Scope string_scope.
Local Open Scope Z_scope.
Local Open Scope list_scope.
Local Open Scope stdpp_scope.

(** ** Go integers *)

Module GoInt.

Definition bits : Z := 64.
Definition max_int : Z := 2 ^ (bits - 1) - 1.
Definition min_int : Z := - 2 ^ (bits - 1).

(** Two's-complement wrap-around of an arithmetic result. *)
Definition wrap (z : Z) : Z :=
  (z + 2 ^ (bits - 1)) mod 2 ^ bits - 2 ^ (bits - 1).

Definition in_range (z : Z) : Prop := min_int <= z <= max_int.

(** [x++] *)
Definition incr (x : Z) : Z := wrap (x + 1).

End GoInt.

#[global] Instance byte_eq_dec : EqDecision Byte.byte := Byte.byte_eq_dec.

(** Go's [error] values carry a message. *)
Definition error : Type := string.

(** ** Data model *)

(** package internal/store/contracts *)
Module contracts.

Record StoredObject : Type := mkStoredObject {
  ID : string;
  AppServiceKey : string;
  Payload : list Byte.byte;
  RetryCount : Z;
  PipelinePosition : Z;
  Version : string;
  CorrelationID : string;
  EventID : string;
  EventChecksum : string
}.

#[global] Instance StoredObject_eq_dec : EqDecision StoredObject.
Proof. solve_decision. Defined.

Definition with_RetryCount (o : StoredObject) (n : Z) : StoredObject :=
  mkStoredObject (ID o) (AppServiceKey o) (Payload o) n (PipelinePosition o)
                 (Version o) (CorrelationID o) (EventID o) (EventChecksum o).

Definition with_ID (o : StoredObject) (id : string) : StoredObject :=
  mkStoredObject id (AppServiceKey o) (Payload o) (RetryCount o)
                 (PipelinePosition o) (Version o) (CorrelationID o)
                 (EventID o) (EventChecksum o).

Definition with_context_ids (o : StoredObject) (cid eid sum : string)
  : StoredObject :=
  mkStoredObject (ID o) (AppServiceKey o) (Payload o) (RetryCount o)
                 (PipelinePosition o) (Version o) cid eid sum.

(** Modelled from the spec: the constructor [contracts.NewStoredObject]
    is not part of the sources at hand.  A new stored object has the
    service key, the payload, the pipeline position and the pipeline
    hash it is given; its identifier is assigned on store and its retry
    counter starts at 0. *)
Definition NewStoredObject (appServiceKey : string) (payload : list Byte.byte)
    (pipelinePosition : Z) (version : string) : StoredObject :=
  mkStoredObject "" appServiceKey payload 0 pipelinePosition version "" "" "".

End contracts.

(** package internal/common *)
Module common.

Record StoreAndForwardInfo : Type := mkStoreAndForwardInfo {
  Enabled : bool;
  RetryInterval : Z;
  MaxRetryCount : Z
}.

Record WritableInfo : Type := mkWritableInfo {
  LogLevel : string;
  StoreAndForward : StoreAndForwardInfo
}.

Record HostInfo : Type := mkHostInfo {
  Host : string;
  Port : Z;
  Protocol : string;
  HostPublishTopic : string
}.

Record MessageBusConfig : Type := mkMessageBusConfig {
  PublishHost : HostInfo;
  BusType : string
}.

Record TriggerInfo : Type := mkTriggerInfo {
  Type_ : string;
  SubscribeTopics : string;
  PublishTopic : string;
  EdgexMessageBus : MessageBusConfig
}.

Record ConfigurationStruct : Type := mkConfigurationStruct {
  Writable : WritableInfo;
  Trigger : TriggerInfo
}.

(** [config.Writable.StoreAndForward.MaxRetryCount = n] *)
Definition set_MaxRetryCount (c : ConfigurationStruct) (n : Z)
  : ConfigurationStruct :=
  mkConfigurationStruct
    (mkWritableInfo (LogLevel (Writable c))
       (mkStoreAndForwardInfo (Enabled (StoreAndForward (Writable c)))
                              (RetryInterval (StoreAndForward (Writable c)))
                              n))
    (Trigger c).

End common.

(** package go-mod-messaging/pkg/types *)
Module types.

Record MessageEnvelope : Type := mkMessageEnvelope {
  CorrelationID : string;
  Payload : option (list Byte.byte);
  ContentType : string
}.

End types.

(** package go-mod-core-contracts/clients: the constants the sources use. *)
Module clients.
Definition CorrelationHeader : string := "X-Correlation-ID".
Definition ContentTypeJSON : string := "application/json".
Definition ContentTypeCBOR : string := "application/cbor".
End clients.

(** package appcontext: the per-message context.  The logger and the
    clients it refers to are collaborators and live in the effect trace. *)
Module appcontext.

Record Context : Type := mkContext {
  CorrelationID : string;
  InputContentType : string;
  EventID : string;
  EventChecksum : string;
  Configuration : common.ConfigurationStruct;
  OutputData : option (list Byte.byte);
  ResponseContentType : string;
  RetryData : option (list Byte.byte)
}.

End appcontext.

(** ** Events of the domain *)

(** package go-mod-core-contracts/v2/dtos: the current (V2) event. *)
Module dtos.

Record BaseReading : Type := mkBaseReading {
  ReadingApiVersion : string;
  ReadingId : string;
  ReadingCreated : Z;
  ReadingOrigin : Z;
  ReadingDeviceName : string;
  ResourceName : string;
  ReadingProfileName : string;
  ValueType : string;
  Value : string;
  BinaryValue : option (list Byte.byte);
  MediaType : string
}.

Record Event : Type := mkEvent {
  ApiVersion : string;
  Id : string;
  DeviceName : string;
  ProfileName : string;
  Created : Z;
  Origin : Z;
  Readings : list BaseReading;
  Tags : option (gmap string string)
}.

End dtos.

(** package go-mod-core-contracts/models: the legacy (V1) event. *)
Module models.

Record Reading : Type := mkReading {
  ReadingId : string;
  ReadingCreated : Z;
  ReadingOrigin : Z;
  ReadingDevice : string;
  Name : string;
  ValueType : string;
  Value : string;
  BinaryValue : option (list Byte.byte);
  MediaType : string
}.

Record Event : Type := mkEvent {
  ID : string;
  Device : string;
  Created : Z;
  Origin : Z;
  Readings : list Reading;
  Tags : option (gmap string string)
}.

End models.

(** What flows between the stages of a pipeline: Go's [interface{}]. *)
Inductive Value : Type :=
| VNil
| VBytes (b : list Byte.byte)
| VString (s : string)
| VInt (z : Z)
| VEvent (e : dtos.Event)
| VError (e : error).

Definition is_error (v : Value) : bool :=
  match v with VError _ => true | _ => false end.

(** What a call of a transform yields: its two results, or a crash. *)
Inductive StageResult : Type :=
| Returned (continuePipeline : bool) (result : Value)
| Crashed.

(** ** Effects *)

Inductive LogLevel : Type := TRACE | DEBUG | INFO | WARN | ERROR.

(** Arguments of a log call: the key/value tail of [Trace], [Error], ... or
    the values a format string of [Infof], [Sprintf], ... consumes. *)
Inductive LogArg : Type :=
| LStr (s : string)
| LInt (z : Z).

(** The calls the embedded code makes on its collaborators; [EvInvoke i r]
    is the call of the transform at position [i], which answered [r]. *)
Inductive Event : Type :=
| EvLog (lvl : LogLevel) (msg : string) (args : list LogArg)
| EvStore (item : contracts.StoredObject)
| EvRetrieveFromStore (serviceKey : string)
| EvUpdate (item : contracts.StoredObject)
| EvRemoveFromStore (item : contracts.StoredObject)
| EvInvoke (position : nat) (res : StageResult)
| EvPublish (envelope : types.MessageEnvelope) (topic : string).

Definition M (W A : Type) : Type := W -> A * list Event * W.

#[global] Instance M_ret {W} : MRet (M W) := fun A (a : A) w => (a, [], w).

#[global] Instance M_bind {W} : MBind (M W) :=
  fun A B (f : A -> M W B) (m : M W A) w =>
    let '(a, e1, w1) := m w in
    let '(b, e2, w2) := f a w1 in
    (b, e1 ++ e2, w2).

Definition emit {W} (e : Event) : M W unit := fun w => (tt, [e], w).

(** A call on a collaborator whose answer depends on, and may change, the
    world; [e] records the call. *)
Definition call {W A} (e : Event) (f : W -> A * W) : M W A :=
  fun w => let '(a, w') := f w in (a, [e], w').

Definition log {W} (lvl : LogLevel) (msg : string) (args : list LogArg)
  : M W unit := emit (EvLog lvl msg args).

Definition is_log (e : Event) : bool :=
  match e with EvLog _ _ _ => true | _ => false end.

Definition is_store (e : Event) : bool :=
  match e with EvStore _ => true | _ => false end.

(** package internal/store/db/interfaces: the persistence port. *)
Class StoreClient (W : Type) : Type := {
  Store : contracts.StoredObject -> W -> (string * option error) * W;
  RetrieveFromStore :
    string -> W -> (list contracts.StoredObject * option error) * W;
  Update : contracts.StoredObject -> W -> option error * W;
  RemoveFromStore : contracts.StoredObject -> W -> option error * W
}.

(** ** package internal/runtime *)

Module runtime.

(** [appcontext.AppFunction]: a transform acts on the context it is
    handed and on the world; [funcName] is the name Go's reflection
    reports for it. *)
Record AppFunction (W : Type) : Type := mkAppFunction {
  funcName : string;
  apply : appcontext.Context -> Value -> W ->
          StageResult * appcontext.Context * W
}.
Arguments mkAppFunction {W}.
Arguments funcName {W}.
Arguments apply {W}.

Inductive ErrorKind : Type :=
| KDecode | KStageError | KStageCrash | KConfigurationError.

Record MessageError : Type := mkMessageError {
  Kind : ErrorKind;
  Position : nat;
  ErrorCode : Z;
  Err : error
}.

Record GolangRuntime (W : Type) : Type := mkGolangRuntime {
  ServiceKey : string;
  transforms : list (AppFunction W)
}.
Arguments mkGolangRuntime {W}.
Arguments ServiceKey {W}.
Arguments transforms {W}.

(** [storeForwardInfo]; its [storeClient] is the [StoreClient] instance
    in scope. *)
Record storeForwardInfo (W : Type) : Type := mkStoreForwardInfo {
  runtime : GolangRuntime W;
  pipelineHash : string
}.
Arguments mkStoreForwardInfo {W}.
Arguments runtime {W}.
Arguments pipelineHash {W}.

Definition DefaultMinRetryInterval : Z := 5000.

(** The cases of the [select] of the retry loop. *)
Inductive SelectCase : Type := AppCtxDone | EnabledCtxDone | TimerFired.

(** How one turn of the loop of [processRetryItems] ends: with the
    [continue] after the append to [itemsToUpdate], or at the append to
    [itemsToRemove] that closes the body. *)
Inductive Turn : Type :=
| ToUpdate (item : contracts.StoredObject)
| ToRemove (item : contracts.StoredObject).

Section StoreForward.

Context {W : Type} `{!StoreClient W}.

(** [GolangRuntime.executePipeline], whose source is not at hand. *)
Variable executePipeline :
  GolangRuntime W -> Value -> string -> appcontext.Context ->
  list (AppFunction W) -> Z -> bool -> M W (option MessageError).

Definition storeForLaterRetry (sf : storeForwardInfo W)
    (payload : list Byte.byte) (edgexcontext : appcontext.Context)
    (pipelinePosition : Z) : M W unit :=
  let item := contracts.NewStoredObject (ServiceKey (runtime sf)) payload
                pipelinePosition (pipelineHash sf) in
  let item := contracts.with_context_ids item
                (appcontext.CorrelationID edgexcontext)
                (appcontext.EventID edgexcontext)
                (appcontext.EventChecksum edgexcontext) in
  log TRACE "Storing data for later retry"
      [LStr clients.CorrelationHeader;
       LStr (appcontext.CorrelationID edgexcontext)];;
  if negb (common.Enabled (common.StoreAndForward (common.Writable
             (appcontext.Configuration edgexcontext))))
  then
    log ERROR "Failed to store item for later retry"
        [LStr "error"; LStr "StoreAndForward not enabled";
         LStr clients.CorrelationHeader;
         LStr (contracts.CorrelationID item)]
  else
    '(_, err) ← call (EvStore item) (Store item);
    match err with
    | Some e =>
        log ERROR "Failed to store item for later retry"
            [LStr "error"; LStr e; LStr clients.CorrelationHeader;
             LStr (contracts.CorrelationID item)]
    | None => mret tt
    end.

Definition calculatePipelineHash (sf : storeForwardInfo W) : string :=
  fold_left (fun hash item => hash +:+ " " +:+ funcName item)
            (transforms (runtime sf)) "Pipeline-functions: ".

Definition retryExportFunction (sf : storeForwardInfo W)
    (item : contracts.StoredObject) (config : common.ConfigurationStruct)
  : M W bool :=
  let edgexContext :=
    appcontext.mkContext (contracts.CorrelationID item) ""
                         (contracts.EventID item)
                         (contracts.EventChecksum item)
                         config None "" None in
  log TRACE "Retrying stored data"
      [LStr clients.CorrelationHeader;
       LStr (appcontext.CorrelationID edgexContext)];;
  r ← executePipeline (runtime sf) (VBytes (contracts.Payload item)) ""
        edgexContext (transforms (runtime sf))
        (contracts.PipelinePosition item) true;
  mret (bool_decide (r = None)).

(** The body of the loop of [processRetryItems] for one item. *)
Definition processRetryItem (sf : storeForwardInfo W)
    (config : common.ConfigurationStruct) (item : contracts.StoredObject)
  : M W Turn :=
  let maxRetryCount :=
    common.MaxRetryCount (common.StoreAndForward (common.Writable config)) in
  let validVersion :=
    bool_decide (contracts.Version item = calculatePipelineHash sf) in
  if validVersion then
    success ← retryExportFunction sf item config;
    if negb success then
      let item :=
        contracts.with_RetryCount item
          (GoInt.incr (contracts.RetryCount item)) in
      if bool_decide (maxRetryCount = 0)
         || bool_decide (contracts.RetryCount item < maxRetryCount)
      then
        log TRACE "Export retry failed. Incrementing retry count"
            [LStr "retries"; LInt (contracts.RetryCount item);
             LStr clients.CorrelationHeader;
             LStr (contracts.CorrelationID item)];;
        mret (ToUpdate item)
      else
        log TRACE "Max retries exceeded. Removing item from DB"
            [LStr "retries"; LInt (contracts.RetryCount item);
             LStr clients.CorrelationHeader;
             LStr (contracts.CorrelationID item)];;
        mret (ToRemove item)
    else
      log TRACE "Export retry successful. Removing item from DB"
          [LStr clients.CorrelationHeader;
           LStr (contracts.CorrelationID item)];;
      mret (ToRemove item)
  else
    log TRACE "Stored data item's Function Pipeline Version doesn't match current Function Pipeline Version. Removing item from DB"
        [LStr clients.CorrelationHeader;
         LStr (contracts.CorrelationID item)];;
    mret (ToRemove item).

(** The loop of [processRetryItems] with its two accumulators. *)
Fixpoint processRetryItems_loop (sf : storeForwardInfo W)
    (config : common.ConfigurationStruct)
    (items itemsToRemove itemsToUpdate : list contracts.StoredObject)
  : M W (list contracts.StoredObject * list contracts.StoredObject) :=
  match items with
  | [] => mret (itemsToRemove, itemsToUpdate)
  | item :: rest =>
      t ← processRetryItem sf config item;
      match t with
      | ToUpdate item =>
          processRetryItems_loop sf config rest
            itemsToRemove (itemsToUpdate ++ [item])
      | ToRemove item =>
          processRetryItems_loop sf config rest
            (itemsToRemove ++ [item]) itemsToUpdate
      end
  end.

Definition processRetryItems (sf : storeForwardInfo W)
    (items : list contracts.StoredObject)
    (config : common.ConfigurationStruct)
  : M W (list contracts.StoredObject * list contracts.StoredObject) :=
  processRetryItems_loop sf config items [] [].

(** [for _, item := range itemsToRemove { RemoveFromStore ... }] *)
Fixpoint removeAll (items : list contracts.StoredObject) : M W unit :=
  match items with
  | [] => mret tt
  | item :: rest =>
      err ← call (EvRemoveFromStore item) (RemoveFromStore item);
      match err with
      | Some e =>
          log ERROR "Unable to remove stored data item from DB"
              [LStr "error"; LStr e; LStr "objectID";
               LStr (contracts.ID item); LStr clients.CorrelationHeader;
               LStr (contracts.CorrelationID item)]
      | None => mret tt
      end;;
      removeAll rest
  end.

(** [for _, item := range itemsToUpdate { Update ... }] *)
Fixpoint updateAll (items : list contracts.StoredObject) : M W unit :=
  match items with
  | [] => mret tt
  | item :: rest =>
      err ← call (EvUpdate item) (Update item);
      match err with
      | Some e =>
          log ERROR "Unable to update stored data item in DB"
              [LStr "error"; LStr e; LStr "objectID";
               LStr (contracts.ID item); LStr clients.CorrelationHeader;
               LStr (contracts.CorrelationID item)]
      | None => mret tt
      end;;
      updateAll rest
  end.

Definition retryStoredData (sf : storeForwardInfo W) (serviceKey : string)
    (config : common.ConfigurationStruct) : M W unit :=
  '(items, err) ← call (EvRetrieveFromStore serviceKey)
                       (RetrieveFromStore serviceKey);
  match err with
  | Some e =>
      log ERROR "Unable to load store and forward items from DB"
          [LStr "error"; LStr e]
  | None =>
      log DEBUG " %d stored data items found for retrying"
          [LInt (Z.of_nat (length items))];;
      if bool_decide (0 < Z.of_nat (length items)) then
        '(itemsToRemove, itemsToUpdate) ← processRetryItems sf items config;
        log DEBUG " %d stored data items will be removed post retry"
            [LInt (Z.of_nat (length itemsToRemove))];;
        log DEBUG " %d stored data items will be update post retry"
            [LInt (Z.of_nat (length itemsToUpdate))];;
        removeAll itemsToRemove;;
        updateAll itemsToUpdate
      else mret tt
  end.

(** The [for { select { ... } }] of the retry loop, run against the
    cases its [select] takes, in order.  When the list is used up the
    loop is still waiting in its [select]. *)
Fixpoint retryLoop (sf : storeForwardInfo W) (schedule : list SelectCase)
    (serviceKey : string) (config : common.ConfigurationStruct)
  : M W unit :=
  match schedule with
  | [] => mret tt
  | AppCtxDone :: _ | EnabledCtxDone :: _ =>
      log INFO "StoreAndForward Retry Loop exited" []
  | TimerFired :: rest =>
      retryStoredData sf serviceKey config;;
      retryLoop sf rest serviceKey config
  end.

(** The body of the goroutine [startStoreAndForwardRetryLoop] starts.
    [config] is a pointer in the source: the configuration is returned
    as the goroutine leaves it. *)
Definition startStoreAndForwardRetryLoop (sf : storeForwardInfo W)
    (schedule : list SelectCase) (serviceKey : string)
    (config : common.ConfigurationStruct)
  : M W common.ConfigurationStruct :=
  let retryInterval :=
    common.RetryInterval (common.StoreAndForward (common.Writable config)) in
  let retryInterval :=
    if bool_decide (retryInterval < DefaultMinRetryInterval)
    then DefaultMinRetryInterval else retryInterval in
  config ←
    (if bool_decide (common.MaxRetryCount
                       (common.StoreAndForward (common.Writable config)) < 0)
     then
       log INFO "StoreAndForward MaxRetryCount can not be less than 0, defaulting to 1" [];;
       mret (common.set_MaxRetryCount config 1)
     else mret config);
  log INFO "Starting StoreAndForward Retry Loop with %d RetryInterval and %d max retries"
      [LInt retryInterval;
       LInt (common.MaxRetryCount
               (common.StoreAndForward (common.Writable config)))];;
  retryLoop sf schedule serviceKey config;;
  mret config.

End StoreForward.

End runtime.

(** ** package internal/runtime, the pipeline driver and the decoder

    [runtime.go] is not among the sources at hand; only its tests are.
    This module follows the specification (sections 4.1 and 4.2). *)

Module runtime_model.

Import runtime.

Section Pipeline.

Context {W : Type} `{!StoreClient W}.

(** The event decoder, as far as the pipeline needs it: a value for
    the first stage, or a decode error. *)
Variable decode : types.MessageEnvelope -> Value + error.

(** Rule 2a: invoke [transforms[i](context, previousOutput)]. *)
Definition invoke (i : nat) (f : AppFunction W)
    (ctx : appcontext.Context) (previousOutput : Value)
  : M W (StageResult * appcontext.Context) :=
  fun w =>
    let '(r, ctx', w') := apply f ctx previousOutput w in
    ((r, ctx'), [EvInvoke i r], w').

(** "the context's retry-data slot is non-empty" *)
Definition retrySlotFilled (ctx : appcontext.Context) : bool :=
  match appcontext.RetryData ctx with
  | Some (_ :: _) => true
  | _ => false
  end.

Definition storeAndForwardEnabled (ctx : appcontext.Context) : bool :=
  common.Enabled (common.StoreAndForward (common.Writable
    (appcontext.Configuration ctx))).

(** Modelled from the spec: the loop of rule 2 of section 4.2, "for
    stage i from startPosition to len-1", over the stages still to
    run.  2b: a stage that cannot be invoked or panics gives a
    stage-crash error and stops.  2c: continue?=false with no error
    value ends the pipeline with success.  2d: continue?=false with an
    error value gives that error; when the retry slot is filled and
    store-and-forward is enabled the engine is asked to persist the
    item first.  By the invariants of section 3 an item is persisted
    exactly once and its retry count never resets, so the run of a
    retry ([isRetry = true]), whose item is in the store already, asks
    for nothing.  2e: otherwise the output is the next stage's input.
    Rule 3: after the last stage the result is success. *)
Fixpoint runStages (sf : storeForwardInfo W) (isRetry : bool) (i : nat)
    (stages : list (AppFunction W)) (ctx : appcontext.Context)
    (previousOutput : Value)
  : M W (option MessageError * appcontext.Context) :=
  match stages with
  | [] => mret (None, ctx)
  | f :: rest =>
      '(r, ctx) ← invoke i f ctx previousOutput;
      match r with
      | Crashed =>
          mret (Some (mkMessageError KStageCrash i 500 "stage crashed"), ctx)
      | Returned false (VError e) =>
          (if retrySlotFilled ctx && storeAndForwardEnabled ctx
              && negb isRetry
           then storeForLaterRetry sf (default [] (appcontext.RetryData ctx))
                                   ctx (Z.of_nat i)
           else mret tt);;
          mret (Some (mkMessageError KStageError i 422 e), ctx)
      | Returned false _ => mret (None, ctx)
      | Returned true output => runStages sf isRetry (S i) rest ctx output
      end
  end.

(** Modelled from the spec: [executePipeline(inputValue,
    correlation-id, context, transforms, startPosition, isRetry)],
    the driver that [processMessage] and the retry loop share;
    execution begins at [startPosition] within [transforms]. *)
Definition executePipeline (sf : storeForwardInfo W) (inputValue : Value)
    (correlationID : string) (ctx : appcontext.Context)
    (transforms : list (AppFunction W)) (startPosition : Z)
    (isRetry : bool)
  : M W (option MessageError * appcontext.Context) :=
  runStages sf isRetry (Z.to_nat startPosition)
            (drop (Z.to_nat startPosition) transforms) ctx inputValue.

(** Modelled from the spec: [processMessage(context, envelope)]
    decodes the envelope and drives the value through the whole
    pipeline; a decode error is terminal (advisory status 422). *)
Definition processMessage (sf : storeForwardInfo W)
    (ctx : appcontext.Context) (envelope : types.MessageEnvelope)
  : M W (option MessageError * appcontext.Context) :=
  match decode envelope with
  | inr e => mret (Some (mkMessageError KDecode 0 422 e), ctx)
  | inl v =>
      executePipeline sf v (types.CorrelationID envelope) ctx
                      (transforms (runtime sf)) 0 false
  end.

(** [executePipeline] as the retry loop calls it: the context the
    pipeline leaves behind is dropped. *)
Definition executePipelineForRetry (sf : storeForwardInfo W)
    (gr : GolangRuntime W) (target : Value) (topic : string)
    (ctx : appcontext.Context) (transforms : list (AppFunction W))
    (startPosition : Z) (isRetry : bool) : M W (option MessageError) :=
  '(r, _) ← executePipeline sf target topic ctx transforms
                            startPosition isRetry;
  mret r.

End Pipeline.

Section Decoder.

(** The JSON and CBOR codecs for the legacy event. *)
Variable jsonUnmarshal cborUnmarshal :
  list Byte.byte -> models.Event + error.

Definition ApiVersionV2 : string := "v2".
Definition UnknownProfileName : string := "Unknown".

(** Modelled from the spec: a legacy reading carries no profile name;
    its current form gets the literal "Unknown". *)
Definition v1ReadingToV2 (r : models.Reading) : dtos.BaseReading :=
  dtos.mkBaseReading ApiVersionV2
    (models.ReadingId r) (models.ReadingCreated r) (models.ReadingOrigin r)
    (models.ReadingDevice r) (models.Name r) UnknownProfileName
    (models.ValueType r) (models.Value r) (models.BinaryValue r)
    (models.MediaType r).

(** Modelled from the spec: legacy to current normalization of an
    event; the missing profile name becomes "Unknown". *)
Definition v1EventToV2 (e : models.Event) : dtos.Event :=
  dtos.mkEvent ApiVersionV2 (models.ID e) (models.Device e)
    UnknownProfileName (models.Created e) (models.Origin e)
    (map v1ReadingToV2 (models.Readings e)) (models.Tags e).

(** Modelled from the spec: [unmarshalV1EventToV2Event], absent from
    the sources; the codec is chosen by the content type of the
    envelope, the decoded legacy event is normalized. *)
Definition unmarshalV1EventToV2Event (envelope : types.MessageEnvelope)
  : dtos.Event + error :=
  let payload := default [] (types.Payload envelope) in
  let decoded :=
    if decide (types.ContentType envelope = clients.ContentTypeJSON)
    then jsonUnmarshal payload
    else if decide (types.ContentType envelope = clients.ContentTypeCBOR)
    then cborUnmarshal payload
    else inr "unsupported content type" in
  match decoded with
  | inl v1Event => inl (v1EventToV2 v1Event)
  | inr e => inr e
  end.

End Decoder.

End runtime_model.

(** ** package internal/trigger/messagebus *)

(** How [processMessage] of a trigger ends: it returns, or the goroutine
    panics. *)
Inductive Exit : Type :=
| Returns
| Panics (msg : string).

Definition openBrace : Byte.byte := x7b.

(** The trigger of the first release line: the context is a struct with
    public fields. *)
Module messagebus_v1.

Section Trigger.

Context {W : Type}.

(** [messaging.MessageClient.Publish] *)
Variable Publish : types.MessageEnvelope -> string -> W -> option error * W.

(** [GolangRuntime.ProcessMessage]: the error it returns and the
    context as the pipeline leaves it. *)
Variable ProcessMessage :
  appcontext.Context -> types.MessageEnvelope ->
  M W (option runtime.MessageError * appcontext.Context).

Record Trigger : Type := mkTrigger {
  Configuration : common.ConfigurationStruct
}.

Definition processMessage (trigger : Trigger) (triggerTopic : string)
    (message : types.MessageEnvelope) : M W Exit :=
  log DEBUG "Received message from MessageBus on topic '%s'. Content-Type=%s"
      [LStr triggerTopic; LStr (types.ContentType message)];;
  log TRACE "%s=%s"
      [LStr clients.CorrelationHeader; LStr (types.CorrelationID message)];;
  let edgexContext :=
    appcontext.mkContext (types.CorrelationID message) "" "" ""
                         (Configuration trigger) None "" None in
  '(messageError, edgexContext) ← ProcessMessage edgexContext message;
  match messageError with
  | Some _ => mret Returns
  | None =>
      match appcontext.OutputData edgexContext with
      | None => mret Returns
      | Some outputData =>
          let contentType : string + string :=
            if negb (bool_decide (appcontext.ResponseContentType edgexContext = ""))
            then inl (appcontext.ResponseContentType edgexContext)
            else
              match outputData with
              | [] => inr "index out of range [0] with length 0"
              | b0 :: _ =>
                  if negb (bool_decide (b0 = openBrace))
                  then inl clients.ContentTypeCBOR
                  else inl clients.ContentTypeJSON
              end in
          match contentType with
          | inr p => mret (Panics p)
          | inl contentType =>
              let outputEnvelope :=
                types.mkMessageEnvelope
                  (appcontext.CorrelationID edgexContext)
                  (appcontext.OutputData edgexContext)
                  contentType in
              let publishTopic :=
                common.PublishTopic (common.Trigger (Configuration trigger)) in
              err ← call (EvPublish outputEnvelope publishTopic)
                         (Publish outputEnvelope publishTopic);
              match err with
              | Some e =>
                  log ERROR "Failed to publish Message to bus, %v" [LStr e];;
                  mret Returns
              | None =>
                  log DEBUG "Published message to bus on '%s' topic"
                      [LStr publishTopic];;
                  log TRACE "%s=%s"
                      [LStr clients.CorrelationHeader;
                       LStr (types.CorrelationID message)];;
                  mret Returns
              end
          end
      end
  end.

End Trigger.

End messagebus_v1.

(** The trigger of the second release line: the context is built by
    [appfunction.NewContext] and read through accessors, the
    configuration comes from the container. *)
Module messagebus.

Section Trigger.

Context {W : Type}.

Variable Publish : types.MessageEnvelope -> string -> W -> option error * W.

Variable ProcessMessage :
  appcontext.Context -> types.MessageEnvelope ->
  M W (option runtime.MessageError * appcontext.Context).

(** [trigger.dic], as far as it is read: the configuration. *)
Record Trigger : Type := mkTrigger {
  dic : common.ConfigurationStruct
}.

(** [appfunction.NewContext(correlationID, dic, inputContentType)] *)
Definition NewContext (correlationID : string)
    (dic : common.ConfigurationStruct) (inputContentType : string)
  : appcontext.Context :=
  appcontext.mkContext correlationID inputContentType "" "" dic None "" None.

Definition processMessage (trigger : Trigger) (triggerTopic : string)
    (message : types.MessageEnvelope) : M W Exit :=
  log DEBUG "Received message from MessageBus on topic '%s'. Content-Type=%s"
      [LStr triggerTopic; LStr (types.ContentType message)];;
  log TRACE "%s=%s"
      [LStr clients.CorrelationHeader; LStr (types.CorrelationID message)];;
  let appContext :=
    NewContext (types.CorrelationID message) (dic trigger)
               (types.ContentType message) in
  '(messageError, appContext) ← ProcessMessage appContext message;
  match messageError with
  | Some _ => mret Returns
  | None =>
      match appcontext.OutputData appContext with
      | None => mret Returns
      | Some responseData =>
          let contentType : string + string :=
            if negb (bool_decide (appcontext.ResponseContentType appContext = ""))
            then inl (appcontext.ResponseContentType appContext)
            else
              match responseData with
              | [] => inr "index out of range [0] with length 0"
              | b0 :: _ =>
                  if negb (bool_decide (b0 = openBrace))
                  then inl clients.ContentTypeCBOR
                  else inl clients.ContentTypeJSON
              end in
          match contentType with
          | inr p => mret (Panics p)
          | inl contentType =>
              let outputEnvelope :=
                types.mkMessageEnvelope
                  (appcontext.CorrelationID appContext)
                  (appcontext.OutputData appContext)
                  contentType in
              let config := dic trigger in
              let publishTopic :=
                common.HostPublishTopic (common.PublishHost
                  (common.EdgexMessageBus (common.Trigger config))) in
              err ← call (EvPublish outputEnvelope publishTopic)
                         (Publish outputEnvelope publishTopic);
              match err with
              | Some e =>
                  log ERROR "Failed to publish Message to bus, %v" [LStr e];;
                  mret Returns
              | None =>
                  log DEBUG "Published message to bus on '%s' topic"
                      [LStr publishTopic];;
                  log TRACE "%s=%s"
                      [LStr clients.CorrelationHeader;
                       LStr (types.CorrelationID message)];;
                  mret Returns
              end
          end
      end
  end.

End Trigger.

End messagebus.

(** ** package appsdk: the trigger factory *)

Module appsdk.

(** Modelled from the spec: the three constants are declared outside the
    sources at hand; the built-in trigger types are [HTTP],
    [EDGEX-MESSAGEBUS] and [EXTERNAL-MQTT]. *)
Definition TriggerTypeMessageBus : string := "EDGEX-MESSAGEBUS".
Definition TriggerTypeHTTP : string := "HTTP".
Definition TriggerTypeMQTT : string := "EXTERNAL-MQTT".

Section TriggerFactory.

(** [W]: the world; [T]: what a custom factory builds. *)
Context {W T : Type}.

(** [strings.ToUpper] *)
Variable ToUpper : string -> string.

(** [sdk.runtime.ProcessMessage] *)
Variable ProcessMessage :
  appcontext.Context -> types.MessageEnvelope ->
  M W (option runtime.MessageError * appcontext.Context).

Record TriggerConfig : Type := mkTriggerConfig {
  Config : common.ConfigurationStruct;
  ContextBuilder : types.MessageEnvelope -> appcontext.Context;
  MessageProcessor :
    appcontext.Context -> types.MessageEnvelope -> M W (option error)
}.

(** The closure [RegisterCustomTriggerFactory] stores: it captures the
    factory the user registered. *)
Record FactoryClosure : Type := mkFactoryClosure {
  factory : TriggerConfig -> T + error
}.

Record AppFunctionsSDK : Type := mkAppFunctionsSDK {
  config : common.ConfigurationStruct;
  customTriggerFactories : option (gmap string FactoryClosure)
}.

(** The triggers [setupTrigger] can select. *)
Inductive Trigger : Type :=
| HTTPTrigger
| MessageBusTrigger
| MQTTTrigger
| CustomTrigger (t : T).

Definition defaultTriggerMessageProcessor (sdk : AppFunctionsSDK)
    (edgexcontext : appcontext.Context) (envelope : types.MessageEnvelope)
  : M W (option error) :=
  '(messageError, _) ← ProcessMessage edgexcontext envelope;
  match messageError with
  | Some me => mret (Some (runtime.Err me))
  | None => mret None
  end.

Definition defaultTriggerContextBuilder (sdk : AppFunctionsSDK)
    (env : types.MessageEnvelope) : appcontext.Context :=
  appcontext.mkContext (types.CorrelationID env) "" "" "" (config sdk)
                       None "" None.

(** Calling a stored closure: [factory(TriggerConfig{...})]. *)
Definition callFactory (c : FactoryClosure) (sdk : AppFunctionsSDK)
  : T + error :=
  factory c (mkTriggerConfig (config sdk)
                             (defaultTriggerContextBuilder sdk)
                             (defaultTriggerMessageProcessor sdk)).

(** The Go method mutates [sdk] through its pointer receiver and
    returns an [error]; here the SDK is returned next to it. *)
Definition RegisterCustomTriggerFactory (sdk : AppFunctionsSDK)
    (name : string) (factory : TriggerConfig -> T + error)
  : option error * AppFunctionsSDK :=
  let nu := ToUpper name in
  if bool_decide (nu = TriggerTypeMessageBus)
     || bool_decide (nu = TriggerTypeHTTP)
     || bool_decide (nu = TriggerTypeMQTT)
  then
    (Some ("cannot register custom trigger for builtin type ("
             +:+ name +:+ ")"), sdk)
  else
    let factories :=
      match customTriggerFactories sdk with
      | None => ∅
      | Some m => m
      end in
    (None,
     mkAppFunctionsSDK (config sdk)
       (Some (<[nu := mkFactoryClosure factory]> factories))).

Definition setupTrigger (sdk : AppFunctionsSDK)
    (configuration : common.ConfigurationStruct) : M W (option Trigger) :=
  let triggerType :=
    ToUpper (common.Type_ (common.Trigger configuration)) in
  if bool_decide (triggerType = TriggerTypeHTTP) then
    log INFO "HTTP trigger selected" [];;
    mret (Some HTTPTrigger)
  else if bool_decide (triggerType = TriggerTypeMessageBus) then
    log INFO "EdgeX MessageBus trigger selected" [];;
    mret (Some MessageBusTrigger)
  else if bool_decide (triggerType = TriggerTypeMQTT) then
    log INFO "External MQTT trigger selected" [];;
    mret (Some MQTTTrigger)
  else
    match default ∅ (customTriggerFactories sdk) !! triggerType with
    | Some f =>
        match callFactory f sdk with
        | inl t => mret (Some (CustomTrigger t))
        | inr err =>
            log ERROR "failed to initialize custom trigger [%s]: %s"
                [LStr triggerType; LStr err];;
            mret None
        end
    | None =>
        log ERROR "Invalid Trigger type of '%s' specified"
            [LStr (common.Type_ (common.Trigger configuration))];;
        mret None
    end.

End TriggerFactory.

End appsdk.

(** ** Auxiliary definitions for the statements *)

(** Where a turn of the retry loop puts its item. *)
Definition turnRemove (t : runtime.Turn) : list contracts.StoredObject :=
  match t with runtime.ToRemove item => [item] | runtime.ToUpdate _ => [] end.

Definition turnUpdate (t : runtime.Turn) : list contracts.StoredObject :=
  match t with runtime.ToUpdate item => [item] | runtime.ToRemove _ => [] end.

Definition maxRetryCountOf (config : common.ConfigurationStruct) : Z :=
  common.MaxRetryCount (common.StoreAndForward (common.Writable config)).

(** The item as a failed retry leaves it. *)
Definition afterFailedRetry (item : contracts.StoredObject)
  : contracts.StoredObject :=
  contracts.with_RetryCount item (GoInt.incr (contracts.RetryCount item)).

(** The parts of what [processRetryItems] returns in a given world. *)
Definition removeSet {W : Type}
    (r : list contracts.StoredObject * list contracts.StoredObject
         * list Event * W) : list contracts.StoredObject := r.1.1.1.

Definition updateSet {W : Type}
    (r : list contracts.StoredObject * list contracts.StoredObject
         * list Event * W) : list contracts.StoredObject := r.1.1.2.

(** Two stored objects that agree on every field but the retry counter. *)
Definition sameButRetryCount (a b : contracts.StoredObject) : Prop :=
  contracts.with_RetryCount a 0 = contracts.with_RetryCount b 0.

(** The object [storeForLaterRetry] hands to the persistence port. *)
Definition itemToStore {W : Type} (sf : runtime.storeForwardInfo W)
    (payload : list Byte.byte) (ctx : appcontext.Context) (position : Z)
  : contracts.StoredObject :=
  contracts.mkStoredObject "" (runtime.ServiceKey (runtime.runtime sf))
    payload 0 position (runtime.pipelineHash sf)
    (appcontext.CorrelationID ctx) (appcontext.EventID ctx)
    (appcontext.EventChecksum ctx).

(** The content type the trigger gives a response that has a first
    byte or an explicit content type. *)
Definition chosenContentType (explicit : string) (first : option Byte.byte)
  : string :=
  if decide (explicit = "") then
    match first with
    | Some b => if decide (b = openBrace) then clients.ContentTypeJSON
                else clients.ContentTypeCBOR
    | None => clients.ContentTypeCBOR
    end
  else explicit.

(** The context the first-line trigger builds for a message. *)
Definition contextV1 (trigger : messagebus_v1.Trigger)
    (message : types.MessageEnvelope) : appcontext.Context :=
  appcontext.mkContext (types.CorrelationID message) "" "" ""
                       (messagebus_v1.Configuration trigger) None "" None.

Definition contextV2 (trigger : messagebus.Trigger)
    (message : types.MessageEnvelope) : appcontext.Context :=
  messagebus.NewContext (types.CorrelationID message)
                        (messagebus.dic trigger) (types.ContentType message).

(** The built-in trigger types. *)
Definition builtinTriggerType (nu : string) : Prop :=
  nu = appsdk.TriggerTypeHTTP \/ nu = appsdk.TriggerTypeMessageBus
  \/ nu = appsdk.TriggerTypeMQTT.

(** The factory registry read as a map: a nil map has no entries. *)
Definition registryOf {W T : Type} (sdk : @appsdk.AppFunctionsSDK W T)
  : gmap string (@appsdk.FactoryClosure W T) :=
  default ∅ (appsdk.customTriggerFactories sdk).

(** The calls that write to the persistence port. *)
Definition isPortWrite (e : Event) : bool :=
  match e with
  | EvRemoveFromStore _ | EvUpdate _ => true
  | _ => false
  end.

(** A name without a space character. *)
Fixpoint noSpace (s : string) : bool :=
  match s with
  | EmptyString => true
  | String c rest => negb (Ascii.eqb c " ") && noSpace rest
  end.

(** The names of a pipeline as [calculatePipelineHash] writes them after
    its prefix: each one behind a space. *)
Fixpoint joinNames (names : list string) : string :=
  match names with
  | [] => ""
  | n :: rest => " " +:+ n +:+ joinNames rest
  end.

(** ** Fixtures: an in-memory store, sample transforms, sample items *)

Module fixtures.

(** The world of the examples: the rows of the store, the counter that
    names new rows, whether the export endpoint answers, and what has
    been delivered to it. *)
Record World : Type := mkWorld {
  rows : list contracts.StoredObject;
  nextId : nat;
  reachable : bool;
  delivered : list (list Byte.byte)
}.

Definition set_rows (w : World) (rs : list contracts.StoredObject) : World :=
  mkWorld rs (nextId w) (reachable w) (delivered w).

#[global] Instance memoryStore : StoreClient World := {|
  Store item w :=
    let id := "id-" +:+ pretty.pretty (nextId w) in
    ((id, None),
     mkWorld (rows w ++ [contracts.with_ID item id]) (S (nextId w))
             (reachable w) (delivered w));
  RetrieveFromStore key w :=
    ((filter (fun o => contracts.AppServiceKey o = key) (rows w), None), w);
  Update item w :=
    (None,
     set_rows w (map (fun o => if decide (contracts.ID o = contracts.ID item)
                               then item else o) (rows w)));
  RemoveFromStore item w :=
    (None,
     set_rows w (filter (fun o => contracts.ID o <> contracts.ID item) (rows w)))
|}.

Definition passthrough : runtime.AppFunction World :=
  runtime.mkAppFunction "main.passthrough"
    (fun ctx v w => (Returned true v, ctx, w)).

(** An export stage: it delivers bytes when the endpoint answers;
    otherwise it fills the retry slot and returns an error. *)
Definition export : runtime.AppFunction World :=
  runtime.mkAppFunction "transforms.HTTPSender.HTTPPost"
    (fun ctx v w =>
       match v with
       | VBytes data =>
           if reachable w
           then (Returned true (VBytes data), ctx,
                 mkWorld (rows w) (nextId w) (reachable w)
                         (delivered w ++ [data]))
           else (Returned false (VError "connection refused"),
                 appcontext.mkContext
                   (appcontext.CorrelationID ctx)
                   (appcontext.InputContentType ctx)
                   (appcontext.EventID ctx) (appcontext.EventChecksum ctx)
                   (appcontext.Configuration ctx)
                   (appcontext.OutputData ctx)
                   (appcontext.ResponseContentType ctx) (Some data),
                 w)
       | _ => (Returned false (VError "No Data Received"), ctx, w)
       end).

(** The three transforms of [TestProcessMessageThreeCustomTransformsOneFail]. *)
Definition transform1 : runtime.AppFunction World :=
  runtime.mkAppFunction "runtime.transform1"
    (fun ctx v w => (Returned false (VString "Transform1Result"), ctx, w)).

Definition transform2 : runtime.AppFunction World :=
  runtime.mkAppFunction "runtime.transform2"
    (fun ctx v w => (Returned true (VString "Hello"), ctx, w)).

Definition transform3 : runtime.AppFunction World :=
  runtime.mkAppFunction "runtime.transform3"
    (fun ctx v w => (Returned true (VString "Hello"), ctx, w)).

Definition serviceKey : string := "AppService-UnitTest".

Definition config (enabled : bool) (maxRetryCount : Z)
  : common.ConfigurationStruct :=
  common.mkConfigurationStruct
    (common.mkWritableInfo "DEBUG"
       (common.mkStoreAndForwardInfo enabled 5000 maxRetryCount))
    (common.mkTriggerInfo "edgex-messagebus" "events" "responses"
       (common.mkMessageBusConfig
          (common.mkHostInfo "localhost" 5563 "tcp" "responses") "zero")).

Definition exportRuntime : runtime.GolangRuntime World :=
  runtime.mkGolangRuntime serviceKey [passthrough; export].

Definition exportHash : string :=
  "Pipeline-functions:  main.passthrough transforms.HTTPSender.HTTPPost".

Definition exportEngine : runtime.storeForwardInfo World :=
  runtime.mkStoreForwardInfo exportRuntime exportHash.

Definition threeStageEngine : runtime.storeForwardInfo World :=
  runtime.mkStoreForwardInfo
    (runtime.mkGolangRuntime serviceKey [transform1; transform2; transform3])
    "Pipeline-functions:  runtime.transform1 runtime.transform2 runtime.transform3".

(** The pipeline driver the retry loop of the examples calls. *)
Definition executePipeline :=
  runtime_model.executePipelineForRetry exportEngine.

Definition payload : list Byte.byte := [x4d; x79].

Definition storedItem (id : string) (retryCount : Z) (version : string)
  : contracts.StoredObject :=
  contracts.mkStoredObject id serviceKey payload retryCount 1 version
                           "CorrelationID" "" "".

Definition offline : World := mkWorld [] 0 false [].
Definition online : World := mkWorld [] 0 true [].

Definition context (enabled : bool) : appcontext.Context :=
  appcontext.mkContext "CorrelationID" "application/json" "" ""
                       (config enabled 10) None "" None.

Definition envelope : types.MessageEnvelope :=
  types.mkMessageEnvelope "123-234-345-456" (Some payload)
                          clients.ContentTypeJSON.

(** A decoder for the examples: the payload itself is the value. *)
Definition decodeBytes (e : types.MessageEnvelope) : Value + error :=
  match types.Payload e with
  | Some b => inl (VBytes b)
  | None => inr "no payload"
  end.

(** [strings.ToUpper] on ASCII letters; other characters are kept. *)
Definition upperAscii (c : ascii) : ascii :=
  let n := nat_of_ascii c in
  if ((97 <=? n)%nat && (n <=? 122)%nat)%bool
  then ascii_of_nat (n - 32) else c.

Fixpoint ToUpper (s : string) : string :=
  match s with
  | EmptyString => EmptyString
  | String c rest => String (upperAscii c) (ToUpper rest)
  end.

(** A pipeline that answers with the given response slots. *)
Definition respondWith (data : option (list Byte.byte)) (contentType : string)
    (ctx : appcontext.Context) (_ : types.MessageEnvelope)
  : M World (option runtime.MessageError * appcontext.Context) :=
  mret (None,
        appcontext.mkContext (appcontext.CorrelationID ctx)
          (appcontext.InputContentType ctx) (appcontext.EventID ctx)
          (appcontext.EventChecksum ctx) (appcontext.Configuration ctx)
          data contentType (appcontext.RetryData ctx)).

(** A message client whose [Publish] succeeds. *)
Definition publishOk (_ : types.MessageEnvelope) (_ : string) (w : World)
  : option error * World := (None, w).

(** The legacy event of the tests of the runtime and its codecs: the
    payloads "J" and "C" stand for its JSON and CBOR encodings. *)
Definition testV1Event : models.Event :=
  models.mkEvent "82eb2e26-0f24-48aa-ae4c-de9dac3fb9bc"
    "FamilyRoomThermostat" 1600000000 1600000000
    [models.mkReading "82eb2e26-0f24-48aa-ae4c-de9dac3f1234"
       1600000000 1600000000 "FamilyRoomThermostat" "Temperature"
       "Int64" "72" None ""]
    None.

Definition jsonUnmarshal (b : list Byte.byte) : models.Event + error :=
  if decide (b = [x4a]) then inl testV1Event else inr "invalid character".

Definition cborUnmarshal (b : list Byte.byte) : models.Event + error :=
  if decide (b = [x43]) then inl testV1Event else inr "cbor: unexpected EOF".

End fixtures.

(** ** package transforms, first release line: the filters

    These transforms take the context by value and a Go [...interface{}];
    [println] writes a line to the standard error stream. *)

Module transforms_v0.

(** [edgex-go/pkg/models]: the fields of [models.Event] and
    [models.Reading] the filters read or write, and the identifier, which
    stands for the fields they leave at their zero value. *)
Record Reading : Type := mkReading {
  Name : string;
  Value : string
}.

Record Event : Type := mkEvent {
  ID : string;
  Pushed : Z;
  Device : string;
  Created : Z;
  Modified : Z;
  Origin : Z;
  Readings : list Reading
}.

(** An argument or a result of a transform. *)
Inductive Param : Type :=
| PNil
| PEvent (e : Event)
| PString (s : string)
| PError (e : error).

(** What a call yields: the lines printed, and the two results or the
    panic of a failed type assertion. *)
Inductive Outcome : Type :=
| Results (continuePipeline : bool) (result : Param)
| Panic.

Record Filter : Type := mkFilter {
  FilterValues : list string
}.

(** [for _, devID := range deviceIDs { if event.Device == devID { return
    true, event } }; return false, nil] *)
Fixpoint matchDevice (event : Event) (deviceIDs : list string) : Outcome :=
  match deviceIDs with
  | [] => Results false PNil
  | devID :: rest =>
      if bool_decide (Device event = devID) then Results true (PEvent event)
      else matchDevice event rest
  end.

Definition FilterByDeviceID (f : Filter) (params : list Param)
  : list string * Outcome :=
  let printed := ["FILTER BY DEVICEID"] in
  if negb (bool_decide (length params = 1%nat)) then
    (printed, Results false (PError "No Event Received"))
  else
    let deviceIDs := FilterValues f in
    match params with
    | PEvent event :: _ => (printed, matchDevice event deviceIDs)
    | _ => (printed, Panic)
    end.

(** The inner loop: [for _, reading := range existingEvent.Readings]. *)
Fixpoint appendMatching (filterID : string) (readings : list Reading)
    (aux : list Reading) : list Reading :=
  match readings with
  | [] => aux
  | reading :: rest =>
      if bool_decide (Name reading = filterID)
      then appendMatching filterID rest (aux ++ [reading])
      else appendMatching filterID rest aux
  end.

(** The outer loop: [for _, filterID := range f.FilterValues]. *)
Fixpoint filterReadings (filterIDs : list string) (readings : list Reading)
    (aux : list Reading) : list Reading :=
  match filterIDs with
  | [] => aux
  | filterID :: rest =>
      filterReadings rest readings (appendMatching filterID readings aux)
  end.

Definition FilterByValueDescriptor (f : Filter) (params : list Param)
  : list string * Outcome :=
  let printed := ["FILTER BY VALUE DESCRIPTOR ID"] in
  if negb (bool_decide (length params = 1%nat)) then
    (printed, Results false (PError "No Event Received"))
  else
    match params with
    | PEvent existingEvent :: _ =>
        let auxEvent :=
          mkEvent "" (Pushed existingEvent) (Device existingEvent)
                  (Created existingEvent) (Modified existingEvent)
                  (Origin existingEvent) [] in
        let readings :=
          filterReadings (FilterValues f) (Readings existingEvent)
                         (Readings auxEvent) in
        let auxEvent :=
          mkEvent (ID auxEvent) (Pushed auxEvent) (Device auxEvent)
                  (Created auxEvent) (Modified auxEvent) (Origin auxEvent)
                  readings in
        (printed,
         Results (bool_decide (0 < length (Readings auxEvent))%nat)
                 (PEvent auxEvent))
    | _ => (printed, Panic)
    end.

End transforms_v0.

(** ** package transforms, first release line: the HTTP sender *)

Module transforms_http.

(** What [http.Post] answers with: the status line, the status code and
    what reading the body gives. *)
Record Response : Type := mkResponse {
  Status : string;
  StatusCode : Z;
  Body : list Byte.byte + error
}.

Record HTTPSender : Type := mkHTTPSender {
  URL : string;
  MimeType : string
}.

Definition NewHTTPSender (url mimeType : string) : HTTPSender :=
  mkHTTPSender url mimeType.

(** A call whose effect stays in the world. *)
Definition inWorld {W A : Type} (f : W -> A * W) : M W A :=
  fun w => let '(a, w') := f w in (a, [], w').

Section Sender.

Context {W : Type}.

(** [util.CoerceType] *)
Variable CoerceType : Value -> list Byte.byte + error.

(** [http.Post(url, mimeType, body)] *)
Variable httpPost :
  string -> string -> list Byte.byte -> W -> (Response + error) * W.

(** [edgexcontext.MarkAsPushed()] *)
Variable MarkAsPushed : appcontext.Context -> W -> option error * W.

(** [string(data)] *)
Definition stringOf (data : list Byte.byte) : string :=
  string_of_list_byte data.

Definition HTTPPost (sender : HTTPSender) (edgexcontext : appcontext.Context)
    (params : list Value) : M W (bool * Value) :=
  match params with
  | [] => mret (false, VError "No Data Received")
  | param0 :: _ =>
      let sender :=
        if bool_decide (MimeType sender = "")
        then mkHTTPSender (URL sender) "application/json" else sender in
      match CoerceType param0 with
      | inr err => mret (false, VError err)
      | inl data =>
          log INFO "POSTing data" [];;
          r ← inWorld (httpPost (URL sender) (MimeType sender) data);
          match r with
          | inr err => mret (false, VError err)
          | inl response =>
              log INFO "Response: %s" [LStr (Status response)];;
              log DEBUG "Sent data: %s" [LStr (stringOf data)];;
              match Body response with
              | inr errReadingBody => mret (false, VError errReadingBody)
              | inl bodyBytes =>
                  log TRACE "Data exported"
                      [LStr "Transport"; LStr "HTTP";
                       LStr clients.CorrelationHeader;
                       LStr (appcontext.CorrelationID edgexcontext)];;
                  let isSuccessfulPost :=
                    bool_decide (200 <= StatusCode response)
                    && bool_decide (StatusCode response < 300) in
                  (if isSuccessfulPost then
                     err ← inWorld (MarkAsPushed edgexcontext);
                     match err with
                     | Some e => log ERROR e []
                     | None => mret tt
                     end
                   else mret tt);;
                  mret (isSuccessfulPost, VBytes bodyBytes)
              end
          end
      end
  end.

End Sender.

End transforms_http.

(** ** package appsdk: the configurable pipeline *)

Module configurable.

Definition EncryptionKey : string := "key".
Definition InitVector : string := "initvector".
Definition Url : string := "url".
Definition MimeType : string := "mimetype".
Definition PersistOnError : string := "persistonerror".
Definition HeaderName : string := "headername".
Definition SecretPath : string := "secretpath".
Definition SecretName : string := "secretname".

(** [strconv.ParseBool]; [None] is its syntax error. *)
Definition ParseBool (str : string) : option bool :=
  if bool_decide (str ∈ ["1"; "t"; "T"; "true"; "TRUE"; "True"]) then Some true
  else if bool_decide (str ∈ ["0"; "f"; "F"; "false"; "FALSE"; "False"])
  then Some false
  else None.

(** The six values [processPostPutParameters] returns before its error. *)
Record PostPut : Type := mkPostPut {
  url : string;
  mimeType : string;
  persistOnError : bool;
  headerName : string;
  secretPath : string;
  secretName : string
}.

Definition noPostPut : PostPut := mkPostPut "" "" false "" "" "".

(** [parameters[key]] without the comma-ok form: the zero value for a
    missing key. *)
Definition valueOf (parameters : gmap string string) (key : string) : string :=
  default "" (parameters !! key).

(** [transforms.Encryption], the receiver of the method value
    [EncryptWithAES] returns. *)
Record Encryption : Type := mkEncryption {
  EncEncryptionKey : string;
  InitializationVector : string;
  EncSecretPath : string;
  EncSecretName : string
}.

Section Parameters.

(** [strings.TrimSpace] *)
Variable TrimSpace : string -> string.

(** The text of the error of [strconv.ParseBool] for an input. *)
Variable parseBoolError : string -> string.

Definition processPostPutParameters (parameters : gmap string string)
  : PostPut * option error :=
  match parameters !! Url with
  | None => (noPostPut, Some ("HTTPPut Could not find " +:+ Url))
  | Some url =>
      match parameters !! MimeType with
      | None => (noPostPut, Some ("HTTPPut Could not find " +:+ MimeType))
      | Some mimeType =>
          let parsed : bool + error :=
            match parameters !! PersistOnError with
            | Some value =>
                match ParseBool value with
                | Some b => inl b
                | None =>
                    inr ("HTTPPut Could not parse '" +:+ value
                         +:+ "' to a bool for '" +:+ PersistOnError
                         +:+ "' parameter: " +:+ parseBoolError value)
                end
            | None => inl false
            end in
          match parsed with
          | inr err => (noPostPut, Some err)
          | inl persistOnError =>
              let url := TrimSpace url in
              let mimeType := TrimSpace mimeType in
              let headerName := TrimSpace (valueOf parameters HeaderName) in
              let secretPath := TrimSpace (valueOf parameters SecretPath) in
              let secretName := TrimSpace (valueOf parameters SecretName) in
              if bool_decide (String.length headerName = 0%nat)
                 && negb (bool_decide (String.length secretPath = 0%nat))
                 && negb (bool_decide (String.length secretName = 0%nat))
              then (noPostPut,
                    Some ("HTTPPost missing " +:+ HeaderName +:+ " since "
                          +:+ SecretPath +:+ " & " +:+ SecretName
                          +:+ " are specified"))
              else if bool_decide (String.length secretPath = 0%nat)
                      && negb (bool_decide (String.length headerName = 0%nat))
                      && negb (bool_decide (String.length secretName = 0%nat))
              then (noPostPut,
                    Some ("HTTPPost missing " +:+ SecretPath +:+ " since "
                          +:+ HeaderName +:+ " & " +:+ SecretName
                          +:+ " are specified"))
              else if bool_decide (String.length secretName = 0%nat)
                      && negb (bool_decide (String.length secretPath = 0%nat))
                      && negb (bool_decide (String.length headerName = 0%nat))
              then (noPostPut,
                    Some ("HTTPPost missing " +:+ SecretName +:+ " since "
                          +:+ SecretPath +:+ " & " +:+ HeaderName
                          +:+ " are specified"))
              else (mkPostPut url mimeType persistOnError headerName
                              secretPath secretName, None)
          end
      end
  end.

(** [EncryptWithAES]: the transform it returns, or nil, and its log
    calls. *)
Definition EncryptWithAES (parameters : gmap string string)
  : option Encryption * list Event :=
  let secretPath := valueOf parameters SecretPath in
  let secretName := valueOf parameters SecretName in
  let encryptionKey := valueOf parameters EncryptionKey in
  if bool_decide (String.length encryptionKey = 0%nat)
     && (bool_decide (String.length secretPath = 0%nat)
         || bool_decide (String.length secretName = 0%nat))
  then (None,
        [EvLog ERROR "Could not find '%s' or '%s' and '%s' in configuration"
           [LStr EncryptionKey; LStr SecretPath; LStr SecretName]])
  else if (negb (bool_decide (String.length secretPath = 0%nat))
           && bool_decide (String.length secretName = 0%nat))
          || (bool_decide (String.length secretPath = 0%nat)
              && negb (bool_decide (String.length secretName = 0%nat)))
  then (None,
        [EvLog ERROR "'%s' and '%s' both must be set in configuration"
           [LStr SecretPath; LStr SecretName]])
  else
    match parameters !! InitVector with
    | None => (None, [EvLog ERROR ("Could not find " +:+ InitVector) []])
    | Some initVector =>
        (Some (mkEncryption encryptionKey initVector secretPath secretName), [])
    end.

End Parameters.

End configurable.

(** ** package internal/trigger/messagebus: the optional authentication *)

Module messagebus_auth.

(** [go-mod-messaging/pkg/types]: the client configuration. *)
Record HostInfo : Type := mkHostInfo {
  Host : string;
  Port : Z;
  Protocol : string
}.

Record MessageBusConfig : Type := mkMessageBusConfig {
  PublishHost : HostInfo;
  SubscribeHost : HostInfo;
  Type_ : string;
  Optional : option (gmap string string)
}.

(** [go-mod-bootstrap/bootstrap/messaging.SecretData] *)
Record SecretData : Type := mkSecretData {
  Username : string;
  Password : string;
  KeyPemBlock : list Byte.byte;
  CertPemBlock : list Byte.byte;
  CaPemBlock : list Byte.byte
}.

(** [m[key]] on a map that may be nil. *)
Definition optionOf (m : option (gmap string string)) (key : string) : string :=
  default "" (default ∅ m !! key).

(** [messageBusConfig.Optional = ...] *)
Definition setOptional (c : MessageBusConfig) (m : option (gmap string string))
  : MessageBusConfig :=
  mkMessageBusConfig (PublishHost c) (SubscribeHost c) (Type_ c) m.

Section Auth.

(** What [bootstrapContainer.SecretProviderFrom] hands out. *)
Context {Provider : Type}.

(** [strings.ToLower] and [strings.TrimSpace] *)
Variable ToLower TrimSpace : string -> string.

(** The constants of [go-mod-bootstrap/bootstrap/messaging]. *)
Variable AuthModeKey SecretNameKey : string.
Variable AuthModeNone AuthModeUsernamePassword AuthModeCert AuthModeCA : string.
Variable OptionsUsernameKey OptionsPasswordKey : string.
Variable OptionsCertPEMBlockKey OptionsKeyPEMBlockKey OptionsCaPEMBlockKey
  : string.

(** [bootstrapMessaging.GetSecretData] and [ValidateSecretData] *)
Variable GetSecretData : string -> string -> Provider -> SecretData + error.
Variable ValidateSecretData : string -> string -> SecretData -> option error.

(** The method changes [messageBusConfig] through its pointer and
    returns an [error]; here the configuration is returned next to the
    error, and the log calls after them. *)
Definition setOptionalAuthData (messageBusConfig : MessageBusConfig)
    (secretProvider : option Provider)
  : option error * MessageBusConfig * list Event :=
  let authMode :=
    ToLower (TrimSpace (optionOf (Optional messageBusConfig) AuthModeKey)) in
  if bool_decide (String.length authMode = 0%nat)
     || bool_decide (authMode = AuthModeNone)
  then (None, messageBusConfig, [])
  else
    let secretName := optionOf (Optional messageBusConfig) SecretNameKey in
    let logged :=
      [EvLog INFO "Setting options for secure MessageBus with AuthMode='%s' and SecretName='%s"
         [LStr authMode; LStr secretName]] in
    match secretProvider with
    | None =>
        (Some "secret provider is missing. Make sure it is specified to be used in bootstrap.Run()",
         messageBusConfig, logged)
    | Some secretProvider =>
        match GetSecretData authMode secretName secretProvider with
        | inr err =>
            (Some ("Unable to get Secret Data for secure message bus: " +:+ err),
             messageBusConfig, logged)
        | inl secretData =>
            match ValidateSecretData authMode secretName secretData with
            | Some err =>
                (Some ("Secret Data for secure message bus invalid: " +:+ err),
                 messageBusConfig, logged)
            | None =>
                let optional : gmap string string :=
                  match Optional messageBusConfig with
                  | None => ∅
                  | Some m => m
                  end in
                let optional :=
                  if bool_decide (authMode = AuthModeUsernamePassword) then
                    <[OptionsPasswordKey := Password secretData]>
                      (<[OptionsUsernameKey := Username secretData]> optional)
                  else if bool_decide (authMode = AuthModeCert) then
                    <[OptionsKeyPEMBlockKey :=
                        string_of_list_byte (KeyPemBlock secretData)]>
                      (<[OptionsCertPEMBlockKey :=
                           string_of_list_byte (CertPemBlock secretData)]>
                         optional)
                  else if bool_decide (authMode = AuthModeCA) then
                    <[OptionsCaPEMBlockKey :=
                        string_of_list_byte (CaPemBlock secretData)]> optional
                  else optional in
                (None, setOptional messageBusConfig (Some optional), logged)
            end
        end
    end.

End Auth.

End messagebus_auth.

(** ** Auxiliary definitions for the further statements *)

(** The readings [FilterByValueDescriptor] keeps: for each filter value in
    turn, the readings of that name in the order of the event. *)
Definition groupedByFilter (filterIDs : list string)
    (readings : list transforms_v0.Reading) : list transforms_v0.Reading :=
  filterIDs ≫= (fun filterID =>
                  filter (fun r => transforms_v0.Name r = filterID) readings).

(** Exactly two of three strings are not empty. *)
Definition exactlyTwoSet (a b c : string) : Prop :=
  (a = "" /\ b <> "" /\ c <> "")
  \/ (b = "" /\ a <> "" /\ c <> "")
  \/ (c = "" /\ b <> "" /\ a <> "").

(** The mime type a sender posts with. *)
Definition effectiveMimeType (sender : transforms_http.HTTPSender) : string :=
  if decide (transforms_http.MimeType sender = "") then "application/json"
  else transforms_http.MimeType sender.

(** The fixtures of the further statements. *)
Module more_fixtures.

(** A store whose [RetrieveFromStore] fails though it returns a row. *)
#[global] Instance brokenStore : StoreClient (list contracts.StoredObject) := {|
  Store item w := (("", Some "store is read-only"), w);
  RetrieveFromStore key w := ((w, Some "connection lost"), w);
  Update item w := (Some "store is read-only", w);
  RemoveFromStore item w := (Some "store is read-only", w)
|}.

(** A pipeline driver that fails without touching anything. *)
Definition failingPipeline {W : Type}
    (_ : runtime.GolangRuntime W) (_ : Value) (_ : string)
    (_ : appcontext.Context) (_ : list (runtime.AppFunction W)) (_ : Z)
    (_ : bool) : M W (option runtime.MessageError) :=
  mret (Some (runtime.mkMessageError runtime.KStageError 0 422 "export failed")).

Definition brokenEngine : runtime.storeForwardInfo (list contracts.StoredObject) :=
  runtime.mkStoreForwardInfo (runtime.mkGolangRuntime "svc" []) "".

(** An endpoint that answers every post with the status of the world and
    echoes the data; the world counts the events marked as pushed. *)
Definition coerceBytes (v : Value) : list Byte.byte + error :=
  match v with
  | VBytes b => inl b
  | _ => inr "marshaling input data to JSON failed"
  end.

Definition postEcho (url mime : string) (data : list Byte.byte) (w : Z * nat)
  : (transforms_http.Response + error) * (Z * nat) :=
  (inl (transforms_http.mkResponse "status" w.1 (inl data)), w).

Definition markPushed (_ : appcontext.Context) (w : Z * nat)
  : option error * (Z * nat) := (None, (w.1, S w.2)).

(** The constants of the secure message bus and a provider with one
    secret. *)
Definition secret : messagebus_auth.SecretData :=
  messagebus_auth.mkSecretData "user" "pass" [] [] [].

Definition getSecret (mode name : string) (provider : unit)
  : messagebus_auth.SecretData + error :=
  if decide (name = "mqtt-bus") then inl secret else inr "no such secret".

Definition validateSecret (mode name : string)
    (data : messagebus_auth.SecretData) : option error := None.

Definition authConfig (mode : string) : messagebus_auth.MessageBusConfig :=
  messagebus_auth.mkMessageBusConfig
    (messagebus_auth.mkHostInfo "localhost" 1883 "tcp")
    (messagebus_auth.mkHostInfo "localhost" 1883 "tcp") "mqtt"
    (Some (<["authmode" := mode]> (<["secretname" := "mqtt-bus"]> ∅))).

(** A configuration that names a custom trigger, an SDK without custom
    factories, and a factory. *)
Definition customConfig : common.ConfigurationStruct :=
  common.mkConfigurationStruct
    (common.mkWritableInfo "DEBUG" (common.mkStoreAndForwardInfo true 5000 3))
    (common.mkTriggerInfo "my-Trigger" "events" "responses"
       (common.mkMessageBusConfig
          (common.mkHostInfo "localhost" 5563 "tcp" "responses") "zero")).

Definition sdk : @appsdk.AppFunctionsSDK fixtures.World nat :=
  appsdk.mkAppFunctionsSDK (fixtures.config true 3) None.

Definition customFactory (_ : @appsdk.TriggerConfig fixtures.World)
  : nat + error := inl 7%nat.

Definition otherFactory (_ : @appsdk.TriggerConfig fixtures.World)
  : nat + error := inr "no broker".

(** A store with one row waiting for its retry. *)
Definition oneRow : fixtures.World :=
  fixtures.mkWorld [fixtures.storedItem "id-7" 0 fixtures.exportHash] 1 false
                   [].

(** An event with three readings. *)
Definition threeReadings : transforms_v0.Event :=
  transforms_v0.mkEvent "id-1" 0 "GS1-AC-Drive01" 1 2 3
    [transforms_v0.mkReading "temperature" "72";
     transforms_v0.mkReading "humidity" "40";
     transforms_v0.mkReading "temperature" "73"].

(** The samples are trimmed and in lower case already. *)
Definition asIs (s : string) : string := s.

(** [setOptionalAuthData] with the constants of go-mod-bootstrap. *)
Definition setAuth :=
  messagebus_auth.setOptionalAuthData asIs asIs "authmode" "secretname"
    "none" "usernamepassword" "clientcert" "cacert" "username" "password"
    "certpemblock" "keypemblock" "capemblock" getSecret validateSecret.

(** The parameters of an HTTP export and of an encryption. *)
Definition postParameters : gmap string string :=
  <["url" := "http://localhost:8080"]>
    (<["mimetype" := "application/json"]> (<["persistonerror" := "T"]> ∅)).

Definition aesParameters : gmap string string :=
  <["key" := "aquqweoruqwpeoruqwpoeruqwpoierupqoweiurpoqwiuerpqowieurqpowieurpoqiweuroipwqure"]>
    (<["initvector" := "123456789012345678901234567890"]> ∅).

End more_fixtures.

(** * Properties *)

(** ** Go integers *)

Lemma incr_no_overflow (x : Z) :
  GoInt.min_int <= x < GoInt.max_int -> GoInt.incr x = x + 1.
Proof.
  unfold GoInt.incr, GoInt.wrap, GoInt.min_int, GoInt.max_int, GoInt.bits.
  intros Hx. change (2 ^ (64 - 1)) with 9223372036854775808 in *.
  change (2 ^ 64) with 18446744073709551616.
  rewrite Z.mod_small; lia.
Qed.

Lemma incr_overflow : GoInt.incr GoInt.max_int = GoInt.min_int.
Proof. reflexivity. Qed.

(** ** The effect monad *)

Ltac run_M := unfold mbind, M_bind, mret, M_ret, log, emit, call in *.

(** ** The store-and-forward engine *)

Section StoreForwardProperties.

Context {W : Type} `{!StoreClient W}.

Variable executePipeline :
  runtime.GolangRuntime W -> Value -> string -> appcontext.Context ->
  list (runtime.AppFunction W) -> Z -> bool ->
  M W (option runtime.MessageError).

Variable sf : runtime.storeForwardInfo W.
Variable config : common.ConfigurationStruct.

Abbreviation processRetryItem := (runtime.processRetryItem executePipeline sf config).
Abbreviation loop := (runtime.processRetryItems_loop executePipeline sf config).
Abbreviation processRetryItems items :=
  (runtime.processRetryItems executePipeline sf items config).

(** The accumulators of the loop only collect. *)
Lemma loop_accumulates items :
  forall r u w,
    loop items r u w =
    (let '((r', u'), e, w') := loop items [] [] w in
     ((r ++ r', u ++ u'), e, w')).
Proof.
  induction items as [|item rest IH]; intros r u w; simpl.
  - run_M; simpl. by rewrite !app_nil_r.
  - run_M. destruct (processRetryItem item w) as [[t e1] w1].
    destruct t as [i|i].
    + rewrite (IH r (u ++ [i])), (IH [] ([] ++ [i])).
      destruct (loop rest [] [] w1) as [[[r' u'] e2] w2]; simpl.
      by rewrite <- ?app_assoc.
    + rewrite (IH (r ++ [i]) u), (IH ([] ++ [i]) []).
      destruct (loop rest [] [] w1) as [[[r' u'] e2] w2]; simpl.
      by rewrite <- ?app_assoc.
Qed.

(** One item is processed, then the rest, from the world the item left. *)
Lemma processRetryItems_cons item rest w :
  processRetryItems (item :: rest) w =
  (let '(t, e1, w1) := processRetryItem item w in
   let '((r, u), e2, w2) := processRetryItems rest w1 in
   ((turnRemove t ++ r, turnUpdate t ++ u), e1 ++ e2, w2)).
Proof.
  unfold runtime.processRetryItems; simpl. run_M.
  destruct (processRetryItem item w) as [[t e1] w1].
  destruct t as [i|i]; rewrite loop_accumulates;
    destruct (loop rest [] [] w1) as [[[r u] e2] w2]; reflexivity.
Qed.

Lemma processRetryItems_nil w : processRetryItems [] w = (([], []), [], w).
Proof. reflexivity. Qed.

Lemma processRetryItems_app pre post w :
  processRetryItems (pre ++ post) w =
  (let '((r1, u1), e1, w1) := processRetryItems pre w in
   let '((r2, u2), e2, w2) := processRetryItems post w1 in
   ((r1 ++ r2, u1 ++ u2), e1 ++ e2, w2)).
Proof.
  revert w; induction pre as [|item pre IH]; intros w.
  - rewrite processRetryItems_nil; simpl.
    destruct (processRetryItems post w) as [[[r2 u2] e2] w2]; reflexivity.
  - change ((item :: pre) ++ post) with (item :: (pre ++ post)).
    rewrite !processRetryItems_cons.
    destruct (processRetryItem item w) as [[t e1] w1].
    rewrite IH.
    destruct (processRetryItems pre w1) as [[[r1 u1] e1'] w1'].
    destruct (processRetryItems post w1') as [[[r2 u2] e2] w2].
    by rewrite !app_assoc.
Qed.

Lemma processRetryItem_stale item w :
  contracts.Version item <> runtime.calculatePipelineHash sf ->
  exists l, is_log l = true
            /\ processRetryItem item w = (runtime.ToRemove item, [l], w).
Proof.
  intros Hv. unfold runtime.processRetryItem. run_M.
  rewrite bool_decide_eq_false_2 by done. simpl.
  eexists; split; [|reflexivity]; reflexivity.
Qed.

Lemma processRetryItem_failed item w e w' :
  contracts.Version item = runtime.calculatePipelineHash sf ->
  runtime.retryExportFunction executePipeline sf item config w
    = (false, e, w') ->
  exists l, is_log l = true
    /\ processRetryItem item w =
       (if decide (maxRetryCountOf config <> 0
                   /\ maxRetryCountOf config
                      <= contracts.RetryCount (afterFailedRetry item))
        then runtime.ToRemove (afterFailedRetry item)
        else runtime.ToUpdate (afterFailedRetry item),
        e ++ [l], w').
Proof.
  intros Hv Hr. unfold runtime.processRetryItem.
  rewrite bool_decide_eq_true_2 by done. cbv zeta.
  unfold mbind at 1, M_bind at 1. rewrite Hr. cbn [negb].
  fold (afterFailedRetry item). fold (maxRetryCountOf config).
  case_decide as Hd.
  - rewrite (bool_decide_eq_false_2 (maxRetryCountOf config = 0)) by tauto.
    rewrite bool_decide_eq_false_2 by lia.
    run_M; simpl. eexists; split; [|reflexivity]; reflexivity.
  - assert (maxRetryCountOf config = 0
            \/ contracts.RetryCount (afterFailedRetry item)
               < maxRetryCountOf config) as Hc by lia.
    destruct Hc as [Hc|Hc].
    + rewrite (bool_decide_eq_true_2 (maxRetryCountOf config = 0)) by done.
      run_M; simpl. eexists; split; [|reflexivity]; reflexivity.
    + rewrite (bool_decide_eq_true_2 (_ < _)) by done.
      rewrite orb_true_r.
      run_M; simpl. eexists; split; [|reflexivity]; reflexivity.
Qed.

Lemma processRetryItem_succeeded item w e w' :
  contracts.Version item = runtime.calculatePipelineHash sf ->
  runtime.retryExportFunction executePipeline sf item config w
    = (true, e, w') ->
  exists l, is_log l = true
    /\ processRetryItem item w = (runtime.ToRemove item, e ++ [l], w').
Proof.
  intros Hv Hr. unfold runtime.processRetryItem.
  rewrite bool_decide_eq_true_2 by done. cbv zeta.
  unfold mbind at 1, M_bind at 1. rewrite Hr. cbn [negb].
  run_M; simpl. eexists; split; [|reflexivity]; reflexivity.
Qed.

(** A turn keeps every field of its item but the retry counter, and a
    changed counter belongs to an item whose hash matches. *)
Lemma processRetryItem_keeps item w :
  exists item',
    ((processRetryItem item w).1.1 = runtime.ToRemove item'
     \/ ((processRetryItem item w).1.1 = runtime.ToUpdate item'
         /\ contracts.Version item' = runtime.calculatePipelineHash sf
         /\ (maxRetryCountOf config = 0
             \/ contracts.RetryCount item' < maxRetryCountOf config)))
    /\ sameButRetryCount item' item.
Proof.
  destruct (decide (contracts.Version item = runtime.calculatePipelineHash sf))
    as [Hv|Hv].
  - destruct (runtime.retryExportFunction executePipeline sf item config w)
      as [[[] e] w'] eqn:Hr.
    + destruct (processRetryItem_succeeded _ _ _ _ Hv Hr) as (l & _ & ->).
      exists item; split; [by left|reflexivity].
    + destruct (processRetryItem_failed _ _ _ _ Hv Hr) as (l & _ & ->).
      exists (afterFailedRetry item); split; [|reflexivity].
      case_decide; [by left|right; split; [done|split; [done|lia]]].
  - destruct (processRetryItem_stale item w Hv) as (l & _ & ->).
    exists item; split; [by left|reflexivity].
Qed.

Lemma sameButRetryCount_ID a b :
  sameButRetryCount a b -> contracts.ID a = contracts.ID b.
Proof. intros H. exact (f_equal contracts.ID H). Qed.

(** Up to order, the two sets together are the input, item by item. *)
Lemma processRetryItems_placed items :
  forall w,
  exists placed,
    placed ≡ₚ removeSet (processRetryItems items w)
              ++ updateSet (processRetryItems items w)
    /\ Forall2 sameButRetryCount placed items.
Proof.
  induction items as [|item rest IH]; intros w.
  - exists []; split; [reflexivity|constructor].
  - rewrite processRetryItems_cons.
    destruct (processRetryItem_keeps item w) as (item' & Ht & Hsame).
    destruct (processRetryItem item w) as [[t e1] w1]; simpl in Ht.
    destruct (IH w1) as (placed & Hp & Hf).
    destruct (processRetryItems rest w1) as [[[r u] e2] w2].
    unfold removeSet, updateSet in *; simpl in *.
    exists (item' :: placed); split; [|by constructor].
    destruct Ht as [->|[-> _]]; simpl.
    + by rewrite Hp.
    + rewrite Hp. apply Permutation_middle.
Qed.

Lemma processRetryItems_updated_valid items :
  forall w,
    Forall (fun u => contracts.Version u = runtime.calculatePipelineHash sf)
           (updateSet (processRetryItems items w)).
Proof.
  induction items as [|item rest IH]; intros w.
  - constructor.
  - rewrite processRetryItems_cons.
    destruct (processRetryItem_keeps item w) as (item' & Ht & _).
    destruct (processRetryItem item w) as [[t e1] w1]; simpl in Ht.
    specialize (IH w1).
    destruct (processRetryItems rest w1) as [[[r u] e2] w2].
    unfold updateSet in *; simpl in *.
    destruct Ht as [->|(-> & Hv & _)]; simpl; [done|by constructor].
Qed.

(** C1.  The retry loop hands [processRetryItems] a [MaxRetryCount] of 0
    or more.  Then an item whose pipeline hash matches and whose retry
    fails gets its retry counter incremented, by exactly 1 for every
    counter below the largest [int], nothing else of it changes, and it
    is placed in the remove set when [MaxRetryCount > 0] and the new
    counter has reached it, in the update set otherwise;
    [MaxRetryCount = 0] always updates.  The items before and after it
    are processed as they are without it. *)
Theorem processRetryItems_failed_retry
    pre item post w r1 u1 e1 w1 e2 w2 r3 u3 e3 w3 :
  0 <= maxRetryCountOf config ->
  processRetryItems pre w = ((r1, u1), e1, w1) ->
  contracts.Version item = runtime.calculatePipelineHash sf ->
  runtime.retryExportFunction executePipeline sf item config w1
    = (false, e2, w2) ->
  processRetryItems post w2 = ((r3, u3), e3, w3) ->
  (GoInt.min_int <= contracts.RetryCount item < GoInt.max_int ->
   contracts.RetryCount (afterFailedRetry item)
     = contracts.RetryCount item + 1)
  /\ sameButRetryCount (afterFailedRetry item) item
  /\ (maxRetryCountOf config = 0 ->
      removeSet (processRetryItems (pre ++ item :: post) w) = r1 ++ r3
      /\ updateSet (processRetryItems (pre ++ item :: post) w)
         = u1 ++ afterFailedRetry item :: u3)
  /\ exists l, is_log l = true
     /\ processRetryItems (pre ++ item :: post) w =
        if decide (maxRetryCountOf config > 0
                   /\ contracts.RetryCount (afterFailedRetry item)
                      >= maxRetryCountOf config)
        then ((r1 ++ afterFailedRetry item :: r3, u1 ++ u3),
              e1 ++ (e2 ++ [l]) ++ e3, w3)
        else ((r1 ++ r3, u1 ++ afterFailedRetry item :: u3),
              e1 ++ (e2 ++ [l]) ++ e3, w3).
Proof.
  intros Hmax Hpre Hv Hr Hpost.
  destruct (processRetryItem_failed item w1 e2 w2 Hv Hr) as (l & Hl & Hi).
  assert (processRetryItems (pre ++ item :: post) w =
          if decide (maxRetryCountOf config > 0
                     /\ contracts.RetryCount (afterFailedRetry item)
                        >= maxRetryCountOf config)
          then ((r1 ++ afterFailedRetry item :: r3, u1 ++ u3),
                e1 ++ (e2 ++ [l]) ++ e3, w3)
          else ((r1 ++ r3, u1 ++ afterFailedRetry item :: u3),
                e1 ++ (e2 ++ [l]) ++ e3, w3)) as Heq.
  { rewrite processRetryItems_app, Hpre, processRetryItems_cons, Hi, Hpost.
    destruct (decide (maxRetryCountOf config <> 0
                      /\ maxRetryCountOf config
                         <= contracts.RetryCount (afterFailedRetry item)))
      as [Hy|Hn].
    - rewrite decide_True by lia. reflexivity.
    - rewrite decide_False by lia. reflexivity. }
  split; [|split; [|split]].
  - intros Hrange. simpl. by apply incr_no_overflow.
  - reflexivity.
  - intros H0. rewrite Heq. rewrite decide_False by lia. by split.
  - exists l; split; [exact Hl|exact Heq].
Qed.

(** C2.  An item whose pipeline hash differs from the current hash is
    placed in the remove set as it is, retry counter included; its turn
    makes one log call and nothing else, so the pipeline is not
    executed for it and the world is handed on untouched; and every
    item of the update set, the only place a counted retry can lead
    to, has a matching hash. *)
Theorem processRetryItems_stale_item
    pre item post w r1 u1 e1 w1 r3 u3 e3 w3 :
  processRetryItems pre w = ((r1, u1), e1, w1) ->
  contracts.Version item <> runtime.calculatePipelineHash sf ->
  processRetryItems post w1 = ((r3, u3), e3, w3) ->
  (exists l, is_log l = true
     /\ processRetryItems (pre ++ item :: post) w
        = ((r1 ++ item :: r3, u1 ++ u3), e1 ++ [l] ++ e3, w3))
  /\ Forall (fun u => contracts.Version u = runtime.calculatePipelineHash sf)
            (updateSet (processRetryItems (pre ++ item :: post) w))
  /\ item ∉ updateSet (processRetryItems (pre ++ item :: post) w).
Proof.
  intros Hpre Hv Hpost.
  destruct (processRetryItem_stale item w1 Hv) as (l & Hl & Hi).
  pose proof (processRetryItems_updated_valid (pre ++ item :: post) w) as Hu.
  split; [|split].
  - exists l; split; [exact Hl|].
    by rewrite processRetryItems_app, Hpre, processRetryItems_cons, Hi, Hpost.
  - exact Hu.
  - intros Hin. rewrite Forall_forall in Hu. by apply Hv, Hu.
Qed.

(** C9.  [processRetryItems] partitions its input: the two sets have as
    many items together as the input; up to order they are the input,
    item by item, with nothing but retry counters changed; and when the
    retrieved items have distinct identifiers no identifier is in both
    sets, nor twice in one. *)
Theorem processRetryItems_partition items w :
  let result := processRetryItems items w in
  (length (removeSet result) + length (updateSet result) = length items)%nat
  /\ (exists placed,
        placed ≡ₚ removeSet result ++ updateSet result
        /\ Forall2 sameButRetryCount placed items)
  /\ (contracts.ID <$> removeSet result ++ updateSet result)
       ≡ₚ (contracts.ID <$> items)
  /\ (NoDup (contracts.ID <$> items) ->
      NoDup (contracts.ID <$> removeSet result ++ updateSet result)
      /\ forall r u, r ∈ removeSet result -> u ∈ updateSet result ->
                     contracts.ID r <> contracts.ID u).
Proof.
  intros result.
  destruct (processRetryItems_placed items w) as (placed & Hp & Hf).
  fold result in Hp.
  assert ((contracts.ID <$> removeSet result ++ updateSet result)
            ≡ₚ (contracts.ID <$> items)) as Hids.
  { rewrite <- Hp. clear Hp.
    induction Hf as [|a b l k Hab _ IH]; [reflexivity|].
    rewrite !fmap_cons, (sameButRetryCount_ID _ _ Hab). by f_equiv. }
  split; [|split; [|split]].
  - rewrite <- length_app, <- Hp. by eapply Forall2_length.
  - by exists placed.
  - exact Hids.
  - intros Hnd. rewrite <- Hids in Hnd. split; [exact Hnd|].
    rewrite fmap_app in Hnd. apply NoDup_app in Hnd as (_ & Hdisj & _).
    intros r u Hr Hu Heq.
    apply (Hdisj (contracts.ID r)).
    + by apply list_elem_of_fmap_2.
    + rewrite Heq. by apply list_elem_of_fmap_2.
Qed.

(** With a bound in force the update set holds only items below it. *)
Lemma processRetryItems_updated_below items :
  maxRetryCountOf config <> 0 ->
  forall w,
    Forall (fun u => contracts.RetryCount u < maxRetryCountOf config)
           (updateSet (processRetryItems items w)).
Proof.
  intros Hmax.
  induction items as [|item rest IH]; intros w.
  - constructor.
  - rewrite processRetryItems_cons.
    destruct (processRetryItem_keeps item w) as (item' & Ht & _).
    destruct (processRetryItem item w) as [[t e1] w1]; simpl in Ht.
    specialize (IH w1).
    destruct (processRetryItems rest w1) as [[[r u] e2] w2].
    unfold updateSet in *; simpl in *.
    destruct Ht as [->|(-> & _ & Hb)]; simpl; [done|].
    constructor; [tauto|done].
Qed.

End StoreForwardProperties.

Section RetryLoopProperties.

Context {W : Type} `{!StoreClient W}.

Variable executePipeline :
  runtime.GolangRuntime W -> Value -> string -> appcontext.Context ->
  list (runtime.AppFunction W) -> Z -> bool ->
  M W (option runtime.MessageError).

Variable sf : runtime.storeForwardInfo W.

Lemma removeAll_calls (items : list contracts.StoredObject) :
  forall w,
    List.filter isPortWrite (runtime.removeAll items w).1.2
      = EvRemoveFromStore <$> items
    /\ Forall (fun e => isPortWrite e = true \/ is_log e = true)
              (runtime.removeAll items w).1.2.
Proof.
  induction items as [|item rest IH]; intros w.
  - split; [reflexivity|constructor].
  - cbn [runtime.removeAll]. run_M.
    destruct (RemoveFromStore item w) as [[e|] w1]; cbn [fst snd];
      destruct (IH w1) as [IHf IHa];
      destruct (runtime.removeAll rest w1) as [[[] evs] w2];
      cbn [fst snd app List.filter isPortWrite] in *;
      (split; [by rewrite IHf|repeat constructor; by auto]).
Qed.

Lemma updateAll_calls (items : list contracts.StoredObject) :
  forall w,
    List.filter isPortWrite (runtime.updateAll items w).1.2
      = EvUpdate <$> items
    /\ Forall (fun e => isPortWrite e = true \/ is_log e = true)
              (runtime.updateAll items w).1.2.
Proof.
  induction items as [|item rest IH]; intros w.
  - split; [reflexivity|constructor].
  - cbn [runtime.updateAll]. run_M.
    destruct (Update item w) as [[e|] w1]; cbn [fst snd];
      destruct (IH w1) as [IHf IHa];
      destruct (runtime.updateAll rest w1) as [[[] evs] w2];
      cbn [fst snd app List.filter isPortWrite] in *;
      (split; [by rewrite IHf|repeat constructor; by auto]).
Qed.

(** A tick that retrieves items: the retrieval, a log call, the
    retries, and then the writes of the two sets. *)
Lemma retryStoredData_found serviceKey config w item items w1 :
  RetrieveFromStore serviceKey w = ((item :: items, None), w1) ->
  let retried := runtime.processRetryItems executePipeline sf (item :: items)
                   config w1 in
  exists l1 writes,
    is_log l1 = true
    /\ (runtime.retryStoredData executePipeline sf serviceKey config w).1.2
       = EvRetrieveFromStore serviceKey :: l1 :: retried.1.2 ++ writes
    /\ List.filter isPortWrite writes
       = (EvRemoveFromStore <$> removeSet retried)
         ++ (EvUpdate <$> updateSet retried)
    /\ Forall (fun e => isPortWrite e = true \/ is_log e = true) writes.
Proof.
  intros Hr retried.
  unfold runtime.retryStoredData. run_M. rewrite Hr. cbn [fst snd].
  rewrite bool_decide_eq_true_2 by (cbn [length]; lia).
  fold retried.
  destruct retried as [[[rem upd] evs] w2]; unfold removeSet, updateSet in *;
    cbn [fst snd] in *.
  destruct (removeAll_calls rem w2) as [Hrf Hra].
  destruct (runtime.removeAll rem w2) as [[[] er] w3]; cbn [fst snd] in *.
  destruct (updateAll_calls upd w3) as [Huf Hua].
  destruct (runtime.updateAll upd w3) as [[[] eu] w4]; cbn [fst snd] in *.
  exists (EvLog DEBUG " %d stored data items found for retrying"
            [LInt (Z.of_nat (length (item :: items)))]).
  exists (EvLog DEBUG " %d stored data items will be removed post retry"
                     [LInt (Z.of_nat (length rem))]
                   :: EvLog DEBUG " %d stored data items will be update post retry"
                        [LInt (Z.of_nat (length upd))]
                   :: er ++ eu).
  split; [reflexivity|]. split.
  { cbn [app]. rewrite <- ?app_assoc. reflexivity. }
  split.
  - cbn [List.filter isPortWrite]. by rewrite List.filter_app, Hrf, Huf.
  - constructor; [by right|]. constructor; [by right|].
    apply Forall_app. split; done.
Qed.

(** A schedule that starts with timer ticks: the loop runs them, then
    goes on with the rest from the world they leave. *)
Lemma retryLoop_ticks pre rest serviceKey config w :
  Forall (fun c => c = runtime.TimerFired) pre ->
  let before := runtime.retryLoop executePipeline sf pre serviceKey config w in
  let after := runtime.retryLoop executePipeline sf rest serviceKey config
                 before.2 in
  runtime.retryLoop executePipeline sf (pre ++ rest) serviceKey config w
  = (tt, before.1.2 ++ after.1.2, after.2).
Proof.
  intros Hpre. revert w. induction Hpre as [|c pre -> _ IH]; intros w.
  - cbn. by destruct (runtime.retryLoop _ _ rest _ _ w) as [[[] e] w'].
  - cbn [app runtime.retryLoop]. cbn zeta in *. run_M.
    destruct (runtime.retryStoredData _ _ _ _ w) as [[[] e] w1].
    rewrite IH.
    destruct (runtime.retryLoop _ _ pre _ _ w1) as [[[] e1] w2];
      cbn [fst snd].
    by rewrite app_assoc.
Qed.

(** C8.  Started with a negative [MaxRetryCount], the retry loop first
    logs that the value is defaulted to 1 and sets it to 1 in the
    configuration; only then the loop runs.  Every tick of the run is a
    tick under the coerced configuration: what it writes to the store
    after its retries are the two sets [processRetryItems] computes
    under the bound 1, so it updates no item whose counter has reached
    1, and an item whose retry fails is removed with its new counter
    instead of being kept for another retry. *)
Theorem startStoreAndForwardRetryLoop_negative_max
    schedule serviceKey config w :
  maxRetryCountOf config < 0 ->
  let coerced := common.set_MaxRetryCount config 1 in
  let run := runtime.startStoreAndForwardRetryLoop executePipeline sf
               schedule serviceKey config w in
  let ticks := runtime.retryLoop executePipeline sf schedule serviceKey
                 coerced w in
  maxRetryCountOf coerced = 1
  /\ run.1.1 = coerced
  /\ (exists starting, is_log starting = true
        /\ run.1.2 =
           EvLog INFO "StoreAndForward MaxRetryCount can not be less than 0, defaulting to 1" []
           :: starting :: ticks.1.2)
  /\ run.2 = ticks.2
  /\ forall pre rest,
       schedule = pre ++ runtime.TimerFired :: rest ->
       Forall (fun c => c = runtime.TimerFired) pre ->
       let before := runtime.retryLoop executePipeline sf pre serviceKey
                       coerced w in
       let tick := runtime.retryStoredData executePipeline sf serviceKey
                     coerced before.2 in
       let after := runtime.retryLoop executePipeline sf rest serviceKey
                      coerced tick.2 in
       ticks.1.2 = before.1.2 ++ tick.1.2 ++ after.1.2
       /\ ticks.2 = after.2
       /\ forall item items w1,
            RetrieveFromStore serviceKey before.2
              = ((item :: items, None), w1) ->
            let retried := runtime.processRetryItems executePipeline sf
                             (item :: items) coerced w1 in
            (exists l1 writes,
               is_log l1 = true
               /\ tick.1.2 = EvRetrieveFromStore serviceKey :: l1
                             :: retried.1.2 ++ writes
               /\ List.filter isPortWrite writes
                  = (EvRemoveFromStore <$> removeSet retried)
                    ++ (EvUpdate <$> updateSet retried))
            /\ Forall (fun u => contracts.RetryCount u < 1)
                      (updateSet retried)
            /\ forall p failed q,
                 item :: items = p ++ failed :: q ->
                 contracts.Version failed = runtime.calculatePipelineHash sf ->
                 (runtime.retryExportFunction executePipeline sf failed
                    coerced
                    (runtime.processRetryItems executePipeline sf p coerced
                       w1).2).1.1 = false ->
                 0 <= contracts.RetryCount failed < GoInt.max_int ->
                 EvRemoveFromStore (afterFailedRetry failed) ∈ tick.1.2
                 /\ afterFailedRetry failed ∉ updateSet retried.
Proof.
  intros Hneg coerced run ticks.
  assert (maxRetryCountOf coerced = 1) as H1 by reflexivity.
  split; [exact H1|].
  assert (run = (coerced,
                 EvLog INFO "StoreAndForward MaxRetryCount can not be less than 0, defaulting to 1" []
                 :: EvLog INFO "Starting StoreAndForward Retry Loop with %d RetryInterval and %d max retries"
                      [LInt (if bool_decide
                                  (common.RetryInterval
                                     (common.StoreAndForward
                                        (common.Writable config))
                                   < runtime.DefaultMinRetryInterval)
                             then runtime.DefaultMinRetryInterval
                             else common.RetryInterval
                                    (common.StoreAndForward
                                       (common.Writable config)));
                       LInt 1]
                 :: ticks.1.2, ticks.2)) as Hrun.
  { unfold run, runtime.startStoreAndForwardRetryLoop.
    fold (maxRetryCountOf config).
    rewrite (bool_decide_eq_true_2 (maxRetryCountOf config < 0)) by done.
    fold coerced. run_M; simpl. fold ticks.
    destruct ticks as [[[] evs] w']; simpl. by rewrite app_nil_r. }
  split; [by rewrite Hrun|].
  split; [rewrite Hrun; eexists; split; [|reflexivity]; reflexivity|].
  split; [by rewrite Hrun|].
  clear Hrun. intros pre rest -> Hpre before tick after.
  assert (ticks = (tt, before.1.2 ++ tick.1.2 ++ after.1.2, after.2))
    as Hticks.
  { unfold ticks. rewrite (retryLoop_ticks pre _ serviceKey coerced w Hpre).
    fold before. cbn [runtime.retryLoop]. run_M. fold tick.
    destruct tick as [[[] e] w1]. cbn [fst snd] in *. fold after.
    by destruct after as [[[] e2] w2]. }
  split; [by rewrite Hticks|]. split; [by rewrite Hticks|].
  clear Hticks. intros item items w1 Hr retried.
  destruct (retryStoredData_found serviceKey coerced before.2 item items w1 Hr)
    as (l1 & writes & Hl1 & Htrace & Hfilter & _).
  fold retried in Htrace, Hfilter. fold tick in Htrace.
  assert (Forall (fun u => contracts.RetryCount u < 1) (updateSet retried))
    as Hbelow.
  { pose proof (processRetryItems_updated_below executePipeline sf coerced
                  (item :: items)) as Hb.
    rewrite H1 in Hb. apply Hb. lia. }
  split; [by exists l1, writes|]. split; [exact Hbelow|].
  intros p failed q Hsplit Hv Hfail Hcount.
  assert (contracts.RetryCount (afterFailedRetry failed)
          = contracts.RetryCount failed + 1) as Hincr
    by (apply incr_no_overflow; unfold GoInt.min_int in *; lia).
  split.
  - assert (afterFailedRetry failed ∈ removeSet retried) as Hin.
    { unfold retried. rewrite Hsplit.
      rewrite (processRetryItems_app executePipeline sf coerced).
      destruct (runtime.processRetryItems executePipeline sf p coerced w1)
        as [[[r1 u1] e1] w2] eqn:Hp.
      cbn [fst snd] in Hfail.
      rewrite (processRetryItems_cons executePipeline sf coerced).
      destruct (runtime.retryExportFunction executePipeline sf failed coerced
                  w2) as [[ok e2] w3] eqn:Hexp.
      cbn [fst snd] in Hfail. subst ok.
      destruct (processRetryItem_failed executePipeline sf coerced failed w2
                  e2 w3 Hv Hexp) as (l & _ & ->).
      rewrite decide_True by (rewrite H1; lia).
      destruct (runtime.processRetryItems executePipeline sf q coerced w3)
        as [[[r3 u3] e3] w4].
      unfold removeSet. cbn [fst snd turnRemove app].
      apply elem_of_app. right. by left. }
    rewrite Htrace. do 2 right. apply elem_of_app. right.
    assert (EvRemoveFromStore (afterFailedRetry failed)
            ∈ List.filter isPortWrite writes) as Hw.
    { rewrite Hfilter. apply elem_of_app. left.
      by apply list_elem_of_fmap_2. }
    apply list_elem_of_In, List.filter_In in Hw as [Hw _].
    by apply list_elem_of_In.
  - intros Hin. rewrite Forall_forall in Hbelow.
    specialize (Hbelow _ Hin). lia.
Qed.

End RetryLoopProperties.

(** ** Persisting a failed item *)

Section PersistProperties.

Context {W : Type} `{!StoreClient W}.

Lemma storeForLaterRetry_disabled sf payload ctx position w :
  runtime_model.storeAndForwardEnabled ctx = false ->
  exists l1 l2,
    is_log l1 = true /\ is_log l2 = true
    /\ runtime.storeForLaterRetry sf payload ctx position w
       = (tt, [l1; l2], w).
Proof.
  unfold runtime_model.storeAndForwardEnabled, runtime.storeForLaterRetry.
  intros ->. run_M; simpl.
  do 2 eexists; split; [|split; [|reflexivity]]; reflexivity.
Qed.

Lemma storeForLaterRetry_enabled sf payload ctx position w :
  runtime_model.storeAndForwardEnabled ctx = true ->
  exists l1 tail,
    is_log l1 = true /\ forallb is_log tail = true
    /\ runtime.storeForLaterRetry sf payload ctx position w
       = (tt, l1 :: EvStore (itemToStore sf payload ctx position) :: tail,
          (Store (itemToStore sf payload ctx position) w).2).
Proof.
  unfold runtime_model.storeAndForwardEnabled, runtime.storeForLaterRetry.
  intros ->. run_M; simpl.
  change (contracts.with_context_ids _ _ _ _)
    with (itemToStore sf payload ctx position).
  destruct (Store (itemToStore sf payload ctx position) w)
    as [[id [e|]] w']; simpl;
    do 2 eexists; (split; [|split; [|reflexivity]]); reflexivity.
Qed.

(** [storeForLaterRetry] calls [Store] exactly when store-and-forward
    is enabled in the configuration of the context. *)
Lemma storeForLaterRetry_stores sf payload ctx position w :
  existsb is_store (runtime.storeForLaterRetry sf payload ctx position w).1.2
  = runtime_model.storeAndForwardEnabled ctx.
Proof.
  destruct (runtime_model.storeAndForwardEnabled ctx) eqn:He.
  - destruct (storeForLaterRetry_enabled sf payload ctx position w He)
      as (l1 & tail & Hl1 & Htail & ->); simpl.
    by rewrite orb_true_r.
  - destruct (storeForLaterRetry_disabled sf payload ctx position w He)
      as (l1 & l2 & Hl1 & Hl2 & ->); simpl.
    by destruct l1, l2.
Qed.

(** The run of a retry does nothing but invoke stages. *)
Lemma runStages_retry_invokes (sf : runtime.storeForwardInfo W) stages :
  forall i ctx v w,
    Forall (fun ev => exists j r, ev = EvInvoke j r)
           (runtime_model.runStages sf true i stages ctx v w).1.2.
Proof.
  induction stages as [|f rest IH]; intros i ctx v w.
  - constructor.
  - cbn [runtime_model.runStages]. unfold runtime_model.invoke. run_M.
    destruct (runtime.apply f ctx v w) as [[r ctx'] w'].
    destruct r as [[] out|].
    + specialize (IH (S i) ctx' out w').
      destruct (runtime_model.runStages sf true (S i) rest ctx' out w')
        as [[res evs] w'']. cbn [fst snd app] in *.
      constructor; [by eauto|done].
    + rewrite andb_false_r.
      destruct out; cbn [fst snd app]; repeat constructor; by eauto.
    + cbn [fst snd app]. repeat constructor; by eauto.
Qed.


End PersistProperties.

(** ** The pipeline driver *)

Section PipelineProperties.

Context {W : Type} `{!StoreClient W}.

Variable decode : types.MessageEnvelope -> Value + error.

(** [storeForLaterRetry] invokes no transform. *)
Lemma storeForLaterRetry_no_invoke
    (sf : runtime.storeForwardInfo W) payload ctx position w j r :
  EvInvoke j r ∉ (runtime.storeForLaterRetry sf payload ctx position w).1.2.
Proof.
  destruct (runtime_model.storeAndForwardEnabled ctx) eqn:He.
  - destruct (storeForLaterRetry_enabled sf payload ctx position w He)
      as (l1 & tail & Hl1 & Htail & ->); simpl.
    rewrite !elem_of_cons. intros [Heq|[Heq|Hin]]; subst; try discriminate.
    rewrite forallb_forall in Htail.
    apply list_elem_of_In, Htail in Hin. discriminate.
  - destruct (storeForLaterRetry_disabled sf payload ctx position w He)
      as (l1 & l2 & Hl1 & Hl2 & ->); simpl.
    rewrite !elem_of_cons, elem_of_nil.
    intros [Heq|[Heq|[]]]; subst; discriminate.
Qed.

(** The stages are invoked in order, each at most once and at its own
    position; a stage that stops the pipeline without an error value is
    the last one invoked and the result is success. *)
Lemma runStages_invocations (sf : runtime.storeForwardInfo W) isRetry stages :
  forall i ctx v w,
    let run := runtime_model.runStages sf isRetry i stages ctx v w in
    (forall j r, EvInvoke j r ∈ run.1.2 ->
                 (i <= j < i + length stages)%nat)
    /\ (forall j out,
          EvInvoke j (Returned false out) ∈ run.1.2 ->
          is_error out = false ->
          run.1.1.1 = None
          /\ forall k r, EvInvoke k r ∈ run.1.2 -> (k <= j)%nat).
Proof.
  induction stages as [|f rest IH]; intros i ctx v w; cbn zeta.
  - simpl. split; intros ? ? Hin; by apply elem_of_nil in Hin.
  - destruct (runtime_model.runStages sf isRetry i (f :: rest) ctx v w)
      as [[[res ctxEnd] evs] wEnd] eqn:Hrun.
    cbn [runtime_model.runStages] in Hrun.
    unfold runtime_model.invoke in Hrun. run_M.
    destruct (runtime.apply f ctx v w) as [[r ctx'] w'].
    cbn [fst snd length].
    destruct r as [[] out|].
    + specialize (IH (S i) ctx' out w'); cbn zeta in IH.
      destruct (runtime_model.runStages sf isRetry (S i) rest ctx' out w')
        as [[[res' ctx''] evs'] w'']; simpl in IH.
      injection Hrun as <- <- <- <-.
      destruct IH as [IH1 IH2]. split.
      * intros j r. simpl. rewrite elem_of_cons. intros [Heq|Hin].
        -- injection Heq as -> _. lia.
        -- apply IH1 in Hin. lia.
      * intros j o. simpl. rewrite elem_of_cons. intros [Heq|Hin] Herr.
        -- discriminate.
        -- destruct (IH2 j o Hin Herr) as [Hres Hlast].
           split; [exact Hres|].
           intros k r. rewrite elem_of_cons. intros [Heq|Hk].
           ++ injection Heq as -> _. apply IH1 in Hin. lia.
           ++ by apply (Hlast k r).
    + assert (exists tail,
                evs = EvInvoke i (Returned false out) :: tail
                /\ (forall k r, EvInvoke k r ∉ tail)
                /\ (is_error out = false -> res = None)) as (tail & -> & Hno & Hres).
      { pose proof (storeForLaterRetry_no_invoke sf
                      (default [] (appcontext.RetryData ctx')) ctx'
                      (Z.of_nat i) w') as Hno.
        destruct out;
          try (injection Hrun as <- <- <- <-; exists []; simpl;
               split; [reflexivity|split; [|done]];
               intros k r H; by apply elem_of_nil in H).
        destruct (runtime_model.retrySlotFilled ctx'
                  && runtime_model.storeAndForwardEnabled ctx'
                  && negb isRetry).
        - destruct (runtime.storeForLaterRetry sf _ ctx' (Z.of_nat i) w')
            as [[[] evs'] w'']; simpl in *.
          injection Hrun as <- <- <- <-. exists evs'.
          rewrite app_nil_r. split; [reflexivity|split; [exact Hno|done]].
        - injection Hrun as <- <- <- <-. exists []; simpl.
          split; [reflexivity|split; [|done]].
          intros k r H; by apply elem_of_nil in H. }
      assert (forall k r,
                EvInvoke k r ∈ EvInvoke i (Returned false out) :: tail ->
                k = i /\ r = Returned false out) as Honly.
      { intros k r. rewrite elem_of_cons. intros [Heq|Hin].
        - by injection Heq as -> ->.
        - by apply Hno in Hin. }
      split.
      * intros j r Hin. apply Honly in Hin as [-> _]. lia.
      * intros j o Hin Herr. apply Honly in Hin as [-> Heq].
        injection Heq as ->. split; [by apply Hres|].
        intros k r Hk. apply Honly in Hk as [-> _]. lia.
    + injection Hrun as <- <- <- <-. simpl. split.
      * intros j r. rewrite elem_of_cons, elem_of_nil.
        intros [Heq|[]]. injection Heq as -> _. lia.
      * intros j o. rewrite elem_of_cons, elem_of_nil.
        intros [Heq|[]]. discriminate.
Qed.

(** C4.  When a stage at position [i] answers continue?=false with an
    output that is not an error value, [processMessage] returns no
    error and no stage at a later position is invoked; [i] is a
    position of the pipeline. *)
Theorem processMessage_clean_stop
    (sf : runtime.storeForwardInfo W) ctx envelope w i out :
  let run := runtime_model.processMessage decode sf ctx envelope w in
  EvInvoke i (Returned false out) ∈ run.1.2 ->
  is_error out = false ->
  run.1.1.1 = None
  /\ (i < length (runtime.transforms (runtime.runtime sf)))%nat
  /\ forall j r, EvInvoke j r ∈ run.1.2 -> (j <= i)%nat.
Proof.
  cbn zeta. unfold runtime_model.processMessage.
  destruct (decode envelope) as [v|e].
  - unfold runtime_model.executePipeline.
    change (Z.to_nat 0) with 0%nat. rewrite drop_0.
    intros Hin Herr.
    destruct (runStages_invocations sf false
                (runtime.transforms (runtime.runtime sf)) 0%nat ctx v w)
      as [H1 H2].
    destruct (H2 i out Hin Herr) as [Hres Hlast].
    split; [exact Hres|split; [|exact Hlast]].
    apply H1 in Hin. lia.
  - simpl. intros Hin. by apply elem_of_nil in Hin.
Qed.

End PipelineProperties.

(** ** The decoder of legacy events *)

Section DecoderProperties.

Variable jsonUnmarshal cborUnmarshal : list Byte.byte -> models.Event + error.

Lemma v1EventToV2_readings_unknown (e : models.Event) :
  Forall (fun r => dtos.ReadingProfileName r = "Unknown")
         (dtos.Readings (runtime_model.v1EventToV2 e)).
Proof.
  simpl. induction (models.Readings e) as [|r rs IH]; constructor; done.
Qed.

Lemma v1EventToV2_readings_carried (e : models.Event) :
  Forall2 (fun r2 r1 =>
             dtos.ReadingId r2 = models.ReadingId r1
             /\ dtos.ReadingDeviceName r2 = models.ReadingDevice r1
             /\ dtos.ResourceName r2 = models.Name r1
             /\ dtos.ValueType r2 = models.ValueType r1
             /\ dtos.Value r2 = models.Value r1
             /\ dtos.BinaryValue r2 = models.BinaryValue r1)
          (dtos.Readings (runtime_model.v1EventToV2 e)) (models.Readings e).
Proof.
  simpl. induction (models.Readings e) as [|r rs IH]; constructor;
    [by repeat split|done].
Qed.

(** C6.  A legacy event that arrives as JSON or as CBOR is decoded
    into the current shape: identifier, device, timestamps and readings
    are carried over, and the profile name of the event and of every
    reading is the literal "Unknown". *)
Theorem unmarshalV1EventToV2Event_unknown_profile envelope v1Event :
  (types.ContentType envelope = clients.ContentTypeJSON
   /\ jsonUnmarshal (default [] (types.Payload envelope)) = inl v1Event)
  \/ (types.ContentType envelope = clients.ContentTypeCBOR
      /\ cborUnmarshal (default [] (types.Payload envelope)) = inl v1Event) ->
  exists event,
    runtime_model.unmarshalV1EventToV2Event jsonUnmarshal cborUnmarshal
      envelope = inl event
    /\ dtos.ProfileName event = "Unknown"
    /\ Forall (fun r => dtos.ReadingProfileName r = "Unknown")
              (dtos.Readings event)
    /\ dtos.Id event = models.ID v1Event
    /\ dtos.DeviceName event = models.Device v1Event
    /\ dtos.Created event = models.Created v1Event
    /\ dtos.Origin event = models.Origin v1Event
    /\ Forall2 (fun r2 r1 =>
                  dtos.ReadingId r2 = models.ReadingId r1
                  /\ dtos.ReadingDeviceName r2 = models.ReadingDevice r1
                  /\ dtos.ResourceName r2 = models.Name r1
                  /\ dtos.ValueType r2 = models.ValueType r1
                  /\ dtos.Value r2 = models.Value r1
                  /\ dtos.BinaryValue r2 = models.BinaryValue r1)
               (dtos.Readings event) (models.Readings v1Event).
Proof.
  intros H. exists (runtime_model.v1EventToV2 v1Event).
  split.
  - unfold runtime_model.unmarshalV1EventToV2Event.
    destruct H as [[Hct Hdec]|[Hct Hdec]]; rewrite Hct.
    + rewrite decide_True by reflexivity. by rewrite Hdec.
    + rewrite decide_False by discriminate.
      rewrite decide_True by reflexivity. by rewrite Hdec.
  - split; [reflexivity|].
    split; [apply v1EventToV2_readings_unknown|].
    repeat (split; [reflexivity|]).
    apply v1EventToV2_readings_carried.
Qed.

End DecoderProperties.

(** ** The registry of custom trigger factories *)

Section TriggerFactoryProperties.

Context {W T : Type}.

Variable ToUpper : string -> string.

Lemma builtin_test (nu : string) :
  bool_decide (nu = appsdk.TriggerTypeMessageBus)
  || bool_decide (nu = appsdk.TriggerTypeHTTP)
  || bool_decide (nu = appsdk.TriggerTypeMQTT) = true
  <-> builtinTriggerType nu.
Proof.
  unfold builtinTriggerType.
  rewrite !orb_true_iff, !bool_decide_eq_true. tauto.
Qed.

(** C7.  A name whose upper-cased form is a built-in trigger type is
    refused: an error is returned and the SDK, its registry included, is
    as before.  Any other name succeeds and the registry is the old one
    with the factory entered under the upper-cased name. *)
Theorem RegisterCustomTriggerFactory_registry
    (sdk : @appsdk.AppFunctionsSDK W T) name
    (factory : @appsdk.TriggerConfig W -> T + error) :
  let result := appsdk.RegisterCustomTriggerFactory ToUpper sdk name factory in
  (builtinTriggerType (ToUpper name) ->
     (exists e, result.1 = Some e) /\ result.2 = sdk)
  /\ (~ builtinTriggerType (ToUpper name) ->
        result.1 = None
        /\ registryOf result.2
           = <[ToUpper name := appsdk.mkFactoryClosure factory]>
               (registryOf sdk)
        /\ registryOf result.2 !! ToUpper name
           = Some (appsdk.mkFactoryClosure factory)
        /\ (forall key, key <> ToUpper name ->
              registryOf result.2 !! key = registryOf sdk !! key)
        /\ appsdk.config result.2 = appsdk.config sdk).
Proof.
  intros result. unfold result, appsdk.RegisterCustomTriggerFactory.
  split; intros Hb.
  - apply builtin_test in Hb. rewrite Hb. simpl. split; [eauto|done].
  - rewrite <- builtin_test in Hb. apply not_true_is_false in Hb.
    rewrite Hb. unfold registryOf; simpl.
    assert (match appsdk.customTriggerFactories sdk with
            | Some m => m
            | None => ∅
            end = default ∅ (appsdk.customTriggerFactories sdk)) as ->
      by (by destruct (appsdk.customTriggerFactories sdk)).
    repeat split.
    + apply lookup_insert_eq.
    + intros key Hne. by apply lookup_insert_ne.
Qed.

End TriggerFactoryProperties.

(** ** The message-bus trigger *)

Section MessageBusProperties.

Context {W : Type}.

Variable Publish : types.MessageEnvelope -> string -> W -> option error * W.

Variable ProcessMessage :
  appcontext.Context -> types.MessageEnvelope ->
  M W (option runtime.MessageError * appcontext.Context).

Ltac trigger_start H :=
  cbn zeta;
  unfold messagebus_v1.processMessage, messagebus.processMessage;
  fold_contexts; run_M; rewrite H; cbn [fst snd]
with fold_contexts :=
  repeat match goal with
  | |- context [appcontext.mkContext (types.CorrelationID ?m) "" "" ""
                  (messagebus_v1.Configuration ?t) None "" None] =>
      change (appcontext.mkContext (types.CorrelationID m) "" "" ""
                (messagebus_v1.Configuration t) None "" None)
        with (contextV1 t m)
  | |- context [messagebus.NewContext (types.CorrelationID ?m)
                  (messagebus.dic ?t) (types.ContentType ?m)] =>
      change (messagebus.NewContext (types.CorrelationID m)
                (messagebus.dic t) (types.ContentType m))
        with (contextV2 t m)
  end.

(** A response with an explicit content type or a first byte is
    published once, in an envelope with the correlation id of the
    context, the response as payload and the chosen content type. *)
Lemma processMessage_v1_publishes trigger topic message w ctx' evs w' data :
  ProcessMessage (contextV1 trigger message) message w
    = ((None, ctx'), evs, w') ->
  appcontext.OutputData ctx' = Some data ->
  appcontext.ResponseContentType ctx' <> "" \/ data <> [] ->
  let run := messagebus_v1.processMessage Publish ProcessMessage trigger
               topic message w in
  let outputEnvelope :=
    types.mkMessageEnvelope (appcontext.CorrelationID ctx') (Some data)
      (chosenContentType (appcontext.ResponseContentType ctx') (head data)) in
  let publishTopic :=
    common.PublishTopic (common.Trigger (messagebus_v1.Configuration trigger)) in
  run.1.1 = Returns
  /\ run.2 = (Publish outputEnvelope publishTopic w').2
  /\ exists l1 l2 tail,
       is_log l1 = true /\ is_log l2 = true /\ forallb is_log tail = true
       /\ run.1.2 = l1 :: l2 :: evs
                    ++ EvPublish outputEnvelope publishTopic :: tail.
Proof.
  intros Hpm Hout Hok. trigger_start Hpm. rewrite Hout.
  unfold chosenContentType.
  destruct (decide (appcontext.ResponseContentType ctx' = "")) as [He|He].
  - rewrite (bool_decide_eq_true_2 _ He). cbn [negb].
    destruct data as [|b0 rest]; [by destruct Hok|]. cbn [head].
    destruct (decide (b0 = openBrace)) as [Hb|Hb].
    + rewrite (bool_decide_eq_true_2 _ Hb). cbn [negb].
      destruct (Publish _ _ w') as [[e|] w'']; simpl;
        (split; [reflexivity|split; [reflexivity|]]);
        do 3 eexists; (repeat split); reflexivity.
    + rewrite (bool_decide_eq_false_2 _ Hb). cbn [negb].
      destruct (Publish _ _ w') as [[e|] w'']; simpl;
        (split; [reflexivity|split; [reflexivity|]]);
        do 3 eexists; (repeat split); reflexivity.
  - rewrite (bool_decide_eq_false_2 _ He). cbn [negb].
    destruct (Publish _ _ w') as [[e|] w'']; simpl;
      (split; [reflexivity|split; [reflexivity|]]);
      do 3 eexists; (repeat split); reflexivity.
Qed.

Lemma processMessage_v2_publishes trigger topic message w ctx' evs w' data :
  ProcessMessage (contextV2 trigger message) message w
    = ((None, ctx'), evs, w') ->
  appcontext.OutputData ctx' = Some data ->
  appcontext.ResponseContentType ctx' <> "" \/ data <> [] ->
  let run := messagebus.processMessage Publish ProcessMessage trigger
               topic message w in
  let outputEnvelope :=
    types.mkMessageEnvelope (appcontext.CorrelationID ctx') (Some data)
      (chosenContentType (appcontext.ResponseContentType ctx') (head data)) in
  let publishTopic :=
    common.HostPublishTopic (common.PublishHost (common.EdgexMessageBus
      (common.Trigger (messagebus.dic trigger)))) in
  run.1.1 = Returns
  /\ run.2 = (Publish outputEnvelope publishTopic w').2
  /\ exists l1 l2 tail,
       is_log l1 = true /\ is_log l2 = true /\ forallb is_log tail = true
       /\ run.1.2 = l1 :: l2 :: evs
                    ++ EvPublish outputEnvelope publishTopic :: tail.
Proof.
  intros Hpm Hout Hok. trigger_start Hpm. rewrite Hout.
  unfold chosenContentType.
  destruct (decide (appcontext.ResponseContentType ctx' = "")) as [He|He].
  - rewrite (bool_decide_eq_true_2 _ He). cbn [negb].
    destruct data as [|b0 rest]; [by destruct Hok|]. cbn [head].
    destruct (decide (b0 = openBrace)) as [Hb|Hb].
    + rewrite (bool_decide_eq_true_2 _ Hb). cbn [negb].
      destruct (Publish _ _ w') as [[e|] w'']; simpl;
        (split; [reflexivity|split; [reflexivity|]]);
        do 3 eexists; (repeat split); reflexivity.
    + rewrite (bool_decide_eq_false_2 _ Hb). cbn [negb].
      destruct (Publish _ _ w') as [[e|] w'']; simpl;
        (split; [reflexivity|split; [reflexivity|]]);
        do 3 eexists; (repeat split); reflexivity.
  - rewrite (bool_decide_eq_false_2 _ He). cbn [negb].
    destruct (Publish _ _ w') as [[e|] w'']; simpl;
      (split; [reflexivity|split; [reflexivity|]]);
      do 3 eexists; (repeat split); reflexivity.
Qed.

(** C10.  With no explicit response content type the trigger reads
    byte 0 of the response: for a response that is not nil but has no
    bytes the read is out of range, the goroutine panics after the
    pipeline has run and nothing is published; for a response with at
    least one byte the function returns.  This holds for the triggers of
    both release lines. *)
Theorem processMessage_content_type_read_unguarded :
  (forall trigger topic message w ctx' evs w' data,
     ProcessMessage (contextV1 trigger message) message w
       = ((None, ctx'), evs, w') ->
     appcontext.OutputData ctx' = Some data ->
     appcontext.ResponseContentType ctx' = "" ->
     let run := messagebus_v1.processMessage Publish ProcessMessage trigger
                  topic message w in
     (data = [] ->
        exists l1 l2, is_log l1 = true /\ is_log l2 = true
          /\ run = (Panics "index out of range [0] with length 0",
                    l1 :: l2 :: evs, w'))
     /\ (data <> [] -> run.1.1 = Returns))
  /\ (forall trigger topic message w ctx' evs w' data,
        ProcessMessage (contextV2 trigger message) message w
          = ((None, ctx'), evs, w') ->
        appcontext.OutputData ctx' = Some data ->
        appcontext.ResponseContentType ctx' = "" ->
        let run := messagebus.processMessage Publish ProcessMessage trigger
                     topic message w in
        (data = [] ->
           exists l1 l2, is_log l1 = true /\ is_log l2 = true
             /\ run = (Panics "index out of range [0] with length 0",
                       l1 :: l2 :: evs, w'))
        /\ (data <> [] -> run.1.1 = Returns)).
Proof.
  split; intros trigger topic message w ctx' evs w' data Hpm Hout He run.
  - split.
    + intros ->. unfold run. trigger_start Hpm. rewrite Hout, He. simpl.
      rewrite app_nil_r. do 2 eexists; (repeat split); reflexivity.
    + intros Hne.
      by destruct (processMessage_v1_publishes trigger topic message w
                     ctx' evs w' data Hpm Hout (or_intror Hne)) as [? _].
  - split.
    + intros ->. unfold run. trigger_start Hpm. rewrite Hout, He. simpl.
      rewrite app_nil_r. do 2 eexists; (repeat split); reflexivity.
    + intros Hne.
      by destruct (processMessage_v2_publishes trigger topic message w
                     ctx' evs w' data Hpm Hout (or_intror Hne)) as [? _].
Qed.

End MessageBusProperties.

(** ** The properties at work on the fixtures *)

Lemma processRetryItems_failed_retry_witness :
  let bounded := fixtures.config true 3 in
  let unbounded := fixtures.config true 0 in
  let last := fixtures.storedItem "id-7" 2 fixtures.exportHash in
  let item := fixtures.storedItem "id-8" 5 fixtures.exportHash in
  0 <= maxRetryCountOf bounded
  /\ contracts.Version last = runtime.calculatePipelineHash fixtures.exportEngine
  /\ (runtime.retryExportFunction fixtures.executePipeline
        fixtures.exportEngine last bounded fixtures.offline).1.1 = false
  /\ contracts.RetryCount (afterFailedRetry last) = 3
  /\ runtime.processRetryItems fixtures.executePipeline
       fixtures.exportEngine [last] bounded fixtures.offline
     = (([afterFailedRetry last], []),
        (runtime.processRetryItems fixtures.executePipeline
           fixtures.exportEngine [last] bounded fixtures.offline).1.2,
        fixtures.offline)
  /\ updateSet (runtime.processRetryItems fixtures.executePipeline
                  fixtures.exportEngine [item] unbounded fixtures.offline)
     = [afterFailedRetry item].
Proof.
  cbn zeta.
  assert (0 <= maxRetryCountOf (fixtures.config true 3)) as Hb
    by (vm_compute; discriminate).
  assert (0 <= maxRetryCountOf (fixtures.config true 0)) as Hu
    by (vm_compute; discriminate).
  split; [exact Hb|]. split; [reflexivity|]. split; [reflexivity|].
  edestruct (processRetryItems_failed_retry fixtures.executePipeline
               fixtures.exportEngine (fixtures.config true 3) []
               (fixtures.storedItem "id-7" 2 fixtures.exportHash) []
               fixtures.offline) as (H1 & _ & _ & l & _ & H4);
    [exact Hb|reflexivity|reflexivity|reflexivity|reflexivity|].
  edestruct (processRetryItems_failed_retry fixtures.executePipeline
               fixtures.exportEngine (fixtures.config true 0) []
               (fixtures.storedItem "id-8" 5 fixtures.exportHash) []
               fixtures.offline) as (_ & _ & H3 & _);
    [exact Hu|reflexivity|reflexivity|reflexivity|reflexivity|].
  split; [|split].
  - change 3 with (contracts.RetryCount
                     (fixtures.storedItem "id-7" 2 fixtures.exportHash) + 1).
    apply H1. vm_compute. split; [discriminate|reflexivity].
  - rewrite decide_True in H4
      by (split; vm_compute; [reflexivity|discriminate]).
    cbn [app] in H4. rewrite H4. reflexivity.
  - exact (proj2 (H3 eq_refl)).
Defined.

Lemma processRetryItems_stale_item_witness :
  let item := fixtures.storedItem "id-8" 2 "Pipeline-functions:  main.old" in
  contracts.Version item <> runtime.calculatePipelineHash fixtures.exportEngine
  /\ item ∉ updateSet (runtime.processRetryItems fixtures.executePipeline
                         fixtures.exportEngine
                         ([fixtures.storedItem "id-7" 0 fixtures.exportHash]
                            ++ item :: [])
                         (fixtures.config true 3) fixtures.offline).
Proof.
  cbn zeta.
  assert (contracts.Version
            (fixtures.storedItem "id-8" 2 "Pipeline-functions:  main.old")
          <> runtime.calculatePipelineHash fixtures.exportEngine) as Hne
    by (vm_compute; discriminate).
  split; [exact Hne|].
  edestruct (processRetryItems_stale_item fixtures.executePipeline
               fixtures.exportEngine (fixtures.config true 3)
               [fixtures.storedItem "id-7" 0 fixtures.exportHash]
               (fixtures.storedItem "id-8" 2 "Pipeline-functions:  main.old")
               [] fixtures.offline) as (_ & _ & H);
    [reflexivity|exact Hne|reflexivity|exact H].
Defined.

Lemma processRetryItems_partition_witness :
  let items := [fixtures.storedItem "id-7" 0 fixtures.exportHash;
                fixtures.storedItem "id-8" 2 "Pipeline-functions:  main.old"] in
  let result := runtime.processRetryItems fixtures.executePipeline
                  fixtures.exportEngine items (fixtures.config true 3)
                  fixtures.offline in
  NoDup (contracts.ID <$> items)
  /\ forall r u, r ∈ removeSet result -> u ∈ updateSet result ->
                 contracts.ID r <> contracts.ID u.
Proof.
  cbn zeta.
  assert (NoDup (contracts.ID <$>
                   [fixtures.storedItem "id-7" 0 fixtures.exportHash;
                    fixtures.storedItem "id-8" 2 "Pipeline-functions:  main.old"]))
    as Hnd.
  { apply (bool_decide_unpack _). vm_compute. exact I. }
  split; [exact Hnd|].
  exact (proj2 (proj2 (proj2 (proj2
           (processRetryItems_partition fixtures.executePipeline
              fixtures.exportEngine (fixtures.config true 3) _
              fixtures.offline))) Hnd)).
Defined.

Lemma startStoreAndForwardRetryLoop_negative_max_witness :
  let config := fixtures.config true (-3) in
  let item := fixtures.storedItem "id-7" 0 fixtures.exportHash in
  let run := runtime.startStoreAndForwardRetryLoop fixtures.executePipeline
               fixtures.exportEngine [runtime.TimerFired; runtime.AppCtxDone]
               fixtures.serviceKey config more_fixtures.oneRow in
  maxRetryCountOf config < 0
  /\ RetrieveFromStore fixtures.serviceKey more_fixtures.oneRow
     = (([item], None), more_fixtures.oneRow)
  /\ run.1.1 = fixtures.config true 1
  /\ EvRemoveFromStore (afterFailedRetry item) ∈ run.1.2
  /\ fixtures.rows run.2 = [].
Proof.
  cbn zeta.
  assert (maxRetryCountOf (fixtures.config true (-3)) < 0) as Hneg
    by reflexivity.
  split; [exact Hneg|]. split; [reflexivity|].
  destruct (startStoreAndForwardRetryLoop_negative_max
              fixtures.executePipeline fixtures.exportEngine
              [runtime.TimerFired; runtime.AppCtxDone] fixtures.serviceKey
              (fixtures.config true (-3)) more_fixtures.oneRow Hneg)
    as (_ & Hcfg & (starting & _ & Htrace) & _ & Hticks).
  split; [exact Hcfg|]. split; [|reflexivity].
  destruct (Hticks [] [runtime.AppCtxDone] eq_refl ltac:(constructor))
    as (Htk & _ & Htick).
  destruct (Htick (fixtures.storedItem "id-7" 0 fixtures.exportHash) []
              more_fixtures.oneRow eq_refl) as (_ & _ & Hfailed).
  destruct (Hfailed [] (fixtures.storedItem "id-7" 0 fixtures.exportHash) []
              eq_refl eq_refl eq_refl) as [Hin _].
  { vm_compute. split; [discriminate|reflexivity]. }
  rewrite Htrace, Htk. do 2 right.
  apply elem_of_app. right. apply elem_of_app. left. exact Hin.
Defined.


(** [TestProcessMessageThreeCustomTransformsOneFail]: the first of three
    transforms answers [(false, "Transform1Result")]; the result is nil
    and the other two are not called. *)
Lemma processMessage_clean_stop_witness :
  let run := runtime_model.processMessage fixtures.decodeBytes
               fixtures.threeStageEngine (fixtures.context false)
               fixtures.envelope fixtures.online in
  EvInvoke 0 (Returned false (VString "Transform1Result")) ∈ run.1.2
  /\ run.1.1.1 = None
  /\ forall j r, EvInvoke j r ∈ run.1.2 -> (j <= 0)%nat.
Proof.
  cbn zeta.
  assert (EvInvoke 0 (Returned false (VString "Transform1Result"))
          ∈ (runtime_model.processMessage fixtures.decodeBytes
               fixtures.threeStageEngine (fixtures.context false)
               fixtures.envelope fixtures.online).1.2) as Hin
    by (vm_compute; apply list_elem_of_here).
  split; [exact Hin|].
  destruct (processMessage_clean_stop fixtures.decodeBytes
              fixtures.threeStageEngine (fixtures.context false)
              fixtures.envelope fixtures.online 0%nat
              (VString "Transform1Result") Hin eq_refl) as (H1 & _ & H3).
  split; [exact H1|exact H3].
Defined.

Lemma unmarshalV1EventToV2Event_witness :
  let envelope := types.mkMessageEnvelope "123-234-345-456" (Some [x43])
                    clients.ContentTypeCBOR in
  fixtures.cborUnmarshal (default [] (types.Payload envelope))
    = inl fixtures.testV1Event
  /\ exists event,
       runtime_model.unmarshalV1EventToV2Event fixtures.jsonUnmarshal
         fixtures.cborUnmarshal envelope = inl event
       /\ dtos.ProfileName event = "Unknown"
       /\ Forall (fun r => dtos.ReadingProfileName r = "Unknown")
                 (dtos.Readings event).
Proof.
  cbn zeta. split; [reflexivity|].
  destruct (unmarshalV1EventToV2Event_unknown_profile fixtures.jsonUnmarshal
              fixtures.cborUnmarshal
              (types.mkMessageEnvelope "123-234-345-456" (Some [x43])
                 clients.ContentTypeCBOR)
              fixtures.testV1Event (or_intror (conj eq_refl eq_refl)))
    as (event & H1 & H2 & H3 & _).
  exists event. split; [exact H1|split; [exact H2|exact H3]].
Defined.

Lemma RegisterCustomTriggerFactory_witness :
  let sdk := @appsdk.mkAppFunctionsSDK fixtures.World nat
               (fixtures.config true 3) None in
  let factory := fun _ : @appsdk.TriggerConfig fixtures.World =>
                   inl 7%nat : nat + error in
  builtinTriggerType (fixtures.ToUpper "Http")
  /\ (appsdk.RegisterCustomTriggerFactory fixtures.ToUpper sdk "Http" factory).2
     = sdk
  /\ ~ builtinTriggerType (fixtures.ToUpper "my-Trigger")
  /\ registryOf (appsdk.RegisterCustomTriggerFactory fixtures.ToUpper sdk
                   "my-Trigger" factory).2 !! "MY-TRIGGER"
     = Some (appsdk.mkFactoryClosure factory).
Proof.
  cbn zeta.
  assert (builtinTriggerType (fixtures.ToUpper "Http")) as Hb
    by (left; reflexivity).
  assert (~ builtinTriggerType (fixtures.ToUpper "my-Trigger")) as Hn
    by (intros [H|[H|H]]; vm_compute in H; discriminate).
  split; [exact Hb|].
  split.
  - exact (proj2 (proj1 (RegisterCustomTriggerFactory_registry
                           fixtures.ToUpper _ "Http" _) Hb)).
  - split; [exact Hn|].
    exact (proj1 (proj2 (proj2 (proj2
             (RegisterCustomTriggerFactory_registry fixtures.ToUpper _
                "my-Trigger" _) Hn)))).
Defined.

Lemma processMessage_content_type_read_witness :
  let trigger := messagebus.mkTrigger (fixtures.config true 3) in
  let run := messagebus.processMessage fixtures.publishOk
               (fixtures.respondWith (Some []) "") trigger "events"
               fixtures.envelope fixtures.online in
  exists l1 l2,
    run = (Panics "index out of range [0] with length 0", [l1; l2],
           fixtures.online).
Proof.
  cbn zeta.
  edestruct (proj1 (proj2 (processMessage_content_type_read_unguarded
                             fixtures.publishOk
                             (fixtures.respondWith (Some []) ""))
                      (messagebus.mkTrigger (fixtures.config true 3))
                      "events" fixtures.envelope fixtures.online
                      _ _ _ [] eq_refl eq_refl eq_refl) eq_refl)
    as (l1 & l2 & _ & _ & H).
  exists l1, l2. exact H.
Defined.

(** C5 fails on the code at a response that is not nil but empty and has
    no explicit content type: the triggers of both release lines panic on
    the read of byte 0 and publish nothing, where the claim has an
    envelope of content type application/cbor go out. *)
Theorem processMessage_empty_response_panics :
  let v1 := messagebus_v1.processMessage fixtures.publishOk
              (fixtures.respondWith (Some []) "")
              (messagebus_v1.mkTrigger (fixtures.config true 3)) "events"
              fixtures.envelope fixtures.online in
  let v2 := messagebus.processMessage fixtures.publishOk
              (fixtures.respondWith (Some []) "")
              (messagebus.mkTrigger (fixtures.config true 3)) "events"
              fixtures.envelope fixtures.online in
  v1.1.1 = Panics "index out of range [0] with length 0"
  /\ v2.1.1 = Panics "index out of range [0] with length 0"
  /\ forallb is_log v1.1.2 = true
  /\ forallb is_log v2.1.2 = true.
Proof. cbn zeta. repeat split; reflexivity. Qed.

(** The same triggers on the response of scenario 7, which starts with
    the byte [0xA1], and on a JSON response. *)
Example processMessage_cbor_response :
  let run := messagebus.processMessage fixtures.publishOk
               (fixtures.respondWith (Some [xa1; x61]) "")
               (messagebus.mkTrigger (fixtures.config true 3)) "events"
               fixtures.envelope fixtures.online in
  run.1.1 = Returns
  /\ EvPublish (types.mkMessageEnvelope "123-234-345-456" (Some [xa1; x61])
                  "application/cbor") "responses" ∈ run.1.2.
Proof. cbn zeta. split; [reflexivity|]. vm_compute. do 2 right. left. Qed.

Example processMessage_json_response :
  let run := messagebus_v1.processMessage fixtures.publishOk
               (fixtures.respondWith (Some [x7b; x7d]) "")
               (messagebus_v1.mkTrigger (fixtures.config true 3)) "events"
               fixtures.envelope fixtures.online in
  run.1.1 = Returns
  /\ EvPublish (types.mkMessageEnvelope "123-234-345-456" (Some [x7b; x7d])
                  "application/json") "responses" ∈ run.1.2.
Proof. cbn zeta. split; [reflexivity|]. vm_compute. do 2 right. left. Qed.

(** Scenario 6: a stored item of a stale pipeline is removed by one tick
    and the export stage is not invoked. *)
Example retry_tick_drops_stale_item :
  let stale := fixtures.storedItem "id-0" 0 "Pipeline-functions:  main.old" in
  let world := fixtures.mkWorld [stale] 1 true [] in
  let run := runtime.retryStoredData fixtures.executePipeline
               fixtures.exportEngine fixtures.serviceKey
               (fixtures.config true 3) world in
  fixtures.rows run.2 = [] /\ fixtures.delivered run.2 = [].
Proof. cbn zeta. split; reflexivity. Qed.

(** Scenario 5: a stored item of the current pipeline whose retry
    succeeds is delivered and removed by one tick. *)
Example retry_tick_delivers_item :
  let item := fixtures.storedItem "id-0" 0 fixtures.exportHash in
  let world := fixtures.mkWorld [item] 1 true [] in
  let run := runtime.retryStoredData fixtures.executePipeline
               fixtures.exportEngine fixtures.serviceKey
               (fixtures.config true 3) world in
  fixtures.rows run.2 = [] /\ fixtures.delivered run.2 = [fixtures.payload].
Proof. cbn zeta. split; reflexivity. Qed.

(** A stored item of the current pipeline whose retry fails stays the
    only row of the store, with its counter incremented. *)
Example retry_tick_keeps_failed_item :
  let run := runtime.retryStoredData fixtures.executePipeline
               fixtures.exportEngine fixtures.serviceKey
               (fixtures.config true 3) more_fixtures.oneRow in
  fixtures.rows run.2 = [fixtures.storedItem "id-7" 1 fixtures.exportHash].
Proof. reflexivity. Qed.

(** [TestGolangRuntime_unmarshalV1EventToV2Event]: the legacy test event
    becomes the current test event with both profile names "Unknown". *)
Example unmarshal_testV1Event :
  runtime_model.unmarshalV1EventToV2Event fixtures.jsonUnmarshal
    fixtures.cborUnmarshal
    (types.mkMessageEnvelope "" (Some [x4a]) clients.ContentTypeJSON)
  = inl (dtos.mkEvent "v2" "82eb2e26-0f24-48aa-ae4c-de9dac3fb9bc"
           "FamilyRoomThermostat" "Unknown" 1600000000 1600000000
           [dtos.mkBaseReading "v2" "82eb2e26-0f24-48aa-ae4c-de9dac3f1234"
              1600000000 1600000000 "FamilyRoomThermostat" "Temperature"
              "Unknown" "Int64" "72" None ""]
           None).
Proof. reflexivity. Qed.

(** A factory registered as "my-Trigger" is found by [setupTrigger] for
    the trigger type "MY-trigger"; "edgex-MessageBus" selects the
    built-in trigger. *)
Example setupTrigger_finds_custom_factory :
  let sdk := @appsdk.mkAppFunctionsSDK fixtures.World nat
               (fixtures.config true 3) None in
  let factory := fun _ : @appsdk.TriggerConfig fixtures.World =>
                   inl 7%nat : nat + error in
  let registered :=
    (appsdk.RegisterCustomTriggerFactory fixtures.ToUpper sdk "my-Trigger"
       factory).2 in
  let typed (t : string) :=
    common.mkConfigurationStruct (common.Writable (fixtures.config true 3))
      (common.mkTriggerInfo t "" ""
         (common.EdgexMessageBus (common.Trigger (fixtures.config true 3)))) in
  (appsdk.setupTrigger fixtures.ToUpper
     (fixtures.respondWith None "") registered (typed "MY-trigger")
     fixtures.online).1.1 = Some (appsdk.CustomTrigger 7%nat)
  /\ (appsdk.setupTrigger fixtures.ToUpper
        (fixtures.respondWith None "") registered (typed "edgex-MessageBus")
        fixtures.online).1.1 = Some appsdk.MessageBusTrigger.
Proof. cbn zeta. split; reflexivity. Qed.

(** Scenario 4: with store-and-forward enabled a failed export leaves one
    stored item, at position 1 with retry counter 0, under the service
    key; disabled, it leaves none. *)
Example processMessage_persists_failed_export :
  let run enabled :=
    runtime_model.processMessage fixtures.decodeBytes fixtures.exportEngine
      (fixtures.context enabled) fixtures.envelope fixtures.offline in
  fixtures.rows (run true).2
  = [contracts.mkStoredObject "id-0" fixtures.serviceKey fixtures.payload 0 1
       fixtures.exportHash "CorrelationID" "" ""]
  /\ fixtures.rows (run false).2 = []
  /\ (run true).1.1.1 = (run false).1.1.1
  /\ (run true).1.1.1 = Some (runtime.mkMessageError runtime.KStageError 1 422
                                "connection refused").
Proof. cbn zeta. repeat split; reflexivity. Qed.

(** * Further properties of the sources *)

(** ** Strings *)

Lemma append_cons (c : ascii) (s t : string) :
  String c s +:+ t = String c (s +:+ t).
Proof. reflexivity. Qed.

Lemma append_nil_l (s : string) : "" +:+ s = s.
Proof. reflexivity. Qed.

Lemma append_nil_r (s : string) : s +:+ "" = s.
Proof. induction s as [|c s IH]; [done|]. by rewrite append_cons, IH. Qed.

Lemma append_assoc (s t u : string) : (s +:+ t) +:+ u = s +:+ t +:+ u.
Proof.
  induction s as [|c s IH]; [done|]. by rewrite !append_cons, IH.
Qed.

Lemma joinNames_shape (names : list string) :
  joinNames names = "" \/ exists rest, joinNames names = String " " rest.
Proof. destruct names as [|n rest]; [by left|right]. by eexists. Qed.

(** Two names without spaces, each followed by nothing or by a space,
    are told apart. *)
Lemma split_at_space (n m r1 r2 : string) :
  noSpace n = true -> noSpace m = true ->
  (r1 = "" \/ exists t, r1 = String " " t) ->
  (r2 = "" \/ exists t, r2 = String " " t) ->
  n +:+ r1 = m +:+ r2 -> n = m /\ r1 = r2.
Proof.
  revert m. induction n as [|c n IH]; intros [|d m] Hn Hm H1 H2 Heq.
  - done.
  - rewrite append_nil_l, append_cons in Heq. subst r1.
    destruct H1 as [?|[t Ht]]; [done|]. injection Ht as Hd _. subst d.
    simpl in Hm. done.
  - rewrite append_nil_l, append_cons in Heq. subst r2.
    destruct H2 as [?|[t Ht]]; [done|]. injection Ht as Hc _. subst c.
    simpl in Hn. done.
  - rewrite !append_cons in Heq. injection Heq as -> Heq.
    simpl in Hn, Hm. apply andb_true_iff in Hn as [_ Hn].
    apply andb_true_iff in Hm as [_ Hm].
    destruct (IH m Hn Hm H1 H2 Heq) as [-> ->]. done.
Qed.

Lemma joinNames_inj (ns ms : list string) :
  Forall (fun n => noSpace n = true) ns ->
  Forall (fun n => noSpace n = true) ms ->
  joinNames ns = joinNames ms -> ns = ms.
Proof.
  revert ms. induction ns as [|n ns IH]; intros [|m ms] Hn Hm Heq.
  - done.
  - discriminate.
  - discriminate.
  - simpl in Heq. rewrite !append_cons, !append_nil_l in Heq.
    injection Heq as Heq.
    apply Forall_cons in Hn as [Hn Hns]. apply Forall_cons in Hm as [Hm Hms].
    destruct (split_at_space n m _ _ Hn Hm (joinNames_shape ns)
                (joinNames_shape ms) Heq) as [-> Hrest].
    f_equal. by apply IH.
Qed.

(** ** The pipeline hash *)

Section PipelineHashProperties.

Context {W : Type}.

Lemma fold_names (ts : list (runtime.AppFunction W)) (acc : string) :
  fold_left (fun hash item => hash +:+ " " +:+ runtime.funcName item) ts acc
  = acc +:+ joinNames (runtime.funcName <$> ts).
Proof.
  revert acc. induction ts as [|t ts IH]; intros acc; simpl.
  - by rewrite append_nil_r.
  - rewrite IH. by rewrite append_assoc.
Qed.

Lemma calculatePipelineHash_names (sf : runtime.storeForwardInfo W) :
  runtime.calculatePipelineHash sf
  = "Pipeline-functions: "
    +:+ joinNames (runtime.funcName <$> runtime.transforms (runtime.runtime sf)).
Proof. apply fold_names. Qed.

(** X1.  The pipeline hash is the fixed prefix followed by the names of
    the transforms in order; two pipelines whose function names carry no
    space have the same hash exactly when they have the same names in the
    same order, whatever the transforms do and whatever else the two
    engines hold. *)
Theorem calculatePipelineHash_same_iff_same_names
    (sf1 sf2 : runtime.storeForwardInfo W) :
  let names sf := runtime.funcName <$> runtime.transforms (runtime.runtime sf) in
  Forall (fun n => noSpace n = true) (names sf1) ->
  Forall (fun n => noSpace n = true) (names sf2) ->
  (runtime.calculatePipelineHash sf1 = runtime.calculatePipelineHash sf2
   <-> names sf1 = names sf2).
Proof.
  intros names H1 H2. rewrite !calculatePipelineHash_names. fold (names sf1).
  fold (names sf2). split.
  - intros Heq. apply String.app_inj in Heq. by apply joinNames_inj.
  - by intros ->.
Qed.

End PipelineHashProperties.

(** ** More on the retry of stored items *)

Section RetryMoreProperties.

Context {W : Type} `{!StoreClient W}.

Variable executePipeline :
  runtime.GolangRuntime W -> Value -> string -> appcontext.Context ->
  list (runtime.AppFunction W) -> Z -> bool ->
  M W (option runtime.MessageError).

Variable sf : runtime.storeForwardInfo W.
Variable config : common.ConfigurationStruct.

Abbreviation retryItem := (runtime.processRetryItem executePipeline sf config).
Abbreviation retryItems items :=
  (runtime.processRetryItems executePipeline sf items config).

(** The three ways a turn can end. *)
Lemma processRetryItem_outcome item w :
  (retryItem item w).1.1 = runtime.ToRemove item
  \/ (contracts.Version item = runtime.calculatePipelineHash sf
      /\ ((retryItem item w).1.1 = runtime.ToUpdate (afterFailedRetry item)
          /\ (maxRetryCountOf config = 0
              \/ contracts.RetryCount (afterFailedRetry item)
                 < maxRetryCountOf config)
          \/ (retryItem item w).1.1 = runtime.ToRemove (afterFailedRetry item)
             /\ maxRetryCountOf config <> 0
             /\ maxRetryCountOf config
                <= contracts.RetryCount (afterFailedRetry item))).
Proof.
  destruct (decide (contracts.Version item = runtime.calculatePipelineHash sf))
    as [Hv|Hv].
  - destruct (runtime.retryExportFunction executePipeline sf item config w)
      as [[[] e] w'] eqn:Hr.
    + destruct (processRetryItem_succeeded _ _ _ _ _ _ _ Hv Hr) as (l & _ & ->).
      by left.
    + destruct (processRetryItem_failed _ _ _ _ _ _ _ Hv Hr) as (l & _ & ->).
      right. split; [done|]. case_decide as Hd.
      * right. split; [done|tauto].
      * left. split; [done|lia].
  - destruct (processRetryItem_stale executePipeline sf config item w Hv)
      as (l & _ & ->).
    by left.
Qed.

(** X2.  Where the items of the two sets come from: an item of the update
    set is an input item with a matching hash after one more failed
    retry, and it is below the bound when there is one; an item of the
    remove set is an input item as it was, or an input item with a
    matching hash whose counter, after one more failed retry, has reached
    a bound that is not 0.  No counter is ever reset or lowered. *)
Theorem processRetryItems_provenance items w :
  Forall (fun u =>
            exists item, item ∈ items
              /\ u = afterFailedRetry item
              /\ contracts.Version item = runtime.calculatePipelineHash sf
              /\ (maxRetryCountOf config = 0
                  \/ contracts.RetryCount u < maxRetryCountOf config))
         (updateSet (retryItems items w))
  /\ Forall (fun r =>
               exists item, item ∈ items
                 /\ (r = item
                     \/ (r = afterFailedRetry item
                         /\ contracts.Version item
                            = runtime.calculatePipelineHash sf
                         /\ maxRetryCountOf config <> 0
                         /\ maxRetryCountOf config <= contracts.RetryCount r)))
            (removeSet (retryItems items w)).
Proof.
  revert w. induction items as [|item rest IH]; intros w.
  - split; constructor.
  - rewrite processRetryItems_cons.
    pose proof (processRetryItem_outcome item w) as Ht.
    destruct (retryItem item w) as [[t e1] w1]; cbn [fst snd] in Ht.
    destruct (IH w1) as [IHu IHr].
    destruct (retryItems rest w1) as [[[r u] e2] w2].
    unfold updateSet, removeSet in *; cbn [fst snd] in *.
    assert (forall P : contracts.StoredObject -> contracts.StoredObject -> Prop,
              forall l, Forall (fun x => exists i, i ∈ rest /\ P x i) l ->
                        Forall (fun x => exists i, i ∈ item :: rest /\ P x i) l)
      as Hweak.
    { intros P l HF. eapply Forall_impl; [exact HF|].
      intros x (i & Hi & HP). exists i. split; [by right|done]. }
    apply (Hweak (fun u i => u = afterFailedRetry i
                             /\ contracts.Version i
                                = runtime.calculatePipelineHash sf
                             /\ (maxRetryCountOf config = 0
                                 \/ contracts.RetryCount u
                                    < maxRetryCountOf config))) in IHu.
    apply (Hweak (fun r i => r = i
                             \/ (r = afterFailedRetry i
                                 /\ contracts.Version i
                                    = runtime.calculatePipelineHash sf
                                 /\ maxRetryCountOf config <> 0
                                 /\ maxRetryCountOf config
                                    <= contracts.RetryCount r))) in IHr.
    destruct Ht as [->|(Hv & [(-> & Hb)|(-> & Hb)])];
      cbn [turnRemove turnUpdate app].
    + split; [done|]. constructor; [|done].
      exists item. split; [by left|by left].
    + split; [|done]. constructor; [|done].
      exists item. split; [by left|done].
    + split; [done|]. constructor; [|done].
      exists item. split; [by left|]. right. split; [done|tauto].
Qed.

(** X3.  With [MaxRetryCount] 0 nothing is given up, at any place of
    the input: an item that is stale, or whose retry delivers it, is put
    in the remove set as it was retrieved; an item whose hash matches
    and whose retry fails is kept: it is put in the update set with its
    counter incremented, and nothing is added to the remove set for
    it. *)
Theorem processRetryItems_unbounded pre item post w :
  maxRetryCountOf config = 0 ->
  let before := retryItems pre w in
  let delivery := runtime.retryExportFunction executePipeline sf item config
                    before.2 in
  let turn := retryItem item before.2 in
  let after := retryItems post turn.2 in
  let result := retryItems (pre ++ item :: post) w in
  (contracts.Version item <> runtime.calculatePipelineHash sf
   \/ delivery.1.1 = true ->
   removeSet result = removeSet before ++ item :: removeSet after
   /\ updateSet result = updateSet before ++ updateSet after)
  /\ (contracts.Version item = runtime.calculatePipelineHash sf ->
      delivery.1.1 = false ->
      removeSet result = removeSet before ++ removeSet after
      /\ updateSet result
         = updateSet before ++ afterFailedRetry item :: updateSet after).
Proof.
  intros H0 before delivery turn after result.
  assert (result
          = ((removeSet before ++ turnRemove turn.1.1 ++ removeSet after,
              updateSet before ++ turnUpdate turn.1.1 ++ updateSet after),
             before.1.2 ++ turn.1.2 ++ after.1.2, after.2)) as Hresult.
  { unfold result. rewrite processRetryItems_app. fold before.
    destruct before as [[[r1 u1] e1] w1]. rewrite processRetryItems_cons.
    cbn [fst snd] in *. fold turn.
    destruct turn as [[t e2] w2]. cbn [fst snd] in *. fold after.
    by destruct after as [[[r3 u3] e3] w3]. }
  rewrite Hresult. unfold removeSet at 1 3, updateSet at 1 3.
  cbn [fst snd].
  split.
  - intros [Hv|Hd].
    + destruct (processRetryItem_stale executePipeline sf config item
                  before.2 Hv) as (l & _ & Ht).
      fold turn in Ht. by rewrite Ht.
    + destruct (decide (contracts.Version item
                        = runtime.calculatePipelineHash sf)) as [Hv|Hv].
      * destruct delivery as [[ok e] w'] eqn:Hdel. cbn [fst snd] in Hd.
        subst ok.
        destruct (processRetryItem_succeeded executePipeline sf config item
                    before.2 e w' Hv Hdel) as (l & _ & Ht).
        fold turn in Ht. by rewrite Ht.
      * destruct (processRetryItem_stale executePipeline sf config item
                    before.2 Hv) as (l & _ & Ht).
        fold turn in Ht. by rewrite Ht.
  - intros Hv Hd.
    destruct delivery as [[ok e] w'] eqn:Hdel. cbn [fst snd] in Hd. subst ok.
    destruct (processRetryItem_failed executePipeline sf config item
                before.2 e w' Hv Hdel) as (l & _ & Ht).
    fold turn in Ht. rewrite decide_False in Ht by tauto.
    by rewrite Ht.
Qed.

(** X4.  Both sets keep the order in which the items were retrieved. *)
Theorem processRetryItems_keeps_order items w :
  (contracts.ID <$> removeSet (retryItems items w))
    `sublist_of` (contracts.ID <$> items)
  /\ (contracts.ID <$> updateSet (retryItems items w))
       `sublist_of` (contracts.ID <$> items).
Proof.
  revert w. induction items as [|item rest IH]; intros w.
  - split; constructor.
  - rewrite processRetryItems_cons.
    destruct (processRetryItem_keeps executePipeline sf config item w)
      as (item' & Ht & Hsame).
    apply sameButRetryCount_ID in Hsame.
    destruct (retryItem item w) as [[t e1] w1]; cbn [fst snd] in Ht.
    destruct (IH w1) as [IHr IHu].
    destruct (retryItems rest w1) as [[[r u] e2] w2].
    unfold updateSet, removeSet in *; cbn [fst snd] in *.
    rewrite fmap_cons, <- Hsame.
    destruct Ht as [->|(-> & _)]; cbn [turnRemove turnUpdate app];
      rewrite ?fmap_cons.
    + split; [by constructor|by apply sublist_cons].
    + split; [by apply sublist_cons|by constructor].
Qed.

End RetryMoreProperties.

(** ** A tick of the retry loop *)

Section TickProperties.

Context {W : Type} `{!StoreClient W}.

Variable executePipeline :
  runtime.GolangRuntime W -> Value -> string -> appcontext.Context ->
  list (runtime.AppFunction W) -> Z -> bool ->
  M W (option runtime.MessageError).

Variable sf : runtime.storeForwardInfo W.

(** X5.  A tick whose [RetrieveFromStore] returns an error, or no item,
    does nothing more than log: no retry, no removal, no update; the
    world is as [RetrieveFromStore] left it.  An error wins over items
    returned with it. *)
Theorem retryStoredData_nothing_to_do serviceKey config w items err w1 :
  RetrieveFromStore serviceKey w = ((items, err), w1) ->
  is_Some err \/ items = [] ->
  exists l, is_log l = true
    /\ runtime.retryStoredData executePipeline sf serviceKey config w
       = (tt, [EvRetrieveFromStore serviceKey; l], w1).
Proof.
  intros Hr Hc. unfold runtime.retryStoredData. run_M. rewrite Hr.
  destruct err as [e|]; cbn [fst snd].
  - eexists; split; [|reflexivity]; reflexivity.
  - destruct Hc as [[? [=]]| ->]. cbn.
    eexists; split; [|reflexivity]; reflexivity.
Qed.

(** X6.  A tick that retrieves items first retries them all, then
    writes: after the retries it calls [RemoveFromStore] once for each
    item of the remove set, in order, then [Update] once for each item of
    the update set, in order, one write per retrieved item; an error of
    one write does not stop the others.  Everything else it does after
    the retries is logging. *)
Theorem retryStoredData_writes serviceKey config w item items w1 :
  RetrieveFromStore serviceKey w = ((item :: items, None), w1) ->
  let retried := runtime.processRetryItems executePipeline sf (item :: items)
                   config w1 in
  exists l1 after,
    is_log l1 = true
    /\ (runtime.retryStoredData executePipeline sf serviceKey config w).1.2
       = EvRetrieveFromStore serviceKey :: l1 :: retried.1.2 ++ after
    /\ List.filter isPortWrite after
       = (EvRemoveFromStore <$> removeSet retried)
         ++ (EvUpdate <$> updateSet retried)
    /\ length (List.filter isPortWrite after) = S (length items)
    /\ Forall (fun e => isPortWrite e = true \/ is_log e = true) after.
Proof.
  intros Hr retried.
  assert (length (removeSet retried) + length (updateSet retried)
          = S (length items))%nat as Hlen.
  { destruct (processRetryItems_placed executePipeline sf config
                (item :: items) w1) as (placed & Hp & Hf).
    fold retried in Hp.
    rewrite <- length_app, <- Hp. exact (Forall2_length _ _ _ Hf). }
  unfold runtime.retryStoredData. run_M. rewrite Hr. cbn [fst snd].
  rewrite bool_decide_eq_true_2 by (cbn [length]; lia).
  fold retried.
  destruct retried as [[[rem upd] evs] w2]; unfold removeSet, updateSet in *;
    cbn [fst snd] in *.
  destruct (removeAll_calls rem w2) as [Hrf Hra].
  destruct (runtime.removeAll rem w2) as [[[] er] w3]; cbn [fst snd] in *.
  destruct (updateAll_calls upd w3) as [Huf Hua].
  destruct (runtime.updateAll upd w3) as [[[] eu] w4]; cbn [fst snd] in *.
  exists (EvLog DEBUG " %d stored data items found for retrying"
            [LInt (Z.of_nat (length (item :: items)))]).
  exists (EvLog DEBUG " %d stored data items will be removed post retry"
                     [LInt (Z.of_nat (length rem))]
                   :: EvLog DEBUG " %d stored data items will be update post retry"
                        [LInt (Z.of_nat (length upd))]
                   :: er ++ eu).
  split; [reflexivity|]. split.
  { cbn [app]. rewrite <- ?app_assoc. reflexivity. }
  assert (List.filter isPortWrite
            (EvLog DEBUG " %d stored data items will be removed post retry"
               [LInt (Z.of_nat (length rem))]
             :: EvLog DEBUG " %d stored data items will be update post retry"
                  [LInt (Z.of_nat (length upd))]
             :: er ++ eu)
          = (EvRemoveFromStore <$> rem) ++ (EvUpdate <$> upd)) as Hf.
  { cbn [List.filter isPortWrite]. by rewrite List.filter_app, Hrf, Huf. }
  split; [exact Hf|]. split.
  - rewrite Hf, length_app, !length_fmap. exact Hlen.
  - constructor; [by right|]. constructor; [by right|].
    apply Forall_app. split; done.
Qed.

(** X7.  The loop ends at the first cancellation, of the application or
    of the feature: whatever the schedule holds after it is not run, and
    the loop logs its exit once. *)
Theorem retryLoop_stops_at_cancellation pre cancel rest serviceKey config w :
  cancel <> runtime.TimerFired ->
  runtime.retryLoop executePipeline sf (pre ++ cancel :: rest) serviceKey
    config w
  = runtime.retryLoop executePipeline sf (pre ++ [cancel]) serviceKey config w
  /\ (Forall (fun c => c = runtime.TimerFired) pre ->
      exists evs,
        (runtime.retryLoop executePipeline sf (pre ++ cancel :: rest)
           serviceKey config w).1.2
        = evs ++ [EvLog INFO "StoreAndForward Retry Loop exited" []]).
Proof.
  intros Hc. split.
  - revert w. induction pre as [|c pre IH]; intros w.
    + by destruct cancel.
    + destruct c; cbn [app runtime.retryLoop]; try reflexivity.
      run_M. destruct (runtime.retryStoredData _ _ _ _ w) as [[[] e] w1].
      by rewrite IH.
  - intros Hpre. revert w. induction Hpre as [|c pre -> _ IH]; intros w.
    + exists []. by destruct cancel.
    + cbn [app runtime.retryLoop]. run_M.
      destruct (runtime.retryStoredData _ _ _ _ w) as [[[] e] w1].
      destruct (IH w1) as [evs Hevs].
      destruct (runtime.retryLoop _ _ (pre ++ cancel :: rest) _ _ w1)
        as [[[] e2] w2]; cbn [fst snd] in *.
      exists (e ++ evs). by rewrite Hevs, app_assoc.
Qed.

(** X8.  The goroutine leaves the configuration as it found it but for a
    negative [MaxRetryCount], which it sets to 1: log level, enabled
    flag, retry interval and trigger settings are kept, and
    [MaxRetryCount] is never negative afterwards.  Its trace is the
    coercion log when the value was negative, then the start-up log,
    which announces the configured interval raised to
    [DefaultMinRetryInterval] and the [MaxRetryCount] in force, then
    the ticks, which run with the configuration in force. *)
Theorem startStoreAndForwardRetryLoop_configuration
    schedule serviceKey config w :
  let negative := bool_decide (maxRetryCountOf config < 0) in
  let effective :=
    if negative then common.set_MaxRetryCount config 1 else config in
  let run := runtime.startStoreAndForwardRetryLoop executePipeline sf
               schedule serviceKey config w in
  let ticks := runtime.retryLoop executePipeline sf schedule serviceKey
                 effective w in
  run.1.1 = effective
  /\ run.2 = ticks.2
  /\ run.1.2
     = (if negative
        then [EvLog INFO "StoreAndForward MaxRetryCount can not be less than 0, defaulting to 1" []]
        else [])
       ++ EvLog INFO "Starting StoreAndForward Retry Loop with %d RetryInterval and %d max retries"
            [LInt (Z.max (common.RetryInterval (common.StoreAndForward
                            (common.Writable config)))
                         runtime.DefaultMinRetryInterval);
             LInt (maxRetryCountOf effective)]
          :: ticks.1.2
  /\ maxRetryCountOf effective
     = (if negative then 1 else maxRetryCountOf config)
  /\ 0 <= maxRetryCountOf effective
  /\ common.LogLevel (common.Writable effective)
     = common.LogLevel (common.Writable config)
  /\ common.Enabled (common.StoreAndForward (common.Writable effective))
     = common.Enabled (common.StoreAndForward (common.Writable config))
  /\ common.RetryInterval (common.StoreAndForward (common.Writable effective))
     = common.RetryInterval (common.StoreAndForward (common.Writable config))
  /\ common.Trigger effective = common.Trigger config
  /\ (0 <= maxRetryCountOf config -> effective = config).
Proof.
  intros negative effective run ticks.
  assert ((if bool_decide (common.RetryInterval (common.StoreAndForward
                             (common.Writable config))
                           < runtime.DefaultMinRetryInterval)
           then runtime.DefaultMinRetryInterval
           else common.RetryInterval (common.StoreAndForward
                  (common.Writable config)))
          = Z.max (common.RetryInterval (common.StoreAndForward
                     (common.Writable config)))
                  runtime.DefaultMinRetryInterval) as Hmax
    by (case_bool_decide; lia).
  assert (run = (effective,
                 (if negative
                  then [EvLog INFO "StoreAndForward MaxRetryCount can not be less than 0, defaulting to 1" []]
                  else [])
                 ++ EvLog INFO "Starting StoreAndForward Retry Loop with %d RetryInterval and %d max retries"
                      [LInt (Z.max (common.RetryInterval
                                      (common.StoreAndForward
                                         (common.Writable config)))
                                   runtime.DefaultMinRetryInterval);
                       LInt (maxRetryCountOf effective)]
                    :: ticks.1.2, ticks.2)) as Hrun.
  { unfold run, runtime.startStoreAndForwardRetryLoop.
    fold (maxRetryCountOf config). fold negative. rewrite Hmax.
    unfold ticks, effective.
    destruct negative; run_M; cbn [fst snd app].
    - destruct (runtime.retryLoop _ _ _ _ (common.set_MaxRetryCount config 1)
                  w) as [[[] evs] w']; cbn [fst snd].
      by rewrite app_nil_r.
    - destruct (runtime.retryLoop _ _ _ _ config w) as [[[] evs] w'];
        cbn [fst snd].
      by rewrite app_nil_r. }
  split; [by rewrite Hrun|]. split; [by rewrite Hrun|].
  split; [by rewrite Hrun|]. clear Hrun Hmax.
  unfold effective, negative.
  destruct (decide (maxRetryCountOf config < 0)) as [Hneg|Hpos].
  - rewrite (bool_decide_eq_true_2 _ Hneg).
    split; [reflexivity|]. split; [by cbn|].
    do 4 (split; [reflexivity|]). intros ?; lia.
  - rewrite (bool_decide_eq_false_2 _ Hpos).
    split; [reflexivity|]. split; [lia|].
    do 4 (split; [reflexivity|]). by intros _.
Qed.

End TickProperties.

(** ** More on the trigger factory *)

Section TriggerFactoryMoreProperties.

Context {W T : Type}.

Variable ToUpper : string -> string.

Variable ProcessMessage :
  appcontext.Context -> types.MessageEnvelope ->
  M W (option runtime.MessageError * appcontext.Context).

Lemma not_builtin_tests (nu : string) :
  ~ builtinTriggerType nu ->
  bool_decide (nu = appsdk.TriggerTypeHTTP) = false
  /\ bool_decide (nu = appsdk.TriggerTypeMessageBus) = false
  /\ bool_decide (nu = appsdk.TriggerTypeMQTT) = false.
Proof.
  unfold builtinTriggerType. intros Hn.
  repeat split; apply bool_decide_eq_false_2; tauto.
Qed.

(** What a registration under a name that is not built in leaves. *)
Lemma register_outcome
    (sdk : @appsdk.AppFunctionsSDK W T) name
    (factory : @appsdk.TriggerConfig W -> T + error) :
  ~ builtinTriggerType (ToUpper name) ->
  registryOf (appsdk.RegisterCustomTriggerFactory ToUpper sdk name factory).2
  = <[ToUpper name := appsdk.mkFactoryClosure factory]> (registryOf sdk)
  /\ appsdk.config
       (appsdk.RegisterCustomTriggerFactory ToUpper sdk name factory).2
     = appsdk.config sdk.
Proof.
  intros Hn. unfold appsdk.RegisterCustomTriggerFactory.
  rewrite <- (builtin_test ToUpper) in Hn. apply not_true_is_false in Hn.
  rewrite Hn. unfold registryOf. cbn [snd appsdk.config
    appsdk.customTriggerFactories].
  by destruct (appsdk.customTriggerFactories sdk).
Qed.

(** What a registration under a built-in name leaves. *)
Lemma register_refused
    (sdk : @appsdk.AppFunctionsSDK W T) name
    (factory : @appsdk.TriggerConfig W -> T + error) :
  builtinTriggerType (ToUpper name) ->
  (appsdk.RegisterCustomTriggerFactory ToUpper sdk name factory).2 = sdk.
Proof.
  intros Hy. unfold appsdk.RegisterCustomTriggerFactory.
  apply (builtin_test ToUpper) in Hy. by rewrite Hy.
Qed.

(** X9.  A factory that was registered is the one [setupTrigger] calls
    for every trigger type that upper-cases to the registered name: the
    trigger is what the factory builds from the configuration of the SDK,
    and when the factory fails the result is nil and the failure is
    logged. *)
Theorem setupTrigger_after_register
    (sdk : @appsdk.AppFunctionsSDK W T) name factory configuration w :
  ~ builtinTriggerType (ToUpper name) ->
  ToUpper (common.Type_ (common.Trigger configuration)) = ToUpper name ->
  let registered :=
    (appsdk.RegisterCustomTriggerFactory ToUpper sdk name factory).2 in
  appsdk.setupTrigger ToUpper ProcessMessage registered configuration w
  = match factory (appsdk.mkTriggerConfig (appsdk.config sdk)
                     (appsdk.defaultTriggerContextBuilder registered)
                     (appsdk.defaultTriggerMessageProcessor ProcessMessage
                        registered)) with
    | inl t => (Some (appsdk.CustomTrigger t), [], w)
    | inr err =>
        (None,
         [EvLog ERROR "failed to initialize custom trigger [%s]: %s"
            [LStr (ToUpper name); LStr err]], w)
    end.
Proof.
  intros Hn Hty registered.
  destruct (register_outcome sdk name factory Hn) as [Hreg Hcfg].
  assert (registryOf registered !! ToUpper name
          = Some (appsdk.mkFactoryClosure factory)) as Hlook
    by (unfold registered; rewrite Hreg; apply lookup_insert_eq).
  fold registered in Hcfg.
  unfold appsdk.setupTrigger. rewrite Hty.
  destruct (not_builtin_tests _ Hn) as (-> & -> & ->).
  unfold registryOf in Hlook. rewrite Hlook.
  unfold appsdk.callFactory. cbn [appsdk.factory]. rewrite Hcfg.
  destruct (factory _) as [t|err]; reflexivity.
Qed.

(** X10.  Registering again under a name that upper-cases to the same
    key replaces the earlier factory: the outcome is the same as that of
    the second registration alone. *)
Theorem RegisterCustomTriggerFactory_replaces
    (sdk : @appsdk.AppFunctionsSDK W T) name1 name2 factory1 factory2 :
  ToUpper name1 = ToUpper name2 ->
  ~ builtinTriggerType (ToUpper name2) ->
  appsdk.RegisterCustomTriggerFactory ToUpper
    (appsdk.RegisterCustomTriggerFactory ToUpper sdk name1 factory1).2
    name2 factory2
  = appsdk.RegisterCustomTriggerFactory ToUpper sdk name2 factory2.
Proof.
  intros Heq Hn. unfold appsdk.RegisterCustomTriggerFactory.
  rewrite Heq.
  rewrite <- (builtin_test ToUpper) in Hn. apply not_true_is_false in Hn.
  rewrite Hn. cbn [snd appsdk.config appsdk.customTriggerFactories].
  by rewrite insert_insert_eq.
Qed.

(** X11.  The registry never holds a built-in trigger type, and every
    key of it is an upper-cased name: a registration, accepted or
    refused, keeps both. *)
Theorem RegisterCustomTriggerFactory_keeps_keys
    (sdk : @appsdk.AppFunctionsSDK W T) name factory :
  (forall key, is_Some (registryOf sdk !! key) ->
     ~ builtinTriggerType key /\ exists n, key = ToUpper n) ->
  forall key,
    is_Some (registryOf
               (appsdk.RegisterCustomTriggerFactory ToUpper sdk name factory).2
             !! key) ->
    ~ builtinTriggerType key /\ exists n, key = ToUpper n.
Proof.
  intros Hinv key.
  destruct (decide (builtinTriggerType (ToUpper name))) as [Hy|Hno].
  - rewrite (register_refused sdk name factory Hy). apply Hinv.
  - destruct (register_outcome sdk name factory Hno) as [-> _].
    destruct (decide (key = ToUpper name)) as [->|Hne].
    + intros _. split; [done|by eexists].
    + rewrite lookup_insert_ne by done. apply Hinv.
Qed.

(** X12.  For a built-in trigger type, in any letter case, [setupTrigger]
    selects the built-in trigger and does not look at the registry; for
    a type that is neither built in nor registered it returns nil and
    logs the type as it was configured. *)
Theorem setupTrigger_builtin_or_unknown
    (sdk : @appsdk.AppFunctionsSDK W T) configuration w :
  let triggerType := ToUpper (common.Type_ (common.Trigger configuration)) in
  let run := appsdk.setupTrigger ToUpper ProcessMessage sdk configuration w in
  (builtinTriggerType triggerType ->
     run = appsdk.setupTrigger ToUpper ProcessMessage
             (appsdk.mkAppFunctionsSDK (appsdk.config sdk) None)
             configuration w
     /\ (triggerType = appsdk.TriggerTypeHTTP ->
         run.1.1 = Some appsdk.HTTPTrigger)
     /\ (triggerType = appsdk.TriggerTypeMessageBus ->
         run.1.1 = Some appsdk.MessageBusTrigger)
     /\ (triggerType = appsdk.TriggerTypeMQTT ->
         run.1.1 = Some appsdk.MQTTTrigger))
  /\ (~ builtinTriggerType triggerType ->
      registryOf sdk !! triggerType = None ->
      run = (None,
             [EvLog ERROR "Invalid Trigger type of '%s' specified"
                [LStr (common.Type_ (common.Trigger configuration))]], w)).
Proof.
  intros triggerType run. unfold run, appsdk.setupTrigger. fold triggerType.
  split.
  - intros [Hb|[Hb|Hb]]; rewrite Hb; (split; [reflexivity|]);
      repeat split; intros Heq; try reflexivity; discriminate.
  - intros Hn Hnone.
    destruct (not_builtin_tests _ Hn) as (-> & -> & ->).
    unfold registryOf in Hnone. by rewrite Hnone.
Qed.

End TriggerFactoryMoreProperties.

(** ** More on the message-bus trigger *)

Section MessageBusMoreProperties.

Context {W : Type}.

Variable Publish : types.MessageEnvelope -> string -> W -> option error * W.

Variable ProcessMessage :
  appcontext.Context -> types.MessageEnvelope ->
  M W (option runtime.MessageError * appcontext.Context).

(** X13.  When the pipeline returns an error, or leaves a nil response,
    the trigger of either release line publishes nothing: it returns
    after its two log calls and what the pipeline did. *)
Theorem processMessage_nothing_to_publish :
  (forall trigger topic message w messageError ctx' evs w',
     ProcessMessage (contextV1 trigger message) message w
       = ((messageError, ctx'), evs, w') ->
     is_Some messageError \/ appcontext.OutputData ctx' = None ->
     exists l1 l2, is_log l1 = true /\ is_log l2 = true
       /\ messagebus_v1.processMessage Publish ProcessMessage trigger topic
            message w = (Returns, l1 :: l2 :: evs, w'))
  /\ (forall trigger topic message w messageError ctx' evs w',
        ProcessMessage (contextV2 trigger message) message w
          = ((messageError, ctx'), evs, w') ->
        is_Some messageError \/ appcontext.OutputData ctx' = None ->
        exists l1 l2, is_log l1 = true /\ is_log l2 = true
          /\ messagebus.processMessage Publish ProcessMessage trigger topic
               message w = (Returns, l1 :: l2 :: evs, w')).
Proof.
  split; intros trigger topic message w messageError ctx' evs w' Hpm Hc.
  - unfold messagebus_v1.processMessage.
    change (appcontext.mkContext (types.CorrelationID message) "" "" ""
              (messagebus_v1.Configuration trigger) None "" None)
      with (contextV1 trigger message).
    run_M; rewrite Hpm; cbn [fst snd].
    destruct messageError as [me|];
      [|destruct Hc as [[? [=]]|Hout]; rewrite Hout];
      cbn; rewrite app_nil_r;
      do 2 eexists; (split; [|split; [|reflexivity]]); reflexivity.
  - unfold messagebus.processMessage.
    change (messagebus.NewContext (types.CorrelationID message)
              (messagebus.dic trigger) (types.ContentType message))
      with (contextV2 trigger message).
    run_M; rewrite Hpm; cbn [fst snd].
    destruct messageError as [me|];
      [|destruct Hc as [[? [=]]|Hout]; rewrite Hout];
      cbn; rewrite app_nil_r;
      do 2 eexists; (split; [|split; [|reflexivity]]); reflexivity.
Qed.

(** X14.  A response that has an explicit content type or at least one
    byte is published exactly once by the trigger of either release
    line, after the pipeline: the envelope carries the correlation id of
    the context and the response; its content type is the explicit one
    when there is one, else application/json when the first byte is an
    opening brace, else application/cbor.  The function returns whether
    or not the publish succeeds. *)
Theorem processMessage_publishes_response :
  (forall trigger topic message w ctx' evs w' data,
     ProcessMessage (contextV1 trigger message) message w
       = ((None, ctx'), evs, w') ->
     appcontext.OutputData ctx' = Some data ->
     appcontext.ResponseContentType ctx' <> "" \/ data <> [] ->
     let run := messagebus_v1.processMessage Publish ProcessMessage trigger
                  topic message w in
     let outputEnvelope :=
       types.mkMessageEnvelope (appcontext.CorrelationID ctx') (Some data)
         (chosenContentType (appcontext.ResponseContentType ctx')
            (head data)) in
     let publishTopic :=
       common.PublishTopic
         (common.Trigger (messagebus_v1.Configuration trigger)) in
     run.1.1 = Returns
     /\ run.2 = (Publish outputEnvelope publishTopic w').2
     /\ exists l1 l2 tail,
          is_log l1 = true /\ is_log l2 = true /\ forallb is_log tail = true
          /\ run.1.2 = l1 :: l2 :: evs
                       ++ EvPublish outputEnvelope publishTopic :: tail)
  /\ (forall trigger topic message w ctx' evs w' data,
        ProcessMessage (contextV2 trigger message) message w
          = ((None, ctx'), evs, w') ->
        appcontext.OutputData ctx' = Some data ->
        appcontext.ResponseContentType ctx' <> "" \/ data <> [] ->
        let run := messagebus.processMessage Publish ProcessMessage trigger
                     topic message w in
        let outputEnvelope :=
          types.mkMessageEnvelope (appcontext.CorrelationID ctx') (Some data)
            (chosenContentType (appcontext.ResponseContentType ctx')
               (head data)) in
        let publishTopic :=
          common.HostPublishTopic (common.PublishHost (common.EdgexMessageBus
            (common.Trigger (messagebus.dic trigger)))) in
        run.1.1 = Returns
        /\ run.2 = (Publish outputEnvelope publishTopic w').2
        /\ exists l1 l2 tail,
             is_log l1 = true /\ is_log l2 = true /\ forallb is_log tail = true
             /\ run.1.2 = l1 :: l2 :: evs
                          ++ EvPublish outputEnvelope publishTopic :: tail).
Proof.
  split; intros trigger topic message w ctx' evs w' data Hpm Hout Hok.
  - exact (processMessage_v1_publishes Publish ProcessMessage trigger topic
             message w ctx' evs w' data Hpm Hout Hok).
  - exact (processMessage_v2_publishes Publish ProcessMessage trigger topic
             message w ctx' evs w' data Hpm Hout Hok).
Qed.

End MessageBusMoreProperties.

(** ** The filters of the first release line *)

Lemma matchDevice_elem (event : transforms_v0.Event) (deviceIDs : list string) :
  transforms_v0.matchDevice event deviceIDs
  = if decide (transforms_v0.Device event ∈ deviceIDs)
    then transforms_v0.Results true (transforms_v0.PEvent event)
    else transforms_v0.Results false transforms_v0.PNil.
Proof.
  induction deviceIDs as [|devID rest IH]; cbn [transforms_v0.matchDevice].
  - rewrite decide_False; [done|]. apply not_elem_of_nil.
  - case_bool_decide as Hd.
    + rewrite decide_True; [done|]. rewrite Hd. by left.
    + rewrite IH. destruct (decide (transforms_v0.Device event ∈ rest)).
      * rewrite decide_True; [done|]. by right.
      * rewrite decide_False; [done|]. rewrite elem_of_cons. tauto.
Qed.

(** X15.  [FilterByDeviceID] with one event lets it pass, unchanged,
    exactly when its device is among the filter values, and otherwise
    stops the pipeline with a nil result and no error; with an empty list
    of filter values nothing passes.  With no argument or more than one
    it returns the error "No Event Received", whatever the arguments are;
    one argument that is not an event makes the type assertion panic. *)
Theorem FilterByDeviceID_passes_listed_devices
    (f : transforms_v0.Filter) (params : list transforms_v0.Param) :
  transforms_v0.FilterByDeviceID f params
  = (["FILTER BY DEVICEID"],
     match params with
     | [transforms_v0.PEvent event] =>
         if decide (transforms_v0.Device event ∈ transforms_v0.FilterValues f)
         then transforms_v0.Results true (transforms_v0.PEvent event)
         else transforms_v0.Results false transforms_v0.PNil
     | [_] => transforms_v0.Panic
     | _ => transforms_v0.Results false
              (transforms_v0.PError "No Event Received")
     end).
Proof.
  unfold transforms_v0.FilterByDeviceID.
  destruct params as [|p [|q rest]]; [reflexivity| |].
  - cbn [length]. rewrite bool_decide_eq_true_2 by done. cbn [negb].
    destruct p; try reflexivity. by rewrite matchDevice_elem.
  - cbn [length]. rewrite bool_decide_eq_false_2 by lia. cbn [negb].
    destruct p; reflexivity.
Qed.

Lemma appendMatching_filter filterID readings aux :
  transforms_v0.appendMatching filterID readings aux
  = aux ++ filter (fun r => transforms_v0.Name r = filterID) readings.
Proof.
  revert aux. induction readings as [|r rest IH]; intros aux; simpl.
  - by rewrite app_nil_r.
  - case_bool_decide as Hd; rewrite IH.
    + rewrite filter_cons_True by done. by rewrite <- app_assoc.
    + by rewrite filter_cons_False by done.
Qed.

Lemma filterReadings_grouped filterIDs readings aux :
  transforms_v0.filterReadings filterIDs readings aux
  = aux ++ groupedByFilter filterIDs readings.
Proof.
  revert aux. induction filterIDs as [|filterID rest IH]; intros aux;
    cbn [transforms_v0.filterReadings].
  - unfold groupedByFilter. cbn. by rewrite app_nil_r.
  - rewrite IH, appendMatching_filter. unfold groupedByFilter.
    by rewrite bind_cons, app_assoc.
Qed.

Lemma elem_of_groupedByFilter filterIDs readings r :
  r ∈ groupedByFilter filterIDs readings
  <-> r ∈ readings /\ transforms_v0.Name r ∈ filterIDs.
Proof.
  unfold groupedByFilter. rewrite list_elem_of_bind. split.
  - intros (filterID & Hr & Hid). apply list_elem_of_filter in Hr as [<- Hr].
    done.
  - intros [Hr Hid]. exists (transforms_v0.Name r). split; [|done].
    by apply list_elem_of_filter.
Qed.

(** X16.  [FilterByValueDescriptor] with one event returns a new event
    with the device and the four timestamps of the old one, an empty
    identifier, and as readings, for each filter value in turn, the
    readings of that name in their order in the event.  So every reading
    it keeps is a reading of the event whose name is a filter value, every
    such reading is kept, and the pipeline continues exactly when there
    is one. *)
Theorem FilterByValueDescriptor_keeps_named_readings
    (f : transforms_v0.Filter) (event : transforms_v0.Event) :
  let kept := groupedByFilter (transforms_v0.FilterValues f)
                (transforms_v0.Readings event) in
  transforms_v0.FilterByValueDescriptor f [transforms_v0.PEvent event]
  = (["FILTER BY VALUE DESCRIPTOR ID"],
     transforms_v0.Results (bool_decide (kept <> []))
       (transforms_v0.PEvent
          (transforms_v0.mkEvent "" (transforms_v0.Pushed event)
             (transforms_v0.Device event) (transforms_v0.Created event)
             (transforms_v0.Modified event) (transforms_v0.Origin event)
             kept)))
  /\ (forall r, r ∈ kept <->
                r ∈ transforms_v0.Readings event
                /\ transforms_v0.Name r ∈ transforms_v0.FilterValues f)
  /\ (kept <> [] <->
      exists r, r ∈ transforms_v0.Readings event
                /\ transforms_v0.Name r ∈ transforms_v0.FilterValues f).
Proof.
  intros kept. split; [|split].
  - unfold transforms_v0.FilterByValueDescriptor. cbn [length].
    rewrite bool_decide_eq_true_2 by done.
    cbn [negb transforms_v0.Readings transforms_v0.ID transforms_v0.Pushed
         transforms_v0.Device transforms_v0.Created transforms_v0.Modified
         transforms_v0.Origin].
    rewrite filterReadings_grouped, app_nil_l. fold kept.
    do 3 f_equal. apply bool_decide_ext. destruct kept; simpl; split; try lia;
      done.
  - intros r. apply elem_of_groupedByFilter.
  - split.
    + intros Hne. destruct kept as [|r rest] eqn:Hk; [done|].
      exists r. apply elem_of_groupedByFilter. fold kept. rewrite Hk. by left.
    + intros (r & Hr). apply elem_of_groupedByFilter in Hr. fold kept in Hr.
      intros Hnil. rewrite Hnil in Hr. by apply elem_of_nil in Hr.
Qed.

Lemma filter_two_names (id : string) (ids : list string)
    (readings : list transforms_v0.Reading) :
  id ∉ ids ->
  filter (fun r => transforms_v0.Name r ∈ id :: ids) readings
  ≡ₚ filter (fun r => transforms_v0.Name r = id) readings
     ++ filter (fun r => transforms_v0.Name r ∈ ids) readings.
Proof.
  intros Hid. induction readings as [|r rest IH]; [done|].
  destruct (decide (transforms_v0.Name r = id)) as [Heq|Hne].
  - rewrite (filter_cons_True (fun r => transforms_v0.Name r ∈ id :: ids))
      by (rewrite Heq; by left).
    rewrite (filter_cons_True (fun r => transforms_v0.Name r = id)) by done.
    rewrite (filter_cons_False (fun r => transforms_v0.Name r ∈ ids))
      by (by rewrite Heq).
    simpl. by rewrite IH.
  - rewrite (filter_cons_False (fun r => transforms_v0.Name r = id)) by done.
    destruct (decide (transforms_v0.Name r ∈ ids)) as [Hin|Hnin].
    + rewrite (filter_cons_True (fun r => transforms_v0.Name r ∈ id :: ids))
        by (by right).
      rewrite (filter_cons_True (fun r => transforms_v0.Name r ∈ ids)) by done.
      rewrite IH. by rewrite Permutation_middle.
    + rewrite (filter_cons_False (fun r => transforms_v0.Name r ∈ id :: ids))
        by (rewrite elem_of_cons; tauto).
      by rewrite (filter_cons_False (fun r => transforms_v0.Name r ∈ ids))
        by done.
Qed.

(** X17.  When no filter value is listed twice, the readings of the
    event [FilterByValueDescriptor] returns are, up to order, the
    readings of the event it was given whose name is a filter value,
    each one as often as that event has it; nothing else of the result
    depends on the readings but whether the pipeline continues. *)
Theorem FilterByValueDescriptor_no_duplicates
    (f : transforms_v0.Filter) (event : transforms_v0.Event) :
  NoDup (transforms_v0.FilterValues f) ->
  exists continuePipeline auxEvent,
    transforms_v0.FilterByValueDescriptor f [transforms_v0.PEvent event]
    = (["FILTER BY VALUE DESCRIPTOR ID"],
       transforms_v0.Results continuePipeline (transforms_v0.PEvent auxEvent))
    /\ transforms_v0.Readings auxEvent
       ≡ₚ filter (fun r => transforms_v0.Name r
                           ∈ transforms_v0.FilterValues f)
            (transforms_v0.Readings event)
    /\ length (transforms_v0.Readings auxEvent)
       = length (filter (fun r => transforms_v0.Name r
                                  ∈ transforms_v0.FilterValues f)
                   (transforms_v0.Readings event))
    /\ (continuePipeline = true <->
        exists r, r ∈ transforms_v0.Readings event
                  /\ transforms_v0.Name r ∈ transforms_v0.FilterValues f).
Proof.
  intros Hnd.
  assert (transforms_v0.filterReadings (transforms_v0.FilterValues f)
            (transforms_v0.Readings event) []
          ≡ₚ filter (fun r => transforms_v0.Name r
                              ∈ transforms_v0.FilterValues f)
               (transforms_v0.Readings event)) as Hperm.
  { rewrite filterReadings_grouped, app_nil_l.
    induction Hnd as [|id ids Hid _ IH].
    - unfold groupedByFilter. simpl. symmetry.
      induction (transforms_v0.Readings event) as [|r rest IHr]; [done|].
      rewrite filter_cons_False; [done|]. apply not_elem_of_nil.
    - unfold groupedByFilter in *. rewrite bind_cons, IH.
      symmetry. by apply filter_two_names. }
  unfold transforms_v0.FilterByValueDescriptor. cbn [length].
  rewrite bool_decide_eq_true_2 by done.
  cbn [negb transforms_v0.Readings transforms_v0.ID transforms_v0.Pushed
       transforms_v0.Device transforms_v0.Created transforms_v0.Modified
       transforms_v0.Origin].
  do 2 eexists. split; [reflexivity|].
  cbn [transforms_v0.Readings].
  split; [exact Hperm|]. split; [by rewrite Hperm|].
  rewrite bool_decide_eq_true. split.
  - intros Hlen.
    destruct (transforms_v0.filterReadings _ _ []) as [|r rest] eqn:Hk;
      [simpl in Hlen; lia|].
    assert (r ∈ filter (fun r => transforms_v0.Name r
                                 ∈ transforms_v0.FilterValues f)
                  (transforms_v0.Readings event)) as Hin
      by (rewrite <- Hperm; by left).
    apply list_elem_of_filter in Hin as [Hname Hin]. by exists r.
  - intros (r & Hr & Hname).
    assert (r ∈ transforms_v0.filterReadings (transforms_v0.FilterValues f)
                  (transforms_v0.Readings event) []) as Hin
      by (rewrite Hperm; by apply list_elem_of_filter).
    destruct (transforms_v0.filterReadings _ _ []) as [|r' rest];
      [by apply elem_of_nil in Hin|simpl; lia].
Qed.

(** ** The HTTP sender of the first release line *)

Section HTTPSenderProperties.

Context {W : Type}.

Variable CoerceType : Value -> list Byte.byte + error.
Variable httpPost :
  string -> string -> list Byte.byte -> W -> (transforms_http.Response + error) * W.
Variable MarkAsPushed : appcontext.Context -> W -> option error * W.

Abbreviation HTTPPost :=
  (transforms_http.HTTPPost CoerceType httpPost MarkAsPushed).

Ltac post_start Hc Hp :=
  unfold transforms_http.HTTPPost; rewrite Hc;
  unfold transforms_http.inWorld; run_M;
  match type of Hp with
  | httpPost _ ?m _ _ = _ =>
      unfold effectiveMimeType in Hp;
      destruct (decide (transforms_http.MimeType _ = "")) as [He|He];
      [rewrite (bool_decide_eq_true_2 _ He)
      |rewrite (bool_decide_eq_false_2 _ He)];
      cbn [transforms_http.URL transforms_http.MimeType];
      rewrite Hp; cbn [fst snd]
  end.

(** X18.  [HTTPPost] sends nothing when it has no argument or cannot
    turn its argument into bytes: it returns false with the error, logs
    nothing and leaves the world alone.  When the request fails or the
    body cannot be read it returns false with that error and the event is
    not marked as pushed. *)
Theorem HTTPPost_failures sender ctx params w :
  (params = [] ->
     HTTPPost sender ctx params w = ((false, VError "No Data Received"), [], w))
  /\ (forall p rest err,
        params = p :: rest -> CoerceType p = inr err ->
        HTTPPost sender ctx params w = ((false, VError err), [], w))
  /\ (forall p rest data err w1,
        params = p :: rest -> CoerceType p = inl data ->
        httpPost (transforms_http.URL sender) (effectiveMimeType sender) data w
          = (inr err, w1) ->
        (HTTPPost sender ctx params w).1.1 = (false, VError err)
        /\ (HTTPPost sender ctx params w).2 = w1)
  /\ (forall p rest data response err w1,
        params = p :: rest -> CoerceType p = inl data ->
        httpPost (transforms_http.URL sender) (effectiveMimeType sender) data w
          = (inl response, w1) ->
        transforms_http.Body response = inr err ->
        (HTTPPost sender ctx params w).1.1 = (false, VError err)
        /\ (HTTPPost sender ctx params w).2 = w1).
Proof.
  split; [by intros ->|]. split; [|split].
  - intros p rest err -> Hc. unfold transforms_http.HTTPPost. by rewrite Hc.
  - intros p rest data err w1 -> Hc Hp. post_start Hc Hp; by split.
  - intros p rest data response err w1 -> Hc Hp Hb.
    post_start Hc Hp; rewrite Hb; by split.
Qed.

(** X19.  When the request is answered and the body read, [HTTPPost]
    returns the body, and continues the pipeline exactly when the status
    code is at least 200 and below 300; any other status stops the
    pipeline with the body as result, not with an error.  The event is
    marked as pushed exactly for a status in that range, and a failure to
    mark it changes neither result.  A sender without mime type posts
    application/json. *)
Theorem HTTPPost_answered sender ctx p rest data response body w w1 :
  CoerceType p = inl data ->
  httpPost (transforms_http.URL sender) (effectiveMimeType sender) data w
    = (inl response, w1) ->
  transforms_http.Body response = inl body ->
  let run := HTTPPost sender ctx (p :: rest) w in
  let success :=
    bool_decide (200 <= transforms_http.StatusCode response < 300) in
  run.1.1 = (success, VBytes body)
  /\ run.2 = (if success then (MarkAsPushed ctx w1).2 else w1)
  /\ forallb is_log run.1.2 = true.
Proof.
  intros Hc Hp Hb run success. unfold run.
  assert (bool_decide (200 <= transforms_http.StatusCode response)
          && bool_decide (transforms_http.StatusCode response < 300)
          = success) as Hs.
  { unfold success. repeat case_bool_decide; simpl; try done; lia. }
  post_start Hc Hp; rewrite Hb; cbn [fst snd]; rewrite Hs;
    destruct success; cbn [fst snd];
    try (destruct (MarkAsPushed ctx w1) as [[e|] w2]); by repeat split.
Qed.

End HTTPSenderProperties.

(** ** The parameters of the configurable pipeline *)

Section ConfigurableProperties.

Variable TrimSpace : string -> string.
Variable parseBoolError : string -> string.

Lemma length_zero (s : string) :
  bool_decide (String.length s = 0%nat) = bool_decide (s = "").
Proof. apply bool_decide_ext. by destruct s. Qed.

Lemma secret_triple_check {A : Type} (h p n : string) (bad1 bad2 bad3 ok : A) :
  let checked :=
    if bool_decide (h = "") && negb (bool_decide (p = ""))
       && negb (bool_decide (n = ""))
    then bad1
    else if bool_decide (p = "") && negb (bool_decide (h = ""))
            && negb (bool_decide (n = ""))
    then bad2
    else if bool_decide (n = "") && negb (bool_decide (p = ""))
            && negb (bool_decide (h = ""))
    then bad3
    else ok in
  (exactlyTwoSet h p n -> checked = bad1 \/ checked = bad2 \/ checked = bad3)
  /\ (~ exactlyTwoSet h p n -> checked = ok).
Proof.
  unfold exactlyTwoSet. cbn zeta.
  repeat case_bool_decide; cbn; split; intros; try tauto; exfalso; tauto.
Qed.

(** X20.  [processPostPutParameters] succeeds exactly when [url] and
    [mimetype] are present, [persistonerror] is absent or one of the
    spellings [strconv.ParseBool] accepts, and it is not the case that
    exactly two of header name, secret path and secret name are set after
    trimming.  On success the five strings are the trimmed parameters, a
    missing one being empty, and [persistOnError] is the parsed value or
    false; on failure all six values are zero values. *)
Theorem processPostPutParameters_result (parameters : gmap string string) :
  let result := configurable.processPostPutParameters TrimSpace parseBoolError
                  parameters in
  let header := TrimSpace (configurable.valueOf parameters
                             configurable.HeaderName) in
  let path := TrimSpace (configurable.valueOf parameters
                           configurable.SecretPath) in
  let name := TrimSpace (configurable.valueOf parameters
                           configurable.SecretName) in
  (result.2 = None <->
     is_Some (parameters !! configurable.Url)
     /\ is_Some (parameters !! configurable.MimeType)
     /\ (forall value, parameters !! configurable.PersistOnError = Some value ->
                       is_Some (configurable.ParseBool value))
     /\ ~ exactlyTwoSet header path name)
  /\ (result.2 = None ->
      result.1
      = configurable.mkPostPut
          (TrimSpace (configurable.valueOf parameters configurable.Url))
          (TrimSpace (configurable.valueOf parameters configurable.MimeType))
          (default false (parameters !! configurable.PersistOnError
                            ≫= configurable.ParseBool))
          header path name)
  /\ (result.2 <> None -> result.1 = configurable.noPostPut).
Proof.
  intros result header path name. unfold result.
  unfold configurable.processPostPutParameters.
  fold header path name. rewrite !length_zero.
  unfold configurable.valueOf.
  destruct (parameters !! configurable.Url) as [url|];
    [|cbn; split; [split; [done|intros ([? [=]] & _)]|by split]].
  destruct (parameters !! configurable.MimeType) as [mime|];
    [|cbn; split; [split; [done|intros (_ & [? [=]] & _)]|by split]].
  assert (forall b : bool,
            (forall value,
               parameters !! configurable.PersistOnError = Some value ->
               is_Some (configurable.ParseBool value)) ->
            default false (parameters !! configurable.PersistOnError
                             ≫= configurable.ParseBool) = b ->
            forall bad1 bad2 bad3 : configurable.PostPut * option error,
              bad1.1 = configurable.noPostPut /\ is_Some bad1.2 ->
              bad2.1 = configurable.noPostPut /\ is_Some bad2.2 ->
              bad3.1 = configurable.noPostPut /\ is_Some bad3.2 ->
              forall checked,
                (exactlyTwoSet header path name ->
                 checked = bad1 \/ checked = bad2 \/ checked = bad3) ->
                (~ exactlyTwoSet header path name ->
                 checked = (configurable.mkPostPut (TrimSpace url)
                              (TrimSpace mime) b header path name, None)) ->
                (checked.2 = None <->
                 is_Some (Some url) /\ is_Some (Some mime)
                 /\ (forall value,
                       parameters !! configurable.PersistOnError = Some value ->
                       is_Some (configurable.ParseBool value))
                 /\ ~ exactlyTwoSet header path name)
                /\ (checked.2 = None ->
                    checked.1
                    = configurable.mkPostPut (TrimSpace (default "" (Some url)))
                        (TrimSpace (default "" (Some mime)))
                        (default false
                           (parameters !! configurable.PersistOnError
                              ≫= configurable.ParseBool))
                        header path name)
                /\ (checked.2 <> None -> checked.1 = configurable.noPostPut))
    as Hcases.
  { intros b Hparse Hb bad1 bad2 bad3 [H11 [e1 H12]] [H21 [e2 H22]]
      [H31 [e3 H32]] checked Hbad Hok.
    destruct (decide (exactlyTwoSet header path name)) as [Hy|Hn].
    - assert (checked.1 = configurable.noPostPut /\ is_Some checked.2)
        as [Hc1 [e Hc2]]
        by (destruct (Hbad Hy) as [->|[->| ->]]; eauto).
      rewrite Hc2. split; [split; [done|tauto]|by split].
    - rewrite (Hok Hn). cbn [fst snd]. rewrite Hb.
      split; [split; [by eauto|done]|by split]. }
  destruct (parameters !! configurable.PersistOnError) as [value|] eqn:Hp.
  - destruct (configurable.ParseBool value) as [b|] eqn:Hb.
    + eapply (Hcases b); [by intros ? [= <-]; rewrite Hb|by cbn; rewrite Hb| | | |
                          apply secret_triple_check|apply secret_triple_check];
        by eauto.
    + cbn. split; [split; [done|]|by split].
      intros (_ & _ & Hv & _). destruct (Hv value eq_refl) as [? Hs].
      by rewrite Hb in Hs.
  - eapply (Hcases false); [by intros ? [=]|done| | | |
                            apply secret_triple_check|apply secret_triple_check];
      by eauto.
Qed.

End ConfigurableProperties.

(** X21.  [EncryptWithAES] returns a transform exactly when an
    initialization vector is configured and either secret path and secret
    name are both set, or neither is and an encryption key is set; the
    transform then carries the four parameters as they were given.
    Otherwise it returns nil after one error log. *)
Theorem EncryptWithAES_result (parameters : gmap string string) :
  let result := configurable.EncryptWithAES parameters in
  let key := configurable.valueOf parameters configurable.EncryptionKey in
  let path := configurable.valueOf parameters configurable.SecretPath in
  let name := configurable.valueOf parameters configurable.SecretName in
  (is_Some result.1 <->
     is_Some (parameters !! configurable.InitVector)
     /\ ((path <> "" /\ name <> "")
         \/ (path = "" /\ name = "" /\ key <> "")))
  /\ (forall transform, result.1 = Some transform ->
        result.2 = []
        /\ transform
           = configurable.mkEncryption key
               (configurable.valueOf parameters configurable.InitVector)
               path name)
  /\ (result.1 = None ->
      exists l, result.2 = [l] /\ is_log l = true).
Proof.
  intros result key path name. unfold result, configurable.EncryptWithAES.
  fold key path name. rewrite !length_zero. unfold configurable.valueOf.
  destruct (parameters !! configurable.InitVector) as [iv|];
    destruct (decide (key = "")) as [Hk|Hk],
             (decide (path = "")) as [Hp|Hp],
             (decide (name = "")) as [Hn|Hn];
    rewrite ?(bool_decide_eq_true_2 _ Hk), ?(bool_decide_eq_false_2 _ Hk),
            ?(bool_decide_eq_true_2 _ Hp), ?(bool_decide_eq_false_2 _ Hp),
            ?(bool_decide_eq_true_2 _ Hn), ?(bool_decide_eq_false_2 _ Hn);
    cbn [andb orb negb fst snd default];
    (split; [split|split]);
    first
      [ by intros [? [=]]
      | by intros ? [=]
      | by intros [=]
      | by (intros ? [= <-]; split)
      | by (intros _; eexists; split)
      | by (intros _; split; [eauto|tauto])
      | by (intros _; eauto)
      | by (intros (_ & Hc); exfalso; tauto)
      | by (intros ([? [=]] & _)) ].
Qed.

(** ** The credentials of the secure message bus *)

Section AuthProperties.

Context {Provider : Type}.

Variable ToLower TrimSpace : string -> string.
Variable AuthModeKey SecretNameKey : string.
Variable AuthModeNone AuthModeUsernamePassword AuthModeCert AuthModeCA : string.
Variable OptionsUsernameKey OptionsPasswordKey : string.
Variable OptionsCertPEMBlockKey OptionsKeyPEMBlockKey OptionsCaPEMBlockKey
  : string.
Variable GetSecretData :
  string -> string -> Provider -> messagebus_auth.SecretData + error.
Variable ValidateSecretData :
  string -> string -> messagebus_auth.SecretData -> option error.

Abbreviation setOptionalAuthData :=
  (messagebus_auth.setOptionalAuthData ToLower TrimSpace AuthModeKey
     SecretNameKey AuthModeNone AuthModeUsernamePassword AuthModeCert
     AuthModeCA OptionsUsernameKey OptionsPasswordKey OptionsCertPEMBlockKey
     OptionsKeyPEMBlockKey OptionsCaPEMBlockKey GetSecretData
     ValidateSecretData).

Abbreviation authModeOf messageBusConfig :=
  (ToLower (TrimSpace (messagebus_auth.optionOf
                         (messagebus_auth.Optional messageBusConfig)
                         AuthModeKey))).

Abbreviation optionsOf messageBusConfig :=
  (default (∅ : gmap string string)
     (messagebus_auth.Optional messageBusConfig)).

Lemma authentication_wanted messageBusConfig :
  authModeOf messageBusConfig <> "" ->
  authModeOf messageBusConfig <> AuthModeNone ->
  bool_decide (String.length (authModeOf messageBusConfig) = 0%nat)
  || bool_decide (authModeOf messageBusConfig = AuthModeNone) = false.
Proof.
  intros He Hn. rewrite length_zero.
  by rewrite (bool_decide_eq_false_2 _ He), (bool_decide_eq_false_2 _ Hn).
Qed.

(** X22.  [setOptionalAuthData] touches nothing but the credentials: when
    it returns an error the client configuration is as it was; in every
    case the hosts and the type are kept, and so is every option under a
    key that is not one of the five credential keys.  With no auth mode,
    or the mode none, it returns nil without a log call and without
    needing a secret provider. *)
Theorem setOptionalAuthData_frame messageBusConfig secretProvider :
  let run := setOptionalAuthData messageBusConfig secretProvider in
  (is_Some run.1.1 -> run.1.2 = messageBusConfig)
  /\ messagebus_auth.PublishHost run.1.2
     = messagebus_auth.PublishHost messageBusConfig
  /\ messagebus_auth.SubscribeHost run.1.2
     = messagebus_auth.SubscribeHost messageBusConfig
  /\ messagebus_auth.Type_ run.1.2 = messagebus_auth.Type_ messageBusConfig
  /\ (forall key,
        key ∉ [OptionsUsernameKey; OptionsPasswordKey; OptionsCertPEMBlockKey;
               OptionsKeyPEMBlockKey; OptionsCaPEMBlockKey] ->
        optionsOf run.1.2 !! key = optionsOf messageBusConfig !! key)
  /\ (authModeOf messageBusConfig = ""
      \/ authModeOf messageBusConfig = AuthModeNone ->
      run = (None, messageBusConfig, []))
  /\ forallb is_log run.2 = true.
Proof.
  cbn zeta. unfold messagebus_auth.setOptionalAuthData.
  rewrite length_zero.
  destruct (decide (authModeOf messageBusConfig = "")) as [He|He];
    [rewrite (bool_decide_eq_true_2 _ He); cbn [orb fst snd];
     by repeat split|].
  rewrite (bool_decide_eq_false_2 _ He). cbn [orb].
  destruct (decide (authModeOf messageBusConfig = AuthModeNone)) as [Hn|Hn];
    [rewrite (bool_decide_eq_true_2 _ Hn); cbn [fst snd]; by repeat split|].
  rewrite (bool_decide_eq_false_2 _ Hn).
  assert (forall l : list Event,
            authModeOf messageBusConfig = ""
            \/ authModeOf messageBusConfig = AuthModeNone ->
            (None : option error, messageBusConfig, l)
            = (None, messageBusConfig, [])) as Hoff
    by (intros l [?|?]; done).
  destruct secretProvider as [provider|];
    [|cbn [fst snd]; repeat split; try done; by intros [?|?]].
  destruct (GetSecretData _ _ provider) as [secretData|err];
    [|cbn [fst snd]; repeat split; try done; by intros [?|?]].
  destruct (ValidateSecretData _ _ secretData) as [err|];
    [cbn [fst snd]; repeat split; try done; by intros [?|?]|].
  cbn [fst snd messagebus_auth.setOptional messagebus_auth.PublishHost
       messagebus_auth.SubscribeHost messagebus_auth.Type_
       messagebus_auth.Optional default].
  split; [by intros [? [=]]|]. do 3 (split; [done|]).
  split; [|split; [by intros [?|?]|done]].
  intros key Hkey.
  rewrite !not_elem_of_cons in Hkey.
  destruct Hkey as (Hu & Hp & Hc & Hk & Hca & _).
  assert (match messagebus_auth.Optional messageBusConfig with
          | Some m => m
          | None => ∅
          end = optionsOf messageBusConfig) as ->
    by (by destruct (messagebus_auth.Optional messageBusConfig)).
  unfold id.
  repeat case_bool_decide; rewrite ?lookup_insert_ne by congruence; done.
Qed.

(** X23.  When an auth mode is set, the secret is found and it is valid,
    [setOptionalAuthData] returns nil after one log call and the options
    hold the credentials of the mode: user name and password, or
    certificate and key, or the CA certificate, each read back under its
    key as the secret has it.  An error of the lookup or of the validation
    is returned wrapped, and a missing provider is an error too. *)
Theorem setOptionalAuthData_credentials messageBusConfig secretProvider :
  authModeOf messageBusConfig <> "" ->
  authModeOf messageBusConfig <> AuthModeNone ->
  let secretName :=
    messagebus_auth.optionOf (messagebus_auth.Optional messageBusConfig)
      SecretNameKey in
  let run := setOptionalAuthData messageBusConfig secretProvider in
  (secretProvider = None -> is_Some run.1.1)
  /\ (forall provider err,
        secretProvider = Some provider ->
        GetSecretData (authModeOf messageBusConfig) secretName provider
          = inr err ->
        run.1.1
        = Some ("Unable to get Secret Data for secure message bus: " +:+ err))
  /\ (forall provider secretData err,
        secretProvider = Some provider ->
        GetSecretData (authModeOf messageBusConfig) secretName provider
          = inl secretData ->
        ValidateSecretData (authModeOf messageBusConfig) secretName secretData
          = Some err ->
        run.1.1
        = Some ("Secret Data for secure message bus invalid: " +:+ err))
  /\ (forall provider secretData,
        secretProvider = Some provider ->
        GetSecretData (authModeOf messageBusConfig) secretName provider
          = inl secretData ->
        ValidateSecretData (authModeOf messageBusConfig) secretName secretData
          = None ->
        run.1.1 = None
        /\ is_Some (messagebus_auth.Optional run.1.2)
        /\ (exists l, run.2 = [l] /\ is_log l = true)
        /\ (authModeOf messageBusConfig = AuthModeUsernamePassword ->
            optionsOf run.1.2 !! OptionsPasswordKey
              = Some (messagebus_auth.Password secretData)
            /\ (OptionsUsernameKey <> OptionsPasswordKey ->
                optionsOf run.1.2 !! OptionsUsernameKey
                  = Some (messagebus_auth.Username secretData)))
        /\ (authModeOf messageBusConfig <> AuthModeUsernamePassword ->
            authModeOf messageBusConfig = AuthModeCert ->
            optionsOf run.1.2 !! OptionsKeyPEMBlockKey
              = Some (string_of_list_byte
                        (messagebus_auth.KeyPemBlock secretData))
            /\ (OptionsCertPEMBlockKey <> OptionsKeyPEMBlockKey ->
                optionsOf run.1.2 !! OptionsCertPEMBlockKey
                  = Some (string_of_list_byte
                            (messagebus_auth.CertPemBlock secretData))))
        /\ (authModeOf messageBusConfig <> AuthModeUsernamePassword ->
            authModeOf messageBusConfig <> AuthModeCert ->
            authModeOf messageBusConfig = AuthModeCA ->
            optionsOf run.1.2 !! OptionsCaPEMBlockKey
              = Some (string_of_list_byte
                        (messagebus_auth.CaPemBlock secretData)))).
Proof.
  intros He Hn secretName run. unfold run, messagebus_auth.setOptionalAuthData.
  rewrite (authentication_wanted _ He Hn). fold secretName.
  split; [intros ->; by eexists|].
  split; [intros provider err -> Hg; by rewrite Hg|].
  split; [intros provider secretData err -> Hg Hv; by rewrite Hg, Hv|].
  intros provider secretData -> Hg Hv. rewrite Hg, Hv.
  cbn [fst snd messagebus_auth.setOptional messagebus_auth.Optional default].
  unfold id.
  split; [done|]. split; [by eexists|]. split; [by eexists|].
  split; [|split].
  - intros Hm. rewrite (bool_decide_eq_true_2 _ Hm).
    split; [apply lookup_insert_eq|].
    intros Hne. rewrite lookup_insert_ne by done. apply lookup_insert_eq.
  - intros Hm1 Hm2.
    rewrite (bool_decide_eq_false_2 _ Hm1), (bool_decide_eq_true_2 _ Hm2).
    split; [apply lookup_insert_eq|].
    intros Hne. rewrite lookup_insert_ne by done. apply lookup_insert_eq.
  - intros Hm1 Hm2 Hm3.
    rewrite (bool_decide_eq_false_2 _ Hm1), (bool_decide_eq_false_2 _ Hm2),
            (bool_decide_eq_true_2 _ Hm3).
    apply lookup_insert_eq.
Qed.

End AuthProperties.

(** * Instances of the further properties *)

Lemma calculatePipelineHash_same_iff_same_names_witness :
  let names (sf : runtime.storeForwardInfo fixtures.World) :=
    runtime.funcName <$> runtime.transforms (runtime.runtime sf) in
  Forall (fun n => noSpace n = true) (names fixtures.exportEngine)
  /\ Forall (fun n => noSpace n = true) (names fixtures.threeStageEngine)
  /\ runtime.calculatePipelineHash fixtures.exportEngine
     <> runtime.calculatePipelineHash fixtures.threeStageEngine.
Proof.
  cbn zeta.
  assert (Forall (fun n => noSpace n = true)
            (runtime.funcName <$>
               runtime.transforms (runtime.runtime fixtures.exportEngine)))
    as H1 by (repeat constructor).
  assert (Forall (fun n => noSpace n = true)
            (runtime.funcName <$>
               runtime.transforms (runtime.runtime fixtures.threeStageEngine)))
    as H2 by (repeat constructor).
  split; [exact H1|]. split; [exact H2|].
  intros Heq.
  apply (calculatePipelineHash_same_iff_same_names fixtures.exportEngine
           fixtures.threeStageEngine H1 H2) in Heq.
  vm_compute in Heq. discriminate.
Defined.

Lemma processRetryItems_unbounded_witness :
  let config := fixtures.config true 0 in
  let stale := fixtures.storedItem "id-8" 2 "Pipeline-functions:  main.old" in
  let item := fixtures.storedItem "id-7" 5 fixtures.exportHash in
  let result := runtime.processRetryItems fixtures.executePipeline
                  fixtures.exportEngine ([stale] ++ item :: []) config
                  fixtures.offline in
  maxRetryCountOf config = 0
  /\ contracts.Version item
     = runtime.calculatePipelineHash fixtures.exportEngine
  /\ (runtime.retryExportFunction fixtures.executePipeline
        fixtures.exportEngine item config
        (runtime.processRetryItems fixtures.executePipeline
           fixtures.exportEngine [stale] config fixtures.offline).2).1.1
     = false
  /\ removeSet result = [stale]
  /\ updateSet result = [afterFailedRetry item].
Proof.
  cbn zeta. split; [reflexivity|]. split; [reflexivity|].
  split; [reflexivity|].
  destruct (proj2 (processRetryItems_unbounded fixtures.executePipeline
                     fixtures.exportEngine (fixtures.config true 0)
                     [fixtures.storedItem "id-8" 2
                        "Pipeline-functions:  main.old"]
                     (fixtures.storedItem "id-7" 5 fixtures.exportHash) []
                     fixtures.offline eq_refl) eq_refl eq_refl) as [Hr Hu].
  split; [rewrite Hr|rewrite Hu]; reflexivity.
Defined.

Lemma retryStoredData_nothing_to_do_witness :
  let w := [fixtures.storedItem "id-7" 0 ""] in
  RetrieveFromStore "svc" w = ((w, Some "connection lost"), w)
  /\ exists l,
       is_log l = true
       /\ runtime.retryStoredData more_fixtures.failingPipeline
            more_fixtures.brokenEngine "svc" (fixtures.config true 3) w
          = (tt, [EvRetrieveFromStore "svc"; l], w).
Proof.
  cbn zeta. split; [reflexivity|].
  exact (retryStoredData_nothing_to_do more_fixtures.failingPipeline
           more_fixtures.brokenEngine "svc" (fixtures.config true 3)
           [fixtures.storedItem "id-7" 0 ""] _ _ _ eq_refl
           (or_introl (ex_intro _ "connection lost" eq_refl))).
Defined.

Lemma retryStoredData_writes_witness :
  let item := fixtures.storedItem "id-7" 0 fixtures.exportHash in
  RetrieveFromStore fixtures.serviceKey more_fixtures.oneRow
    = (([item], None), more_fixtures.oneRow)
  /\ exists before after,
       (runtime.retryStoredData fixtures.executePipeline fixtures.exportEngine
          fixtures.serviceKey (fixtures.config true 3)
          more_fixtures.oneRow).1.2 = before ++ after
       /\ length (List.filter isPortWrite after) = 1%nat.
Proof.
  cbn zeta.
  assert (RetrieveFromStore fixtures.serviceKey more_fixtures.oneRow
          = (([fixtures.storedItem "id-7" 0 fixtures.exportHash], None),
             more_fixtures.oneRow)) as Hr by reflexivity.
  split; [exact Hr|].
  destruct (retryStoredData_writes fixtures.executePipeline
              fixtures.exportEngine fixtures.serviceKey
              (fixtures.config true 3) more_fixtures.oneRow _ _ _ Hr)
    as (l1 & after & _ & Htrace & _ & Hlen & _).
  exists (EvRetrieveFromStore fixtures.serviceKey :: l1
          :: (runtime.processRetryItems fixtures.executePipeline
                fixtures.exportEngine
                [fixtures.storedItem "id-7" 0 fixtures.exportHash]
                (fixtures.config true 3) more_fixtures.oneRow).1.2), after.
  split; [exact Htrace|exact Hlen].
Defined.

Lemma retryLoop_stops_at_cancellation_witness :
  runtime.AppCtxDone <> runtime.TimerFired
  /\ runtime.retryLoop fixtures.executePipeline fixtures.exportEngine
       ([runtime.TimerFired] ++ runtime.AppCtxDone :: [runtime.TimerFired])
       fixtures.serviceKey (fixtures.config true 3) more_fixtures.oneRow
     = runtime.retryLoop fixtures.executePipeline fixtures.exportEngine
         ([runtime.TimerFired] ++ [runtime.AppCtxDone])
         fixtures.serviceKey (fixtures.config true 3) more_fixtures.oneRow.
Proof.
  assert (runtime.AppCtxDone <> runtime.TimerFired) as Hc by discriminate.
  split; [exact Hc|].
  exact (proj1 (retryLoop_stops_at_cancellation fixtures.executePipeline
                  fixtures.exportEngine [runtime.TimerFired]
                  runtime.AppCtxDone [runtime.TimerFired]
                  fixtures.serviceKey (fixtures.config true 3)
                  more_fixtures.oneRow Hc)).
Defined.

Lemma startStoreAndForwardRetryLoop_configuration_witness :
  let run config :=
    runtime.startStoreAndForwardRetryLoop fixtures.executePipeline
      fixtures.exportEngine [runtime.TimerFired; runtime.EnabledCtxDone]
      fixtures.serviceKey config more_fixtures.oneRow in
  0 <= maxRetryCountOf (fixtures.config true 3)
  /\ (run (fixtures.config true 3)).1.1 = fixtures.config true 3
  /\ (run (fixtures.config true (-3))).1.1 = fixtures.config true 1.
Proof.
  cbn zeta.
  assert (0 <= maxRetryCountOf (fixtures.config true 3)) as Hpos
    by (vm_compute; discriminate).
  split; [exact Hpos|].
  destruct (startStoreAndForwardRetryLoop_configuration
              fixtures.executePipeline fixtures.exportEngine
              [runtime.TimerFired; runtime.EnabledCtxDone]
              fixtures.serviceKey (fixtures.config true 3)
              more_fixtures.oneRow)
    as (Hcfg & _ & _ & _ & _ & _ & _ & _ & _ & Hsame).
  split; [rewrite Hcfg; exact (Hsame Hpos)|].
  exact (proj1 (startStoreAndForwardRetryLoop_configuration
                  fixtures.executePipeline fixtures.exportEngine
                  [runtime.TimerFired; runtime.EnabledCtxDone]
                  fixtures.serviceKey (fixtures.config true (-3))
                  more_fixtures.oneRow)).
Defined.

Lemma setupTrigger_after_register_witness :
  ~ builtinTriggerType (fixtures.ToUpper "MY-trigger")
  /\ fixtures.ToUpper (common.Type_ (common.Trigger more_fixtures.customConfig))
     = fixtures.ToUpper "MY-trigger"
  /\ appsdk.setupTrigger fixtures.ToUpper (fixtures.respondWith None "")
       (appsdk.RegisterCustomTriggerFactory fixtures.ToUpper more_fixtures.sdk
          "MY-trigger" more_fixtures.customFactory).2
       more_fixtures.customConfig fixtures.online
     = (Some (appsdk.CustomTrigger 7%nat), [], fixtures.online).
Proof.
  assert (~ builtinTriggerType (fixtures.ToUpper "MY-trigger")) as Hn
    by (intros [H|[H|H]]; vm_compute in H; discriminate).
  split; [exact Hn|]. split; [reflexivity|].
  exact (setupTrigger_after_register fixtures.ToUpper
           (fixtures.respondWith None "") more_fixtures.sdk "MY-trigger"
           more_fixtures.customFactory more_fixtures.customConfig
           fixtures.online Hn eq_refl).
Defined.

Lemma RegisterCustomTriggerFactory_replaces_witness :
  fixtures.ToUpper "my-trigger" = fixtures.ToUpper "My-Trigger"
  /\ ~ builtinTriggerType (fixtures.ToUpper "My-Trigger")
  /\ appsdk.RegisterCustomTriggerFactory fixtures.ToUpper
       (appsdk.RegisterCustomTriggerFactory fixtures.ToUpper more_fixtures.sdk
          "my-trigger" more_fixtures.otherFactory).2
       "My-Trigger" more_fixtures.customFactory
     = appsdk.RegisterCustomTriggerFactory fixtures.ToUpper more_fixtures.sdk
         "My-Trigger" more_fixtures.customFactory.
Proof.
  assert (~ builtinTriggerType (fixtures.ToUpper "My-Trigger")) as Hn
    by (intros [H|[H|H]]; vm_compute in H; discriminate).
  split; [reflexivity|]. split; [exact Hn|].
  exact (RegisterCustomTriggerFactory_replaces fixtures.ToUpper
           more_fixtures.sdk "my-trigger" "My-Trigger"
           more_fixtures.otherFactory more_fixtures.customFactory eq_refl Hn).
Defined.

Lemma RegisterCustomTriggerFactory_keeps_keys_witness :
  let first :=
    (appsdk.RegisterCustomTriggerFactory fixtures.ToUpper more_fixtures.sdk
       "my-trigger" more_fixtures.customFactory).2 in
  let second :=
    (appsdk.RegisterCustomTriggerFactory fixtures.ToUpper first
       "second" more_fixtures.otherFactory).2 in
  is_Some (registryOf first !! "MY-TRIGGER")
  /\ (forall key, is_Some (registryOf first !! key) ->
        ~ builtinTriggerType key /\ exists n, key = fixtures.ToUpper n)
  /\ is_Some (registryOf second !! "MY-TRIGGER")
  /\ is_Some (registryOf second !! "SECOND")
  /\ forall key, is_Some (registryOf second !! key) ->
       ~ builtinTriggerType key /\ exists n, key = fixtures.ToUpper n.
Proof.
  cbn zeta.
  assert (~ builtinTriggerType (fixtures.ToUpper "my-trigger")) as Hn1
    by (intros [H|[H|H]]; vm_compute in H; discriminate).
  assert (~ builtinTriggerType (fixtures.ToUpper "second")) as Hn2
    by (intros [H|[H|H]]; vm_compute in H; discriminate).
  destruct (register_outcome fixtures.ToUpper more_fixtures.sdk "my-trigger"
              more_fixtures.customFactory Hn1) as [Hreg1 _].
  destruct (register_outcome fixtures.ToUpper
              (appsdk.RegisterCustomTriggerFactory fixtures.ToUpper
                 more_fixtures.sdk "my-trigger" more_fixtures.customFactory).2
              "second" more_fixtures.otherFactory Hn2) as [Hreg2 _].
  assert (forall key,
            is_Some (registryOf
                       (appsdk.RegisterCustomTriggerFactory fixtures.ToUpper
                          more_fixtures.sdk "my-trigger"
                          more_fixtures.customFactory).2 !! key) ->
            ~ builtinTriggerType key /\ exists n, key = fixtures.ToUpper n)
    as Hinv.
  { intros key. rewrite Hreg1.
    destruct (decide (key = fixtures.ToUpper "my-trigger")) as [->|Hne].
    - intros _. split; [exact Hn1|by eexists].
    - rewrite lookup_insert_ne by done. unfold registryOf. cbn.
      rewrite lookup_empty. by intros [? [=]]. }
  split; [rewrite Hreg1; by rewrite lookup_insert_eq|].
  split; [exact Hinv|].
  split.
  { rewrite Hreg2, lookup_insert_ne by (vm_compute; discriminate).
    rewrite Hreg1. by rewrite lookup_insert_eq. }
  split; [rewrite Hreg2; by rewrite lookup_insert_eq|].
  exact (RegisterCustomTriggerFactory_keeps_keys fixtures.ToUpper
           (appsdk.RegisterCustomTriggerFactory fixtures.ToUpper
              more_fixtures.sdk "my-trigger" more_fixtures.customFactory).2
           "second" more_fixtures.otherFactory Hinv).
Defined.

Lemma setupTrigger_builtin_or_unknown_witness :
  builtinTriggerType
    (fixtures.ToUpper (common.Type_ (common.Trigger (fixtures.config true 3))))
  /\ (appsdk.setupTrigger fixtures.ToUpper (fixtures.respondWith None "")
        more_fixtures.sdk (fixtures.config true 3) fixtures.online).1.1
     = Some appsdk.MessageBusTrigger
  /\ ~ builtinTriggerType
         (fixtures.ToUpper
            (common.Type_ (common.Trigger more_fixtures.customConfig)))
  /\ appsdk.setupTrigger fixtures.ToUpper (fixtures.respondWith None "")
       more_fixtures.sdk more_fixtures.customConfig fixtures.online
     = (None,
        [EvLog ERROR "Invalid Trigger type of '%s' specified"
           [LStr "my-Trigger"]], fixtures.online).
Proof.
  assert (builtinTriggerType
            (fixtures.ToUpper
               (common.Type_ (common.Trigger (fixtures.config true 3)))))
    as Hb by (right; left; reflexivity).
  assert (~ builtinTriggerType
              (fixtures.ToUpper
                 (common.Type_ (common.Trigger more_fixtures.customConfig))))
    as Hn by (intros [H|[H|H]]; vm_compute in H; discriminate).
  split; [exact Hb|]. split.
  - exact (proj1 (proj2 (proj2
             (proj1 (setupTrigger_builtin_or_unknown fixtures.ToUpper
                       (fixtures.respondWith None "") more_fixtures.sdk
                       (fixtures.config true 3) fixtures.online) Hb)))
             eq_refl).
  - split; [exact Hn|].
    exact (proj2 (setupTrigger_builtin_or_unknown fixtures.ToUpper
                    (fixtures.respondWith None "") more_fixtures.sdk
                    more_fixtures.customConfig fixtures.online) Hn eq_refl).
Defined.

Lemma processMessage_nothing_to_publish_witness :
  let trigger := messagebus_v1.mkTrigger (fixtures.config true 3) in
  appcontext.OutputData
    (fixtures.respondWith None "" (contextV1 trigger fixtures.envelope)
       fixtures.envelope fixtures.online).1.1.2 = None
  /\ exists l1 l2,
       messagebus_v1.processMessage fixtures.publishOk
         (fixtures.respondWith None "") trigger "events" fixtures.envelope
         fixtures.online
       = (Returns, [l1; l2], fixtures.online).
Proof.
  cbn zeta. split; [reflexivity|].
  destruct (proj1 (processMessage_nothing_to_publish fixtures.publishOk
                     (fixtures.respondWith None ""))
              (messagebus_v1.mkTrigger (fixtures.config true 3)) "events"
              fixtures.envelope fixtures.online _ _ _ _ eq_refl
              (or_intror eq_refl)) as (l1 & l2 & _ & _ & H).
  exists l1, l2. exact H.
Defined.

Lemma processMessage_publishes_response_witness :
  let run := messagebus.processMessage fixtures.publishOk
               (fixtures.respondWith (Some [x7b; x7d]) "")
               (messagebus.mkTrigger (fixtures.config true 3)) "events"
               fixtures.envelope fixtures.online in
  ([x7b; x7d] : list Byte.byte) <> []
  /\ run.1.1 = Returns
  /\ exists l1 l2 tail,
       run.1.2
       = l1 :: l2
         :: EvPublish (types.mkMessageEnvelope "123-234-345-456"
                         (Some [x7b; x7d]) "application/json") "responses"
         :: tail.
Proof.
  cbn zeta.
  assert (([x7b; x7d] : list Byte.byte) <> []) as Hne by discriminate.
  split; [exact Hne|].
  destruct (proj2 (processMessage_publishes_response fixtures.publishOk
                     (fixtures.respondWith (Some [x7b; x7d]) ""))
              (messagebus.mkTrigger (fixtures.config true 3)) "events"
              fixtures.envelope fixtures.online _ _ _ _ eq_refl eq_refl
              (or_intror Hne)) as (H1 & _ & l1 & l2 & tail & _ & _ & _ & H3).
  split; [exact H1|]. exists l1, l2, tail. exact H3.
Defined.

Lemma FilterByValueDescriptor_keeps_named_readings_witness :
  let f := transforms_v0.mkFilter ["humidity"; "pressure"] in
  (exists r, r ∈ transforms_v0.Readings more_fixtures.threeReadings
             /\ transforms_v0.Name r ∈ transforms_v0.FilterValues f)
  /\ groupedByFilter (transforms_v0.FilterValues f)
       (transforms_v0.Readings more_fixtures.threeReadings) <> [].
Proof.
  cbn zeta.
  assert (exists r, r ∈ transforms_v0.Readings more_fixtures.threeReadings
                    /\ transforms_v0.Name r
                       ∈ transforms_v0.FilterValues
                           (transforms_v0.mkFilter ["humidity"; "pressure"]))
    as Hex.
  { exists (transforms_v0.mkReading "humidity" "40").
    split; [right; left|left]. }
  split; [exact Hex|].
  exact (proj2 (proj2 (proj2
           (FilterByValueDescriptor_keeps_named_readings
              (transforms_v0.mkFilter ["humidity"; "pressure"])
              more_fixtures.threeReadings))) Hex).
Defined.

Lemma FilterByValueDescriptor_no_duplicates_witness :
  let f := transforms_v0.mkFilter ["humidity"; "temperature"] in
  NoDup (transforms_v0.FilterValues f)
  /\ exists continuePipeline auxEvent,
       transforms_v0.FilterByValueDescriptor f
         [transforms_v0.PEvent more_fixtures.threeReadings]
       = (["FILTER BY VALUE DESCRIPTOR ID"],
          transforms_v0.Results continuePipeline
            (transforms_v0.PEvent auxEvent))
       /\ length (transforms_v0.Readings auxEvent) = 3%nat.
Proof.
  cbn zeta.
  assert (NoDup (transforms_v0.FilterValues
                   (transforms_v0.mkFilter ["humidity"; "temperature"])))
    as Hnd.
  { apply (bool_decide_unpack _). vm_compute. exact I. }
  split; [exact Hnd|].
  destruct (FilterByValueDescriptor_no_duplicates
              (transforms_v0.mkFilter ["humidity"; "temperature"])
              more_fixtures.threeReadings Hnd)
    as (continuePipeline & auxEvent & Hrun & _ & Hlen & _).
  exists continuePipeline, auxEvent.
  split; [exact Hrun|]. rewrite Hlen. vm_compute. reflexivity.
Defined.

Lemma HTTPPost_failures_witness :
  let sender := transforms_http.NewHTTPSender "http://url" "" in
  more_fixtures.coerceBytes (VString "Hello")
    = inr "marshaling input data to JSON failed"
  /\ transforms_http.HTTPPost more_fixtures.coerceBytes more_fixtures.postEcho
       more_fixtures.markPushed sender (fixtures.context true)
       [VString "Hello"] (200, 0%nat)
     = ((false, VError "marshaling input data to JSON failed"), [],
        (200, 0%nat)).
Proof.
  cbn zeta. split; [reflexivity|].
  exact (proj1 (proj2 (HTTPPost_failures more_fixtures.coerceBytes
                         more_fixtures.postEcho more_fixtures.markPushed
                         (transforms_http.NewHTTPSender "http://url" "")
                         (fixtures.context true) [VString "Hello"]
                         (200, 0%nat)))
           (VString "Hello") [] _ eq_refl eq_refl).
Defined.

Lemma HTTPPost_answered_witness :
  let sender := transforms_http.NewHTTPSender "http://url" "" in
  let run status :=
    transforms_http.HTTPPost more_fixtures.coerceBytes more_fixtures.postEcho
      more_fixtures.markPushed sender (fixtures.context true)
      [VBytes fixtures.payload] (status, 0%nat) in
  more_fixtures.coerceBytes (VBytes fixtures.payload) = inl fixtures.payload
  /\ (run 204).1.1 = (true, VBytes fixtures.payload)
  /\ (run 204).2 = (204, 1%nat)
  /\ (run 404).1.1 = (false, VBytes fixtures.payload)
  /\ (run 404).2 = (404, 0%nat).
Proof.
  cbn zeta. split; [reflexivity|].
  destruct (HTTPPost_answered more_fixtures.coerceBytes more_fixtures.postEcho
              more_fixtures.markPushed
              (transforms_http.NewHTTPSender "http://url" "")
              (fixtures.context true) (VBytes fixtures.payload) []
              fixtures.payload _ _ (204, 0%nat) _ eq_refl eq_refl eq_refl)
    as (H1 & H2 & _).
  destruct (HTTPPost_answered more_fixtures.coerceBytes more_fixtures.postEcho
              more_fixtures.markPushed
              (transforms_http.NewHTTPSender "http://url" "")
              (fixtures.context true) (VBytes fixtures.payload) []
              fixtures.payload _ _ (404, 0%nat) _ eq_refl eq_refl eq_refl)
    as (H3 & H4 & _).
  split; [exact H1|]. split; [exact H2|]. split; [exact H3|exact H4].
Defined.

Lemma processPostPutParameters_result_witness :
  let result := configurable.processPostPutParameters more_fixtures.asIs
                  more_fixtures.asIs more_fixtures.postParameters in
  result.2 = None
  /\ result.1
     = configurable.mkPostPut "http://localhost:8080" "application/json" true
         "" "" "".
Proof.
  cbn zeta.
  assert ((configurable.processPostPutParameters more_fixtures.asIs
             more_fixtures.asIs more_fixtures.postParameters).2 = None) as Hok
    by (vm_compute; reflexivity).
  split; [exact Hok|].
  rewrite (proj1 (proj2 (processPostPutParameters_result more_fixtures.asIs
                           more_fixtures.asIs more_fixtures.postParameters))
             Hok).
  vm_compute. reflexivity.
Defined.

Lemma EncryptWithAES_result_witness :
  is_Some (more_fixtures.aesParameters !! configurable.InitVector)
  /\ is_Some (configurable.EncryptWithAES more_fixtures.aesParameters).1.
Proof.
  assert (is_Some (more_fixtures.aesParameters !! configurable.InitVector))
    as Hiv by (vm_compute; eauto).
  split; [exact Hiv|].
  apply (proj1 (EncryptWithAES_result more_fixtures.aesParameters)).
  split; [exact Hiv|]. right.
  split; [vm_compute; reflexivity|].
  split; [vm_compute; reflexivity|].
  intros H. vm_compute in H. discriminate.
Defined.

Lemma setOptionalAuthData_frame_witness :
  messagebus_auth.optionOf
    (messagebus_auth.Optional (more_fixtures.authConfig "none")) "authmode"
  = "none"
  /\ more_fixtures.setAuth (more_fixtures.authConfig "none") None
     = (None, more_fixtures.authConfig "none", []).
Proof.
  assert (messagebus_auth.optionOf
            (messagebus_auth.Optional (more_fixtures.authConfig "none"))
            "authmode" = "none") as Hm by (vm_compute; reflexivity).
  split; [exact Hm|].
  exact (proj1 (proj2 (proj2 (proj2 (proj2 (proj2
           (setOptionalAuthData_frame more_fixtures.asIs more_fixtures.asIs
              "authmode" "secretname" "none" "usernamepassword" "clientcert"
              "cacert" "username" "password" "certpemblock" "keypemblock"
              "capemblock" more_fixtures.getSecret
              more_fixtures.validateSecret
              (more_fixtures.authConfig "none") None))))))
           (or_intror Hm)).
Defined.

Lemma setOptionalAuthData_credentials_witness :
  let messageBusConfig := more_fixtures.authConfig "usernamepassword" in
  let run := more_fixtures.setAuth messageBusConfig (Some tt) in
  run.1.1 = None
  /\ default ∅ (messagebus_auth.Optional run.1.2) !! "password" = Some "pass"
  /\ default ∅ (messagebus_auth.Optional run.1.2) !! "username" = Some "user".
Proof.
  cbn zeta.
  assert (messagebus_auth.optionOf
            (messagebus_auth.Optional
               (more_fixtures.authConfig "usernamepassword")) "authmode"
          = "usernamepassword") as Hm by (vm_compute; reflexivity).
  assert (messagebus_auth.optionOf
            (messagebus_auth.Optional
               (more_fixtures.authConfig "usernamepassword")) "secretname"
          = "mqtt-bus") as Hs by (vm_compute; reflexivity).
  destruct (setOptionalAuthData_credentials more_fixtures.asIs
              more_fixtures.asIs "authmode" "secretname" "none"
              "usernamepassword" "clientcert" "cacert" "username" "password"
              "certpemblock" "keypemblock" "capemblock"
              more_fixtures.getSecret more_fixtures.validateSecret
              (more_fixtures.authConfig "usernamepassword") (Some tt))
    as (_ & _ & _ & Hok).
  - unfold more_fixtures.asIs. rewrite Hm. discriminate.
  - unfold more_fixtures.asIs. rewrite Hm. discriminate.
  - destruct (Hok tt more_fixtures.secret eq_refl) as (H1 & _ & _ & Hup & _).
    + unfold more_fixtures.asIs. rewrite Hm, Hs. reflexivity.
    + reflexivity.
    + split; [exact H1|].
      destruct Hup as [Hp Hu];
        [unfold more_fixtures.asIs; by rewrite Hm|].
      split; [exact Hp|]. apply Hu. discriminate.
Defined.
